(** * Pasta Shapes bulk image downloader: model and verification

    Shallow embedding of [tools/pasta-images-downloader/download_images.py].

    The library code is that of Python 3.11 on Linux.

    - A Python [str] is a [string] whose characters are the code points
      below 256; [str.lower], [str.strip] and [repr] are those of Python on
      that range (white space is 9-13, 28-32, 133 and 160).  Text with
      other code points is outside the model, and so is the decoding of the
      manifest: a file holds its text.
    - A [pathlib.Path] is the list of its components below the file system
      root [/].  A path names one entry of the file system: there are no
      symbolic links, and [..] is a name like any other, which the
      operating system would resolve; the root directory always exists.
    - The file system is a finite map from paths to regular files,
      directories and special files.  Its calls fail where the kind of an
      entry makes them fail (a file in the place of a directory, a directory
      in the place of a file), with the error number and text of Linux; a
      write fails when the platform says so.  A call that only inspects an
      entry ([Path.exists], [Path.stat], [Path.is_file]) never fails: the
      failures that [Path.exists] re-raises (a name longer than the system
      allows, a directory that may not be searched) are outside the model.
    - The file system, the log of HTTP requests and the standard output form
      the [world] threaded through the script; Python exceptions are the
      [Raise] results of a state-and-exception monad.
    - Library code that the script calls but does not contain
      ([csv.DictReader], [urllib.parse.urlparse], the zip encoder, the
      network and the clock) is collected in the [Platform] record, over
      which every theorem is stated; [Demo] is one small platform on which
      the script is run. *)

From Stdlib Require Import String Ascii ZArith List Lia Bool.
From stdpp Require Import base option list gmap strings fin_maps pretty.

Local Open Scope string_scope.

(** ** Python string helpers *)

Module Py.

Fixpoint contains (c : ascii) (s : string) : bool :=
  match s with
  | EmptyString => false
  | String a s' => Ascii.eqb a c || contains c s'
  end.

(** [s.split(c)[-1]] for a one-character separator: the text after the last
    [c], or all of [s] when [c] does not occur.  [os.path.basename] is the
    same function at ["/"]. *)
Fixpoint after_last (c : ascii) (s : string) : string :=
  match s with
  | EmptyString => EmptyString
  | String a s' =>
      if contains c s' then after_last c s'
      else if Ascii.eqb a c then s' else s
  end.

(** [s.split(c)[0]]: the text before the first [c]. *)
Fixpoint before_first (c : ascii) (s : string) : string :=
  match s with
  | EmptyString => EmptyString
  | String a s' =>
      if Ascii.eqb a c then EmptyString else String a (before_first c s')
  end.

(** [s.rfind(c)], with [None] for Python's [-1]. *)
Fixpoint rfind (c : ascii) (s : string) : option nat :=
  match s with
  | EmptyString => None
  | String a s' =>
      match rfind c s' with
      | Some i => Some (S i)
      | None => if Ascii.eqb a c then Some 0 else None
      end
  end.

(** [s[i:]] and [s[:i]] *)
Fixpoint drop (i : nat) (s : string) : string :=
  match i, s with
  | S i', String _ s' => drop i' s'
  | _, _ => s
  end.

Fixpoint take (i : nat) (s : string) : string :=
  match i, s with
  | S i', String a s' => String a (take i' s')
  | _, _ => EmptyString
  end.

(** [str.lower] on one character: the letters A-Z and the capital letters
    of the Latin-1 range (192-222 without the multiplication sign). *)
Definition lower_char (a : ascii) : ascii :=
  let n := nat_of_ascii a in
  if ((65 <=? n)%nat && (n <=? 90)%nat)
     || ((192 <=? n)%nat && (n <=? 222)%nat && negb (n =? 215)%nat)
  then ascii_of_nat (n + 32) else a.

Fixpoint lower (s : string) : string :=
  match s with
  | EmptyString => EmptyString
  | String a s' => String (lower_char a) (lower s')
  end.

(** The characters for which [str.isspace] holds: the ASCII ones, the
    next-line control and the no-break space. *)
Definition is_space (a : ascii) : bool :=
  let n := nat_of_ascii a in
  ((9 <=? n)%nat && (n <=? 13)%nat) || ((28 <=? n)%nat && (n <=? 32)%nat)
  || (n =? 133)%nat || (n =? 160)%nat.

Fixpoint lstrip (s : string) : string :=
  match s with
  | EmptyString => EmptyString
  | String a s' => if is_space a then lstrip s' else s
  end.

Fixpoint rstrip (s : string) : string :=
  match s with
  | EmptyString => EmptyString
  | String a s' =>
      match rstrip s' with
      | EmptyString => if is_space a then EmptyString else String a EmptyString
      | t => String a t
      end
  end.

Definition strip (s : string) : string := rstrip (lstrip s).

Fixpoint all_space (s : string) : bool :=
  match s with
  | EmptyString => true
  | String a s' => is_space a && all_space s'
  end.

Definition startswith (p s : string) : bool := String.prefix p s.

(** Truthiness of a [str]. *)
Definition truthy (s : string) : bool :=
  match s with EmptyString => false | _ => true end.

(** [a or b] on strings. *)
Definition or_ (a b : string) : string := if truthy a then a else b.

(** [s.split(c)] for a one-character separator. *)
Fixpoint split (c : ascii) (s : string) : list string :=
  match s with
  | EmptyString => [EmptyString]
  | String a s' =>
      match split c s' with
      | [] => [EmptyString]
      | w :: ws => if Ascii.eqb a c then EmptyString :: w :: ws
                   else String a w :: ws
      end
  end.

(** [sep.join(l)] *)
Fixpoint join (sep : string) (l : list string) : string :=
  match l with
  | [] => EmptyString
  | [x] => x
  | x :: l' => x ++ sep ++ join sep l'
  end.

(** [str.isprintable] on one character *)
Definition is_printable (a : ascii) : bool :=
  let n := nat_of_ascii a in
  ((32 <=? n)%nat && (n <? 127)%nat) || ((161 <=? n)%nat && negb (n =? 173)%nat).

Definition hex_digit (n : nat) : ascii :=
  if (n <? 10)%nat then ascii_of_nat (48 + n) else ascii_of_nat (87 + n).

(** One character of [repr(s)], inside the quotes [q]. *)
Definition repr_char (q a : ascii) : string :=
  let n := nat_of_ascii a in
  if Ascii.eqb a q || Ascii.eqb a "092" then String "092" (String a EmptyString)
  else if (n =? 9)%nat then String "092" "t"
  else if (n =? 10)%nat then String "092" "n"
  else if (n =? 13)%nat then String "092" "r"
  else if is_printable a then String a EmptyString
  else String "092" (String "x" (String (hex_digit (n / 16))
                                   (String (hex_digit (n mod 16)) EmptyString))).

Fixpoint repr_chars (q : ascii) (s : string) : string :=
  match s with
  | EmptyString => EmptyString
  | String a s' => repr_char q a ++ repr_chars q s'
  end.

(** [repr(s)]: in single quotes, or in double quotes when [s] holds a
    single quote and no double quote. *)
Definition repr (s : string) : string :=
  let q := (if contains "'" s && negb (contains "034" s) then "034" else "'")%char in
  String q (repr_chars q s ++ String q EmptyString).

End Py.

(** ** Exceptions and results *)

Inductive exn : Type :=
| ConnectionError (msg : string)            (* [requests.get] raised *)
| HTTPError (status : Z) (reason url : string)  (* [raise_for_status] *)
| ChunkedEncodingError (msg : string)       (* [iter_content] raised *)
| OSError (errno : Z) (strerror : string) (filename filename2 : option string)
| ValueError (msg : string)
| KeyError (key : string)
| AttributeError (msg : string)
| UnicodeDecodeError (msg : string)
| CsvError (msg : string).

Inductive result (A : Type) : Type :=
| Ok (a : A)
| Raise (e : exn).
Arguments Ok {A} a.
Arguments Raise {A} e.

Definition is_ok {A} (r : result A) : bool :=
  match r with Ok _ => true | Raise _ => false end.

(** ** pathlib *)

Module Pathlib.

(** The components of an absolute POSIX path, the root left out. *)
Abbreviation path := (list string).

Definition parse_parts (s : string) : list string :=
  filter (λ c, c ≠ "" ∧ c ≠ ".") (Py.split "/" s).

(** [base / rel]: an absolute right operand replaces the left one. *)
Definition joinpath (base : path) (rel : string) : path :=
  if Py.startswith "/" rel then parse_parts rel else (base ++ parse_parts rel)%list.

Definition name (p : path) : string := List.last p "".

Definition parent (p : path) : path := removelast p.

Definition suffix (p : path) : string :=
  let n := name p in
  match Py.rfind "." n with
  | Some i =>
      if (0 <? i)%nat && (i <? String.length n - 1)%nat then Py.drop i n
      else ""
  | None => ""
  end.

Definition str (p : path) : string := "/" ++ Py.join "/" p.

(** [str] of a relative path: the empty one prints as a dot. *)
Definition str_relative (p : list string) : string :=
  match p with [] => "." | _ => Py.join "/" p end.

Definition with_suffix (p : path) (sfx : string) : result path :=
  if Py.contains "/" sfx then Raise (ValueError ("Invalid suffix " ++ Py.repr sfx))
  else if (Py.truthy sfx && negb (Py.startswith "." sfx)) || String.eqb sfx "."
  then Raise (ValueError ("Invalid suffix " ++ Py.repr sfx))
  else
    let n := name p in
    if negb (Py.truthy n)
    then Raise (ValueError ("PosixPath(" ++ Py.repr (str p) ++ ") has an empty name"))
    else
      let old := suffix p in
      let n' := if negb (Py.truthy old) then n ++ sfx
                else Py.take (String.length n - String.length old) n ++ sfx in
      Ok (parent p ++ [n'])%list.

Fixpoint is_prefix (base p : path) : bool :=
  match base, p with
  | [], _ => true
  | b :: base', c :: p' => String.eqb b c && is_prefix base' p'
  | _ :: _, [] => false
  end.

(** [p.relative_to(base)] *)
Definition relative_to (p base : path) : result (list string) :=
  if is_prefix base p then Ok (List.skipn (length base) p)
  else Raise (ValueError
                (Py.repr (str p) ++ " is not in the subpath of " ++ Py.repr (str base)
                   ++ " OR one path is relative and the other is absolute.")).

End Pathlib.

Import Pathlib.

(** ** The file system *)

Inductive node : Type :=
| File (data : string)   (* regular file *)
| Dir                    (* directory *)
| Special.               (* socket, device, ...: neither file nor directory *)

Module Fs.

(** The errors of the system calls, with the numbers and texts of Linux. *)
Definition ENOENT (f : string) : exn := OSError 2 "No such file or directory" (Some f) None.
Definition ENXIO (f : string) : exn := OSError 6 "No such device or address" (Some f) None.
Definition EEXIST (f : string) : exn := OSError 17 "File exists" (Some f) None.
Definition ENOTDIR (f : string) : exn := OSError 20 "Not a directory" (Some f) None.
Definition EISDIR (f : string) : exn := OSError 21 "Is a directory" (Some f) None.

(** What a path names; the root directory is always there. *)
Definition stat (fs : gmap path node) (p : path) : option node :=
  match p with [] => Some Dir | _ => fs !! p end.

Definition exists_ (fs : gmap path node) (p : path) : bool :=
  match stat fs p with Some _ => true | None => false end.

Definition is_file (fs : gmap path node) (p : path) : bool :=
  match stat fs p with Some (File _) => true | _ => false end.

Definition is_dir (fs : gmap path node) (p : path) : bool :=
  match stat fs p with Some Dir => true | _ => false end.

(** [st_size]: the length of a regular file, one block for a directory. *)
Definition node_size (n : node) : nat :=
  match n with File d => String.length d | Dir => 4096 | Special => 0 end.

Definition st_size (fs : gmap path node) (p : path) : result nat :=
  match stat fs p with
  | Some n => Ok (node_size n)
  | None => Raise (ENOENT (str p))
  end.

(** [Path.mkdir(parents=True, exist_ok=True)]: every missing directory on
    the way from the root to [target] is created; an entry on the way that
    is not a directory makes the call fail, and then nothing is created. *)
Fixpoint mkdirs (fs : gmap path node) (target done : path) (todo : list string)
  : result (gmap path node) :=
  match todo with
  | [] => Ok fs
  | c :: todo' =>
      let d := (done ++ [c])%list in
      match fs !! d with
      | Some Dir => mkdirs fs target d todo'
      | None => mkdirs (<[d := Dir]> fs) target d todo'
      | Some _ =>
          Raise (match todo' with
                 | [] => EEXIST (str target)
                 | _ => ENOTDIR (str target)
                 end)
      end
  end.

Definition mkdir_parents (fs : gmap path node) (p : path)
  : result (gmap path node) := mkdirs fs p [] p.

(** [open(p, "wb")]: creates or truncates the regular file [p]. *)
Definition open_wb (fs : gmap path node) (p : path) : result (gmap path node) :=
  match stat fs p with
  | Some Dir => Raise (EISDIR (str p))
  | Some Special => Raise (ENXIO (str p))
  | _ =>
      match stat fs (parent p) with
      | Some Dir => Ok (<[p := File ""]> fs)
      | Some _ => Raise (ENOTDIR (str p))
      | None => Raise (ENOENT (str p))
      end
  end.

(** [f.write(chunk)] on the file opened at [p]. *)
Definition append (fs : gmap path node) (p : path) (chunk : string)
  : gmap path node :=
  match fs !! p with
  | Some (File d) => <[p := File (d ++ chunk)]> fs
  | _ => fs
  end.

(** [os.replace(src, dst)].  The script renames the regular file that it
    has just written; the renaming of a directory is not modelled and
    raises here. *)
Definition replace (fs : gmap path node) (src dst : path)
  : result (gmap path node) :=
  match stat fs src with
  | None => Raise (OSError 2 "No such file or directory" (Some (str src)) (Some (str dst)))
  | Some Dir => Raise (OSError 21 "Is a directory" (Some (str src)) (Some (str dst)))
  | Some n =>
      if is_dir fs dst
      then Raise (OSError 21 "Is a directory" (Some (str src)) (Some (str dst)))
      else
        match stat fs (parent dst) with
        | Some Dir => Ok (<[dst := n]> (delete src fs))
        | Some _ =>
            Raise (OSError 20 "Not a directory" (Some (str src)) (Some (str dst)))
        | None =>
            Raise (OSError 2 "No such file or directory" (Some (str src)) (Some (str dst)))
        end
  end.

(** [Path.unlink()] *)
Definition unlink (fs : gmap path node) (p : path) : result (gmap path node) :=
  match stat fs p with
  | None => Raise (ENOENT (str p))
  | Some Dir => Raise (EISDIR (str p))
  | Some _ => Ok (delete p fs)
  end.

(** [p] lies strictly below [folder] *)
Definition below (folder p : path) : bool :=
  is_prefix folder p && (length folder <? length p)%nat.

(** every directory level from [folder] down to the parent of [p] is a
    directory, so that a recursive walk started at [folder] reaches [p] *)
Definition walkable (fs : gmap path node) (folder p : path) : bool :=
  forallb (λ k, is_dir fs (take k p))
          (seq (length folder) (length p - length folder)).

(** [folder.rglob("*")], in the order of the directory listing *)
Definition rglob (fs : gmap path node) (folder : path) : list path :=
  (map_to_list
     (filter (λ kv : path * node, below folder kv.1 && walkable fs folder kv.1) fs)).*1.

End Fs.

(** ** The platform: network, parsers, encoder, clock *)

(** The arguments of [requests.get]. *)
Record request : Type := Request {
  req_url : string;
  req_headers : list (string * string);
  req_stream : bool;
  req_timeout : Z;
  req_allow_redirects : bool }.

(** A response, as the script observes it: status line, final URL after
    redirects, the Content-Type header if there is one, and the body as the
    chunks that [iter_content] yields; [broken] is the error with which the
    stream ends when the connection fails before the body is complete. *)
Record response : Type := Response {
  status_code : Z;
  reason : string;
  url : string;
  content_type : option string;
  chunks : list string;
  broken : option string }.

Inductive reply : Type :=
| Unreachable (msg : string)
| Responded (r : response).

Inductive zip_method : Type := ZIP_STORED | ZIP_DEFLATED.

Record archive : Type := Archive {
  compression : zip_method;
  members : list (string * string) }.   (* arcname, data *)

(** One row of [csv.DictReader]: a short row has [None] values. *)
Abbreviation row := (gmap string (option string)).

Record Platform : Type := {
  (** the directory of the script, [Path(__file__).resolve().parent] *)
  ROOT : path;
  (** [csv.DictReader] over the decoded text of a file *)
  DictReader : string → result (list row);
  (** [urlparse(u).path] *)
  urlparse_path : string → string;
  (** the bytes of a zip file with the given members *)
  zip_bytes : archive → string;
  (** the reply to the [n]-th request of the process *)
  network : nat → request → reply;
  (** the error number and text, if any, with which the [k]-th [write]
      during the [n]-th request fails *)
  write_fault : nat → nat → option (Z * string);
  (** the elapsed time printed in the summary, formatted by [.1f] *)
  elapsed_1f : string }.

(** ** State and exceptions *)

Record world : Type := World {
  fs : gmap path node;
  sent : list request;      (* the requests issued so far, oldest first *)
  stdout : list string }.   (* the lines printed so far, oldest first *)

Definition M (A : Type) : Type := world → result A * world.

Definition ret {A} (a : A) : M A := λ w, (Ok a, w).

Definition bind {A B} (m : M A) (k : A → M B) : M B :=
  λ w, match m w with
       | (Ok a, w') => k a w'
       | (Raise e, w') => (Raise e, w')
       end.

Definition raise {A} (e : exn) : M A := λ w, (Raise e, w).

(** The outcome of a [try] block, handed to the code after it. *)
Definition try_ {A} (m : M A) : M (result A) :=
  λ w, let '(r, w') := m w in (Ok r, w').

Definition lift {A} (r : result A) : M A := λ w, (r, w).

Declare Scope py_scope.
Delimit Scope py_scope with py.
Notation "x <- m ;; k" := (bind m (λ x, k))
  (at level 100, m at next level, k at level 200, right associativity) : py_scope.
Notation "m ;;; k" := (bind m (λ _, k))
  (at level 100, k at level 200, right associativity) : py_scope.
Local Open Scope py_scope.

Definition get_fs : M (gmap path node) := λ w, (Ok (fs w), w).

(** a file system call: the file system changes only when it succeeds *)
Definition syscall (f : gmap path node → result (gmap path node)) : M unit :=
  λ w, match f (fs w) with
       | Ok fs' => (Ok tt, World fs' (sent w) (stdout w))
       | Raise e => (Raise e, w)
       end.

Definition print (line : string) : M unit :=
  λ w, (Ok tt, World (fs w) (sent w) (stdout w ++ [line])%list).

Fixpoint foldM {A S} (f : S → A → M S) (l : list A) (s : S) : M S :=
  match l with
  | [] => ret s
  | a :: l' => s' <- f s a ;; foldM f l' s'
  end.

(** [enumerate(l, start)] *)
Fixpoint enumerate {A} (start : nat) (l : list A) : list (nat * A) :=
  match l with
  | [] => []
  | a :: l' => (start, a) :: enumerate (S start) l'
  end.

(** [str(e)] *)
Definition exn_text (e : exn) : string :=
  match e with
  | ConnectionError msg => msg
  | HTTPError st rs u =>
      pretty st ++ (if (st <? 500)%Z then " Client Error: " else " Server Error: ")
        ++ rs ++ " for url: " ++ u
  | ChunkedEncodingError msg => msg
  | OSError n msg f f2 =>
      "[Errno " ++ pretty n ++ "] " ++ msg
        ++ match f, f2 with
           | Some a, Some b => ": " ++ Py.repr a ++ " -> " ++ Py.repr b
           | Some a, None => ": " ++ Py.repr a
           | None, _ => ""
           end
  | ValueError msg => msg
  | KeyError k => Py.repr k
  | AttributeError msg => msg
  | UnicodeDecodeError msg => msg
  | CsvError msg => msg
  end.

(** ** The script *)

Section Program.

Context (P : Platform).

Definition MANIFEST : path := joinpath (ROOT P) "manifest.csv".
Definition OUT_UNCOOKED : path := joinpath (ROOT P) "uncooked".
Definition OUT_COOKED : path := joinpath (ROOT P) "cooked".
Definition ZIP_OUT : path := joinpath (ROOT P) "pasta-images.zip".

Definition TIMEOUT_S : Z := 60.
Definition USER_AGENT : string :=
  "PastaShapesImageDownloader/1.0 (+https://homecharg.ing/)".

Definition CONTENT_TYPE_EXT : gmap string string :=
  list_to_map
    [ ("image/jpeg", ".jpg"); ("image/jpg", ".jpg"); ("image/png", ".png");
      ("image/webp", ".webp"); ("image/gif", ".gif"); ("image/tiff", ".tif");
      ("image/bmp", ".bmp") ].

Definition ensure_dirs : M unit :=
  syscall (λ fs, Fs.mkdir_parents fs OUT_UNCOOKED) ;;;
  syscall (λ fs, Fs.mkdir_parents fs OUT_COOKED).

Definition infer_ext_from_url (u : string) : string :=
  let base := Py.after_last "/" (urlparse_path P u) in
  if Py.contains "." base then
    let ext := "." ++ Py.lower (Py.after_last "." base) in
    if bool_decide (ext ∈ [".jpg"; ".jpeg"; ".png"; ".webp"; ".gif"; ".tif";
                           ".tiff"; ".bmp"])
    then (if String.eqb ext ".jpeg" then ".jpg" else ext)
    else ""
  else "".

Definition infer_ext_from_content_type (content_type : string) : string :=
  let ct := Py.lower (Py.strip (Py.before_first ";" (Py.or_ content_type ""))) in
  default "" (CONTENT_TYPE_EXT !! ct).

(** [requests.get(url, headers=headers, stream=True, timeout=TIMEOUT_S,
    allow_redirects=True)] *)
Definition requests_get (u : string) : M response :=
  λ w,
    let rq := Request u [("User-Agent", USER_AGENT)] true TIMEOUT_S true in
    let w' := World (fs w) (sent w ++ [rq])%list (stdout w) in
    match network P (length (sent w)) rq with
    | Unreachable msg => (Raise (ConnectionError msg), w')
    | Responded r => (Ok r, w')
    end.

Definition raise_for_status (r : response) : M unit :=
  if (400 <=? status_code r)%Z && (status_code r <? 600)%Z
  then raise (HTTPError (status_code r) (reason r) (url r))
  else ret tt.

(** [f.write(chunk)], the [k]-th write of the current download *)
Definition f_write (tmp_path : path) (k : nat) (chunk : string) : M unit :=
  λ w, match write_fault P (length (sent w)) k with
       | Some (n, msg) => (Raise (OSError n msg None None), w)
       | None => (Ok tt, World (Fs.append (fs w) tmp_path chunk) (sent w) (stdout w))
       end.

(** [for chunk in r.iter_content(...): if chunk: f.write(chunk)] *)
Fixpoint write_chunks (tmp_path : path) (k : nat) (cs : list string) : M unit :=
  match cs with
  | [] => ret tt
  | chunk :: cs' =>
      if Py.truthy chunk
      then f_write tmp_path k chunk ;;; write_chunks tmp_path (S k) cs'
      else write_chunks tmp_path k cs'
  end.

(** lines 95-98 *)
Definition save_body (r : response) (tmp_path : path) : M unit :=
  syscall (λ fs, Fs.open_wb fs tmp_path) ;;;
  write_chunks tmp_path 0 (chunks r) ;;;
  match broken r with
  | Some msg => raise (ChunkedEncodingError msg)
  | None => ret tt
  end.

(** lines 87-90: the value of [out_path] after the inference *)
Definition infer_out_path (r : response) (out_path : path) : result path :=
  if negb (Py.truthy (suffix out_path)) then
    let inferred :=
      Py.or_ (infer_ext_from_url (url r))
             (infer_ext_from_content_type (default "" (content_type r))) in
    if Py.truthy inferred then with_suffix out_path inferred else Ok out_path
  else Ok out_path.

(** lines 83-90 *)
Definition fetch_head (u : string) (out_path : path) : M (response * path) :=
  r <- requests_get u ;;
  raise_for_status r ;;;
  out_path' <- lift (infer_out_path r out_path) ;;
  ret (r, out_path').

(** lines 92-102, with [out_path] as the inference left it *)
Definition fetch_body (r : response) (out_path : path) : M (bool * string) :=
  syscall (λ fs, Fs.mkdir_parents fs (parent out_path)) ;;;
  tmp_path <- lift (with_suffix out_path (suffix out_path ++ ".part")) ;;
  save_body r tmp_path ;;;
  syscall (λ fs, Fs.replace fs tmp_path out_path) ;;;
  rel <- lift (relative_to out_path (ROOT P)) ;;
  ret (true, "OK " ++ str_relative rel).

(** line 104: the handler, run with [out_path] as it is when the exception
    arrives *)
Definition on_error (u : string) (out_path : path) (e : exn) : M (bool * string) :=
  rel <- lift (relative_to out_path (ROOT P)) ;;
  ret (false, "ERROR " ++ u ++ " -> " ++ str_relative rel ++ ": " ++ exn_text e).

(** [out_path.exists() and out_path.stat().st_size > 0], line 77, outside
    the [try]; the file system of the model answers both calls, so the
    test returns. *)
Definition present (out_path : path) : M bool :=
  fs0 <- get_fs ;;
  if Fs.exists_ fs0 out_path
  then sz <- lift (Fs.st_size fs0 out_path) ;; ret (0 <? sz)%nat
  else ret false.

Definition download_one (u : string) (out_path : path) : M (bool * string) :=
  skip <- present out_path ;;
  if skip then
    rel <- lift (relative_to out_path (ROOT P)) ;;
    ret (false, "SKIP (exists) " ++ str_relative rel)
  else
    head <- try_ (fetch_head u out_path) ;;
    match head with
    | Raise e => on_error u out_path e
    | Ok (r, out_path') =>
        res <- try_ (fetch_body r out_path') ;;
        match res with
        | Raise e => on_error u out_path' e
        | Ok v => ret v
        end
    end.

(** [z.write(p, arcname=str(p.relative_to(ROOT)))] *)
Definition zip_write (fs0 : gmap path node) (z : list (string * string)) (p : path)
  : result (list (string * string)) :=
  match relative_to p (ROOT P) with
  | Raise e => Raise e
  | Ok rel =>
      match Fs.stat fs0 p with
      | Some (File d) => Ok (z ++ [(str_relative rel, d)])%list
      | _ => Raise (Fs.EISDIR (str p))
      end
  end.

(** lines 112-115: the members written while walking the two folders;
    the walk only reads the file system *)
Fixpoint zip_paths (fs0 : gmap path node) (z : list (string * string))
  (ps : list path) : result (list (string * string)) :=
  match ps with
  | [] => Ok z
  | p :: ps' =>
      if Fs.is_file fs0 p then
        match zip_write fs0 z p with
        | Ok z' => zip_paths fs0 z' ps'
        | Raise e => Raise e
        end
      else zip_paths fs0 z ps'
  end.

Fixpoint zip_folders (fs0 : gmap path node) (z : list (string * string))
  (folders : list path) : result (list (string * string)) :=
  match folders with
  | [] => Ok z
  | folder :: folders' =>
      match zip_paths fs0 z (Fs.rglob fs0 folder) with
      | Ok z' => zip_folders fs0 z' folders'
      | Raise e => Raise e
      end
  end.

Definition build_zip (zip_path : path) : M unit :=
  fs0 <- get_fs ;;
  (if Fs.exists_ fs0 zip_path then syscall (λ fs, Fs.unlink fs zip_path)
   else ret tt) ;;;
  syscall (λ fs, Fs.open_wb fs zip_path) ;;;
  fs1 <- get_fs ;;
  z <- lift (zip_folders fs1 [] [OUT_UNCOOKED; OUT_COOKED]) ;;
  syscall (λ fs, Ok (<[zip_path := File (zip_bytes P (Archive ZIP_DEFLATED z))]> fs)).

(** [row[key].strip()] *)
Definition field (r : row) (key : string) : result string :=
  match r !! key with
  | None => Raise (KeyError key)
  | Some None => Raise (AttributeError "'NoneType' object has no attribute 'strip'")
  | Some (Some v) => Ok (Py.strip v)
  end.

(** lines 127-130 *)
Fixpoint read_jobs (rows : list row) : result (list (string * path)) :=
  match rows with
  | [] => Ok []
  | r :: rows' =>
      match field r "url" with
      | Raise e => Raise e
      | Ok u =>
          match field r "relative_output_path" with
          | Raise e => Raise e
          | Ok rel =>
              match read_jobs rows' with
              | Raise e => Raise e
              | Ok jobs => Ok ((u, joinpath (ROOT P) rel) :: jobs)
              end
          end
      end
  end.

(** [open(MANIFEST, newline="", encoding="utf-8")] and its text *)
Definition read_text (p : path) : M string :=
  fs0 <- get_fs ;;
  match Fs.stat fs0 p with
  | Some (File d) => ret d
  | Some Dir => raise (Fs.EISDIR (str p))
  | Some Special => raise (Fs.ENXIO (str p))
  | None => raise (Fs.ENOENT (str p))
  end.

(** lines 137-142: one turn of the loop *)
Definition job_step (total : nat) (counts : nat * nat)
  (job : nat * (string * path)) : M (nat * nat) :=
  let '(downloaded, errors) := counts in
  let '(idx, (u, out_path)) := job in
  res <- download_one u out_path ;;
  let '(ok, msg) := res in
  print ("[" ++ pretty idx ++ "/" ++ pretty total ++ "] " ++ msg) ;;;
  if Py.startswith "ERROR" msg then ret (downloaded, S errors)
  else if ok then ret (S downloaded, errors)
  else ret (downloaded, errors).

Definition run_jobs (jobs : list (string * path)) : M (nat * nat) :=
  foldM (job_step (length jobs)) (enumerate 1 jobs) (0, 0)%nat.

(** lines 144-153 *)
Definition finish (counts : nat * nat) : M Z :=
  let '(downloaded, errors) := counts in
  build_zip ZIP_OUT ;;;
  print (String "010" "Done.") ;;;
  print ("Downloaded this run: " ++ pretty downloaded) ;;;
  print ("Errors: " ++ pretty errors) ;;;
  print ("ZIP created: " ++ str ZIP_OUT) ;;;
  print ("Elapsed: " ++ elapsed_1f P ++ "s") ;;;
  ret (if (0 <? errors)%nat then 1 else 0)%Z.

Definition main : M Z :=
  ensure_dirs ;;;
  fs0 <- get_fs ;;
  if negb (Fs.exists_ fs0 MANIFEST) then
    print ("Missing manifest.csv at: " ++ str MANIFEST) ;;;
    ret 2%Z
  else
    text <- read_text MANIFEST ;;
    rows <- lift (DictReader P text) ;;
    jobs <- lift (read_jobs rows) ;;
    counts <- run_jobs jobs ;;
    finish counts.


End Program.

(** ** A small platform to run the script on *)

Module Demo.

(** [urlparse(u).path] for [scheme://host/path?query#fragment] URLs
    without path parameters *)
Definition url_path (u : string) : string :=
  let rest := match String.index 0 "://" u with
              | Some i => Py.drop (i + 3) u
              | None => u
              end in
  let rest := Py.before_first "#" rest in
  let rest := Py.before_first "?" rest in
  Py.drop (String.length (Py.before_first "/" rest)) rest.

Fixpoint zip_row (header : list string) (fields : list string) : row :=
  match header, fields with
  | [], _ => ∅
  | h :: header', [] => <[h := None]> (zip_row header' [])
  | h :: header', f :: fields' => <[h := Some f]> (zip_row header' fields')
  end.

(** [csv.DictReader] for text without quotes, one record per line *)
Definition dict_reader (text : string) : result (list row) :=
  match filter (λ l, l ≠ "") (Py.split "010" text) with
  | [] => Ok []
  | header :: lines =>
      Ok (map (λ l, zip_row (Py.split "," header) (Py.split "," l)) lines)
  end.

Definition encode_zip (a : archive) : string :=
  (match compression a with ZIP_STORED => "PK0" | ZIP_DEFLATED => "PK8" end)
    ++ String.concat "" (map (λ m : string * string, "<" ++ m.1 ++ "=" ++ m.2 ++ ">") (members a)).

Definition shape_png : response :=
  Response 200 "OK" "https://cdn.example.com/render?id=1" (Some "image/png; q=1")
           ["PNG"; ""; "DATA"] None.

Definition farfalle_jpeg : response :=
  Response 200 "OK" "https://upload.example.org/full/Farfalle.JPEG" (Some "text/html")
           ["JFIF"] None.

Definition gone : response :=
  Response 404 "Not Found" "https://example.com/gone.jpg" None [] None.

Definition net (n : nat) (rq : request) : reply :=
  if String.eqb (req_url rq) "https://example.com/img" then Responded shape_png
  else if String.eqb (req_url rq) "https://example.com/farfalle" then Responded farfalle_jpeg
  else if String.eqb (req_url rq) "https://example.com/gone.jpg" then Responded gone
  else Unreachable "Name or service not known".

Definition platform : Platform :=
  {| ROOT := ["srv"; "pasta"];
     DictReader := dict_reader;
     urlparse_path := url_path;
     zip_bytes := encode_zip;
     network := net;
     write_fault := λ _ _, None;
     elapsed_1f := "0.3" |}.

Definition line (u rel : string) : string := u ++ "," ++ rel ++ String "010" "".

Definition header : string := line "url" "relative_output_path".

(** three jobs: no extension, an extension, and a URL that is gone *)
Definition manifest : string :=
  header ++ line "https://example.com/img " " uncooked/shape1"
         ++ line "https://example.com/farfalle" "cooked/farfalle.jpg"
         ++ line "https://example.com/gone.jpg" "cooked/gone.jpg".

(** two jobs that succeed, the first without extension *)
Definition manifest_bare : string :=
  header ++ line "https://example.com/img" "uncooked/shape1"
         ++ line "https://example.com/farfalle" "cooked/farfalle.jpg".

(** two jobs that succeed, both with extension *)
Definition manifest_ext : string :=
  header ++ line "https://example.com/img" "uncooked/shape1.png"
         ++ line "https://example.com/farfalle" "cooked/farfalle.jpg".

Definition img : string := "https://example.com/img".
Definition farfalle : string := "https://example.com/farfalle".

Definition root : path := ["srv"; "pasta"].
Definition shape1 : path := ["srv"; "pasta"; "uncooked"; "shape1"].
Definition shape1_png : path := ["srv"; "pasta"; "uncooked"; "shape1.png"].
Definition farfalle_jpg : path := ["srv"; "pasta"; "cooked"; "farfalle.jpg"].
Definition gone_jpg : path := ["srv"; "pasta"; "cooked"; "gone.jpg"].

Definition disk_with (m : string) : gmap path node :=
  <[ ["srv"] := Dir ]> (<[ root := Dir ]>
  (<[ ["srv"; "pasta"; "manifest.csv"] := File m ]> ∅)).

Definition start : world := World (disk_with manifest) [] [].
Definition start_bare : world := World (disk_with manifest_bare) [] [].
Definition start_ext : world := World (disk_with manifest_ext) [] [].
Definition start_blank : world :=
  World (<[ ["srv"] := Dir ]> (<[ root := Dir ]> ∅)) [] [].

(** the worlds that a run leaves behind *)
Definition folders : world := (ensure_dirs platform start).2.
Definition after_bare : world := (main platform start_bare).2.
Definition after_ext : world := (main platform start_ext).2.

(** a disk that is full after the first write of a download *)
Definition full_disk : Platform :=
  {| ROOT := root;
     DictReader := dict_reader;
     urlparse_path := url_path;
     zip_bytes := encode_zip;
     network := net;
     write_fault := λ _ k, if (k =? 1)%nat then Some (28%Z, "No space left on device")
                           else None;
     elapsed_1f := "0.3" |}.

(** the destination is there, but empty *)
Definition empty_dest : world :=
  World (<[ shape1_png := File "" ]> (fs folders)) [] [].

(** a tree with a file, a directory and a socket in a folder *)
Definition tree : world :=
  World (<[ ["srv"; "pasta"; "uncooked"; "a.jpg"] := File "AAA" ]>
         (<[ ["srv"; "pasta"; "uncooked"; "sub"] := Dir ]>
         (<[ ["srv"; "pasta"; "uncooked"; "sub"; "b.png"] := File "B" ]>
         (<[ ["srv"; "pasta"; "uncooked"; "sock"] := Special ]>
         (<[ ["srv"; "pasta"; "pasta-images.zip"] := File "old" ]>
         (<[ ["srv"; "pasta"; "notes.txt"] := File "n" ]> (fs folders)))))))
        [] [].

Definition rows : list row :=
  match dict_reader manifest with Ok rs => rs | Raise _ => [] end.

Definition rows_ext : list row :=
  match dict_reader manifest_ext with Ok rs => rs | Raise _ => [] end.

Definition jobs : list (string * path) :=
  [ ("https://example.com/img", shape1);
    ("https://example.com/farfalle", farfalle_jpg);
    ("https://example.com/gone.jpg", gone_jpg) ].

Definition jobs_ext : list (string * path) :=
  [ ("https://example.com/img", shape1_png);
    ("https://example.com/farfalle", farfalle_jpg) ].

(** the name of an output folder is taken by a regular file *)
Definition blocked : world :=
  World (<[ ["srv"; "pasta"; "cooked"] := File "x" ]> (disk_with manifest)) [] [].


(** a good row followed by one without the url column *)
Definition good_row : row := zip_row ["url"; "relative_output_path"] ["a"; "b"].
Definition bad_row : row := zip_row ["relative_output_path"] ["c"].

Definition manifest_csv : path := ["srv"; "pasta"; "manifest.csv"].

(** two jobs with extension, the second of which gets a 404 *)
Definition manifest_retry : string :=
  header ++ line "https://example.com/farfalle" "cooked/farfalle.jpg"
         ++ line "https://example.com/gone.jpg" "cooked/gone.jpg".
Definition start_retry : world := World (disk_with manifest_retry) [] [].
Definition after_retry : world := (main platform start_retry).2.

(** the jobs of a manifest whose first row gives an absolute path: a URL
    that is gone, to be stored outside the root *)
Definition manifest_outside : string :=
  header ++ line "https://example.com/gone.jpg" "/etc/gone.jpg"
         ++ line "https://example.com/farfalle" "cooked/farfalle.jpg".
Definition jobs_outside : list (string * path) :=
  [ ("https://example.com/gone.jpg", ["etc"; "gone.jpg"]);
    ("https://example.com/farfalle", farfalle_jpg) ].


(** a destination outside the root *)
Definition etc_x : path := ["etc"; "x.jpg"].

(** the temporary file of [shape1.png], holding data of an earlier attempt *)
Definition shape1_part : path := ["srv"; "pasta"; "uncooked"; "shape1.png.part"].
Definition stale_part : world :=
  World (<[ shape1_part := File "STALE-DATA" ]> (fs folders)) [] [].

End Demo.


(** ** Vocabulary of the specification *)

(** What became of one job. *)
Inductive outcome : Type :=
| Skipped
| Downloaded
| Failed (e : exn).

Definition is_failed (o : outcome) : bool :=
  match o with Failed _ => true | _ => false end.

Definition is_downloaded (o : outcome) : bool :=
  match o with Downloaded => true | _ => false end.

Definition is_skipped (o : outcome) : bool :=
  match o with Skipped => true | _ => false end.

(** [t] is [s] without the white space around it. *)
Definition head_space (s : string) : bool :=
  match s with
  | EmptyString => false
  | String a _ => Py.is_space a
  end.

Fixpoint last_space (s : string) : bool :=
  match s with
  | EmptyString => false
  | String a EmptyString => Py.is_space a
  | String _ s' => last_space s'
  end.

Definition trimmed_of (s t : string) : Prop :=
  ∃ l r, s = l ++ t ++ r
         ∧ Py.all_space l = true ∧ Py.all_space r = true
         ∧ head_space t = false ∧ last_space t = false.

Section Vocabulary.

Context (P : Platform).

(** The whitelist of image suffixes. *)
Definition IMAGE_SUFFIXES : list string :=
  [".jpg"; ".jpeg"; ".png"; ".webp"; ".gif"; ".tif"; ".tiff"; ".bmp"].

(** The suffix of the path of a URL, in lower case: the text from the last
    dot of the last path segment on, empty when that segment has no dot. *)
Definition url_suffix (u : string) : string :=
  let base := Py.after_last "/" (urlparse_path P u) in
  if Py.contains "." base then "." ++ Py.lower (Py.after_last "." base) else "".

(** The media type that a response declares: its Content-Type header
    without parameters, trimmed, in lower case; empty without the header. *)
Definition media_type (r : response) : string :=
  Py.lower (Py.strip (Py.before_first ";" (default "" (content_type r)))).

(** The fixed table from media types to suffixes. *)
Definition CONTENT_TYPE_TABLE : list (string * string) :=
  [ ("image/jpeg", ".jpg"); ("image/jpg", ".jpg"); ("image/png", ".png");
    ("image/webp", ".webp"); ("image/gif", ".gif"); ("image/tiff", ".tif");
    ("image/bmp", ".bmp") ].

(** A path with [e] appended to its last component. *)
Definition add_ext (p : path) (e : string) : path :=
  (parent p ++ [(name p ++ e)%string])%list.

(** The temporary file of a download: in the directory of the final
    path, named like it with [.part] appended. *)
Definition temp_sibling (final : path) : path := add_ext final ".part".

(** The whole body of a response. *)
Definition body_of (r : response) : string :=
  fold_right String.append "" (chunks r).

(** The request that the script sends for a URL. *)
Definition get_request (u : string) : request :=
  Request u [("User-Agent", USER_AGENT)] true TIMEOUT_S true.

(** The path at which the fetch of [u] for the manifest path [out_path],
    started in [w], stores the file: the manifest path, with the inferred
    extension once a successful response has led to one. *)
Definition final_path (u : string) (out_path : path) (w : world) : path :=
  match fetch_head P u out_path w with
  | (Ok (_, p), _) => p
  | (Raise _, _) => out_path
  end.

(** A job is present when its path names an entry of non-zero size. *)
Definition is_present (fs0 : gmap path node) (out_path : path) : bool :=
  match Fs.stat fs0 out_path with
  | Some n => (0 <? Fs.node_size n)%nat
  | None => false
  end.

(** The three results of a fetch; formatting the path relative to the
    root raises when the path is not under the root. *)
Definition report_skip (out_path : path) : result (bool * string) :=
  match relative_to out_path (ROOT P) with
  | Ok rel => Ok (false, "SKIP (exists) " ++ str_relative rel)
  | Raise e => Raise e
  end.

Definition report_ok (final : path) : result (bool * string) :=
  match relative_to final (ROOT P) with
  | Ok rel => Ok (true, "OK " ++ str_relative rel)
  | Raise e => Raise e
  end.

Definition report_error (u : string) (final : path) (e : exn)
  : result (bool * string) :=
  match relative_to final (ROOT P) with
  | Ok rel => Ok (false, "ERROR " ++ u ++ " -> " ++ str_relative rel ++ ": "
                           ++ exn_text e)
  | Raise e' => Raise e'
  end.

(** The name of a path inside the archive and in the messages: the path
    relative to the root. *)
Definition arcname (p : path) : string :=
  str_relative (skipn (length (ROOT P)) p).

(** A job fails when the request, the response status or the writing of
    the file raises; it is downloaded when the file reached its final path. *)
Definition outcome_of (u : string) (out_path : path) (w : world) : outcome :=
  if is_present (fs w) out_path then Skipped
  else
    match fetch_head P u out_path w with
    | (Raise e, _) => Failed e
    | (Ok (r, final), w1) =>
        match fetch_body P r final w1 with
        | (Raise e, _) => Failed e
        | (Ok _, _) => Downloaded
        end
    end.

(** The result that a fetch returns for an outcome. *)
Definition render (u : string) (out_path final : path) (o : outcome)
  : bool * string :=
  match o with
  | Skipped => (false, "SKIP (exists) " ++ arcname out_path)
  | Downloaded => (true, "OK " ++ arcname final)
  | Failed e =>
      (false, "ERROR " ++ u ++ " -> " ++ arcname final ++ ": " ++ exn_text e)
  end.

Definition progress_line (idx total : nat) (msg : string) : string :=
  "[" ++ pretty idx ++ "/" ++ pretty total ++ "] " ++ msg.

(** The world in which the job after [job] starts. *)
Definition after_job (total : nat) (job : nat * (string * path)) (w : world)
  : world :=
  (job_step P total (0, 0)%nat job w).2.

(** The outcomes of the jobs of a batch, in order. *)
Fixpoint outcomes (total : nat) (jobs : list (nat * (string * path)))
  (w : world) : list outcome :=
  match jobs with
  | [] => []
  | job :: jobs' =>
      outcome_of job.2.1 job.2.2 w :: outcomes total jobs' (after_job total job w)
  end.

(** The progress lines of the jobs of a batch, in order. *)
Fixpoint progress (total : nat) (jobs : list (nat * (string * path)))
  (w : world) : list string :=
  match jobs with
  | [] => []
  | job :: jobs' =>
      progress_line job.1 total
        (render job.2.1 job.2.2 (final_path job.2.1 job.2.2 w)
                (outcome_of job.2.1 job.2.2 w)).2
        :: progress total jobs' (after_job total job w)
  end.

(** The manifest on disk is a regular file that parses into [jobs]. *)
Definition reads_manifest (fs0 : gmap path node)
  (jobs : list (string * path)) : Prop :=
  ∃ text rows, fs0 !! MANIFEST P = Some (File text)
               ∧ DictReader P text = Ok rows
               ∧ read_jobs P rows = Ok jobs.

(** [p] is found by the recursive walk of [folder]. *)
Definition found_in (fs0 : gmap path node) (folder p : path) : Prop :=
  is_Some (fs0 !! p) ∧ Fs.below folder p = true
  ∧ Fs.walkable fs0 folder p = true.

(** The regular files that the archiver visits, in the order of the walk. *)
Definition archived_files (fs0 : gmap path node) : list path :=
  filter (λ p, Fs.is_file fs0 p)
         (Fs.rglob fs0 (OUT_UNCOOKED P) ++ Fs.rglob fs0 (OUT_COOKED P))%list.

Definition member_of (fs0 : gmap path node) (p : path) : string * string :=
  (arcname p, match fs0 !! p with Some (File d) => d | _ => "" end).

Definition archive_of (fs0 : gmap path node) : archive :=
  Archive ZIP_DEFLATED (map (member_of fs0) (archived_files fs0)).

(** Every directory on the way to [p], and [p] itself, is a directory. *)
Definition all_dirs (fs0 : gmap path node) (p : path) : Prop :=
  ∀ k, (1 ≤ k ≤ length p)%nat → fs0 !! take k p = Some Dir.

(** The progress line of a job that is skipped. *)
Definition skip_line (total : nat) (job : nat * (string * path)) : string :=
  progress_line job.1 total ("SKIP (exists) " ++ arcname job.2.2).

(** C1 as the specification states it, for the run started in [w0]: a
    second run changes nothing on disk, sends nothing, and skips every
    job. *)
Definition rerun_is_idle (w0 : world) : Prop :=
  ∀ c1 w1, main P w0 = (Ok c1, w1) →
    ∃ c2 w2, main P w1 = (Ok c2, w2)
             ∧ fs w2 = fs w1
             ∧ sent w2 = sent w1
             ∧ ∀ jobs, reads_manifest (fs w1) jobs →
                 Forall (λ o, is_skipped o = true)
                        (outcomes (length jobs) (enumerate 1 jobs) w1).

(** C2 as the specification states it, for one fetch: after a failure
    nothing exists at the final path. *)
Definition nothing_at_final_after_failure (u : string) (out_path : path)
  (w : world) : Prop :=
  ∀ msg w', download_one P u out_path w = (Ok (false, msg), w') →
    Py.startswith "ERROR" msg = true →
    Fs.exists_ (fs w') (final_path u out_path w) = false.

(** The summary that ends a run. *)
Definition summary (downloaded errors : nat) : list string :=
  [ String "010" "Done.";
    "Downloaded this run: " ++ pretty downloaded;
    "Errors: " ++ pretty errors;
    "ZIP created: " ++ str (ZIP_OUT P);
    "Elapsed: " ++ elapsed_1f P ++ "s" ].

(** The requests that the jobs of a batch send, in order: one for each job
    whose destination is not present when its turn comes. *)
Fixpoint requests_of (total : nat) (jobs : list (nat * (string * path)))
  (w : world) : list request :=
  match jobs with
  | [] => []
  | job :: jobs' =>
      ((if is_present (fs w) job.2.2 then [] else [get_request job.2.1])
         ++ requests_of total jobs' (after_job total job w))%list
  end.

(** A row that provides both fields. *)
Definition complete_row (r : row) : Prop :=
  ∃ u rel, r !! "url" = Some (Some u)
           ∧ r !! "relative_output_path" = Some (Some rel).

(** A relative path in normal form: its components, separated by single
    slashes, are neither empty nor a dot. *)
Definition normal_relative (rel : string) : Prop :=
  Forall (λ c : string, c ≠ "" ∧ c ≠ ".") (Py.split "/" rel).

(** The suffixes that the two inferences can produce. *)
Definition URL_RESULTS : list string :=
  [""; ".jpg"; ".png"; ".webp"; ".gif"; ".tif"; ".tiff"; ".bmp"].

Definition CONTENT_TYPE_RESULTS : list string :=
  [""; ".jpg"; ".png"; ".webp"; ".gif"; ".tif"; ".bmp"].

(** How the names end that a fetch writes to: the suffix of the temporary
    file and the suffixes that the inference appends. *)
Definition WRITTEN_ENDINGS : list string :=
  [".part"; ".jpg"; ".png"; ".webp"; ".gif"; ".tif"; ".tiff"; ".bmp"].

Definition ends_with (e s : string) : Prop := ∃ n, s = n ++ e.

(** C3 as the specification states it, for a job list run in [w]: no
    exception leaves the loop, every job is attempted and reported, and the
    error counter counts the jobs that failed. *)
Definition failures_are_isolated (jobs : list (string * path)) (w : world) : Prop :=
  ∃ d e wl, run_jobs P jobs w = (Ok (d, e), wl)
            ∧ length (stdout wl) = (length (stdout w) + length jobs)%nat
            ∧ e = length (List.filter is_failed
                            (outcomes (length jobs) (enumerate 1 jobs) w)).




End Vocabulary.

Section StringFacts.

Lemma string_app_cons a (s t : string) : String a s ++ t = String a (s ++ t).
Proof. done. Qed.

Lemma string_app_nil_r (s : string) : s ++ "" = s.
Proof. induction s as [|x s IH]; [done|]. by rewrite string_app_cons, IH. Qed.

Lemma string_app_assoc (a b c : string) : (a ++ b) ++ c = a ++ b ++ c.
Proof. induction a as [|x a IH]; [done|]. by rewrite !string_app_cons, IH. Qed.

Lemma string_app_length (a b : string) :
  String.length (a ++ b) = String.length a + String.length b.
Proof.
  induction a as [|x a IH]; [done|]. rewrite string_app_cons. simpl. by rewrite IH.
Qed.

Lemma string_take_drop i (s : string) : Py.take i s ++ Py.drop i s = s.
Proof.
  revert s; induction i as [|i IH]; intros [|a s]; simpl; try done.
  by rewrite string_app_cons, IH.
Qed.

Lemma string_drop_length i (s : string) :
  String.length (Py.drop i s) = String.length s - i.
Proof. revert s; induction i as [|i IH]; intros [|a s]; simpl; auto. Qed.

Lemma rfind_lt c (s : string) i : Py.rfind c s = Some i → i < String.length s.
Proof.
  revert i; induction s as [|a s IH]; simpl; intros i; [done|].
  destruct (Py.rfind c s) as [j|].
  - intros [= <-]. specialize (IH j eq_refl). lia.
  - destruct (Ascii.eqb a c); intros [= <-]. lia.
Qed.

Lemma truthy_true s : Py.truthy s = true ↔ s ≠ "".
Proof. destruct s; naive_solver. Qed.

Lemma truthy_false s : Py.truthy s = false ↔ s = "".
Proof. destruct s; naive_solver. Qed.

Lemma lstrip_spec s :
  ∃ l, s = l ++ Py.lstrip s ∧ Py.all_space l = true
       ∧ head_space (Py.lstrip s) = false.
Proof.
  induction s as [|a s (l & Hl & Hs & Hh)]; [by exists ""|]. simpl.
  destruct (Py.is_space a) eqn:Ha.
  - exists (String a l). rewrite string_app_cons, <- Hl. simpl. by rewrite Ha.
  - exists "". simpl. by rewrite Ha.
Qed.

Lemma rstrip_spec s :
  ∃ r, s = Py.rstrip s ++ r ∧ Py.all_space r = true
       ∧ last_space (Py.rstrip s) = false
       ∧ (head_space s = false → head_space (Py.rstrip s) = false).
Proof.
  induction s as [|a s (r & Hr & Hs & Hl & Hh)]; [by exists ""|]. simpl.
  destruct (Py.rstrip s) as [|b t] eqn:Ht.
  - assert (s = r) as -> by exact Hr.
    destruct (Py.is_space a) eqn:Ha.
    + exists (String a r). simpl. by rewrite Ha.
    + exists r. simpl. by rewrite Ha.
  - exists r. rewrite string_app_cons, <- Hr. simpl in *. by rewrite Hl.
Qed.

Lemma strip_trimmed s : trimmed_of s (Py.strip s).
Proof.
  destruct (lstrip_spec s) as (l & Hl & Hls & Hh).
  destruct (rstrip_spec (Py.lstrip s)) as (r & Hr & Hrs & Hlast & Hhead).
  exists l, r. unfold Py.strip. repeat split; auto.
  by rewrite <- Hr.
Qed.

End StringFacts.

Section PathFacts.

(** The name of the temporary file is the final name followed by [.part]. *)
Lemma with_suffix_part p tmp :
  with_suffix p (suffix p ++ ".part") = Ok tmp → tmp = add_ext p ".part".
Proof.
  unfold with_suffix, add_ext. repeat case_match; try done.
  all: intros [= <-]; do 2 f_equal.
  - match goal with H : negb (Py.truthy (suffix p)) = true |- _ =>
      apply negb_true_iff, truthy_false in H; by rewrite H end.
  - rewrite <- string_app_assoc. f_equal.
    unfold suffix in *. destruct (Py.rfind "." (name p)) as [i|] eqn:Hi; [|done].
    case_match; [|done].
    pose proof (rfind_lt _ _ _ Hi).
    rewrite string_drop_length.
    replace (String.length (name p) - (String.length (name p) - i)) with i by lia.
    apply string_take_drop.
Qed.

Lemma parent_length p : length (parent p) = length p - 1.
Proof.
  unfold parent. induction p as [|a [|b p] IH]; simpl in *; try done.
  rewrite IH. lia.
Qed.

Lemma parent_name p : p ≠ [] → p = (parent p ++ [name p])%list.
Proof. intros. unfold parent, name. by apply app_removelast_last. Qed.

Lemma add_ext_ne p e : e ≠ "" → add_ext p e ≠ p.
Proof.
  intros He Heq. destruct (decide (p = [])) as [->|Hp]; [done|].
  unfold add_ext in Heq.
  assert (parent p ++ [(name p ++ e)%string] = parent p ++ [name p])%list as Heq'
    by (by rewrite <- parent_name).
  clear Heq. rename Heq' into Heq.
  apply app_inv_head in Heq. injection Heq as Heq.
  apply (f_equal String.length) in Heq. rewrite string_app_length in Heq.
  destruct e; [done|]. simpl in Heq. lia.
Qed.

Lemma is_prefix_spec base p :
  is_prefix base p = true ↔ ∃ k, p = (base ++ k)%list.
Proof.
  revert p. induction base as [|b base IH]; intros p; simpl.
  { split; [intros _; by exists p|done]. }
  destruct p as [|c p]; [split; [done|by intros [? ?]]|].
  rewrite andb_true_iff, String.eqb_eq, IH. split.
  - intros [-> [k ->]]. by exists k.
  - intros [k [= -> ->]]. eauto.
Qed.

Lemma below_spec base p :
  Fs.below base p = true ↔ ∃ k, p = (base ++ k)%list ∧ k ≠ [].
Proof.
  unfold Fs.below. rewrite andb_true_iff, is_prefix_spec, Nat.ltb_lt. split.
  - intros [[k ->] Hl]. exists k. split; [done|].
    intros ->. rewrite app_nil_r in Hl. lia.
  - intros (k & -> & Hk). split; [by exists k|].
    rewrite length_app. destruct k; [done|simpl; lia].
Qed.

Lemma below_is_prefix base p : Fs.below base p = true → is_prefix base p = true.
Proof. unfold Fs.below. by intros [? _]%andb_true_iff. Qed.

Lemma below_sibling base p x :
  Fs.below base p = true → Fs.below base (parent p ++ [x])%list = true.
Proof.
  rewrite !below_spec. intros (k & -> & Hk).
  exists (parent k ++ [x])%list. split; [|by destruct (parent k)].
  unfold parent. rewrite removelast_app by done. by rewrite <- app_assoc.
Qed.

Lemma with_suffix_shape p sfx q :
  with_suffix p sfx = Ok q → ∃ x, q = (parent p ++ [x])%list.
Proof. unfold with_suffix. repeat case_match; try done; intros [= <-]; eauto. Qed.

End PathFacts.

Section Resolver.

Context (P : Platform).

Lemma or_empty_r s : Py.or_ s "" = s.
Proof. by destruct s. Qed.

Lemma infer_ext_from_url_spec u :
  infer_ext_from_url P u =
    if bool_decide (url_suffix P u ∈ IMAGE_SUFFIXES)
    then (if String.eqb (url_suffix P u) ".jpeg" then ".jpg" else url_suffix P u)
    else "".
Proof.
  unfold infer_ext_from_url, url_suffix, IMAGE_SUFFIXES.
  destruct (Py.contains "." _); [done|].
  case_bool_decide as H; [|done].
  repeat (apply elem_of_cons in H as [H|H]; [discriminate|]).
  by apply elem_of_nil in H.
Qed.

(** A well-formed suffix is appended to a path that has none. *)
Lemma with_suffix_append p e :
  suffix p = "" → name p ≠ "" →
  Py.contains "/" e = false → Py.startswith "." e = true → String.eqb e "." = false →
  with_suffix p e = Ok (add_ext p e).
Proof.
  intros Hs Hn H1 H2 H3. unfold with_suffix, add_ext.
  rewrite H1, H2, H3, Hs. apply truthy_true in Hn. rewrite Hn. simpl.
  by rewrite andb_false_r.
Qed.

Lemma table_lookup ct e :
  CONTENT_TYPE_EXT !! ct = Some e ↔ (ct, e) ∈ CONTENT_TYPE_TABLE.
Proof.
  unfold CONTENT_TYPE_EXT. split.
  - apply elem_of_list_to_map_2.
  - apply elem_of_list_to_map_1.
    by apply (bool_decide_unpack _); vm_compute.
Qed.

Lemma infer_ext_from_content_type_spec r :
  infer_ext_from_content_type (default "" (content_type r)) =
    default "" (CONTENT_TYPE_EXT !! media_type r).
Proof. unfold infer_ext_from_content_type, media_type. by rewrite or_empty_r. Qed.

Lemma infer_out_path_preference (r : response) (out_path : path) :
  suffix out_path = "" → name out_path ≠ "" →
  infer_out_path P r out_path =
    Ok (if bool_decide (url_suffix P (url r) ∈ IMAGE_SUFFIXES) then
          add_ext out_path
            (if bool_decide (url_suffix P (url r) = ".jpeg") then ".jpg"
             else url_suffix P (url r))
        else
          match CONTENT_TYPE_EXT !! media_type r with
          | Some e => add_ext out_path e
          | None => out_path
          end).
Proof.
  intros Hs Hn. unfold infer_out_path. rewrite Hs. simpl.
  rewrite infer_ext_from_url_spec, infer_ext_from_content_type_spec.
  case_bool_decide as Hw.
  - unfold IMAGE_SUFFIXES in Hw.
    repeat (apply elem_of_cons in Hw as [Hw|Hw];
            [rewrite Hw; simpl; by apply with_suffix_append|]).
    by apply elem_of_nil in Hw.
  - simpl. destruct (CONTENT_TYPE_EXT !! media_type r) as [e|] eqn:Ht; [|done].
    simpl. apply table_lookup in Ht. unfold CONTENT_TYPE_TABLE in Ht.
    repeat (apply elem_of_cons in Ht as [Ht|Ht];
            [injection Ht as _ ->; simpl; by apply with_suffix_append|]).
    by apply elem_of_nil in Ht.
Qed.

Lemma infer_out_path_kept (r : response) (out_path : path) :
  suffix out_path ≠ "" →
  infer_out_path P r out_path = Ok out_path.
Proof.
  intros Hs. unfold infer_out_path.
  apply truthy_true in Hs. by rewrite Hs.
Qed.

End Resolver.

Section FsFacts.

Implicit Types fs : gmap path node.

Lemma mkdirs_lookup fs target done todo fs' :
  Fs.mkdirs fs target done todo = Ok fs' →
  ∀ q, fs' !! q = fs !! q
       ∨ (fs !! q = None ∧ fs' !! q = Some Dir
          ∧ ∃ k, (1 ≤ k ≤ length todo)%nat ∧ q = (done ++ take k todo)%list).
Proof.
  revert fs done. induction todo as [|c todo IH]; intros fs done; simpl.
  { intros [= <-] q. by left. }
  assert (∀ k, (1 ≤ k ≤ length todo)%nat →
            ((done ++ [c]) ++ take k todo)%list = (done ++ take (S k) (c :: todo))%list)
    as Hk by (intros; by rewrite <- app_assoc).
  destruct (fs !! (done ++ [c])%list) as [[]|] eqn:Hd; try done.
  - intros H q. destruct (IH _ _ H q) as [?|(?&?&k&?&->)]; [by left|right].
    repeat split; [done..|]. exists (S k). split; [lia|by apply Hk].
  - intros H q. destruct (IH _ _ H q) as [Hq|(Hq&?&k&?&->)].
    + destruct (decide (q = (done ++ [c])%list)) as [->|Hne].
      * right. rewrite lookup_insert_eq in Hq.
        repeat split; [done..|]. exists 1. split; [lia|done].
      * left. by rewrite lookup_insert_ne in Hq.
    + right. apply lookup_insert_None in Hq as [? ?].
      repeat split; [done..|]. exists (S k). split; [lia|by apply Hk].
Qed.

Lemma mkdir_parents_lookup fs p fs' :
  Fs.mkdir_parents fs p = Ok fs' →
  ∀ q, fs' !! q = fs !! q
       ∨ (fs !! q = None ∧ fs' !! q = Some Dir
          ∧ ∃ k, (1 ≤ k ≤ length p)%nat ∧ q = take k p).
Proof. intros H q. by destruct (mkdirs_lookup _ _ _ _ _ H q); [left|right]. Qed.

Lemma mkdirs_all_dirs fs target done todo fs' :
  Fs.mkdirs fs target done todo = Ok fs' →
  ∀ k, (1 ≤ k ≤ length todo)%nat → fs' !! (done ++ take k todo)%list = Some Dir.
Proof.
  revert fs done. induction todo as [|c todo IH]; intros fs done; simpl.
  { intros _ k ?. lia. }
  assert (∀ fsx, fsx !! (done ++ [c])%list = Some Dir →
            Fs.mkdirs fsx target (done ++ [c]) todo = Ok fs' →
            ∀ k, (1 ≤ k ≤ S (length todo))%nat →
                 fs' !! (done ++ take k (c :: todo))%list = Some Dir) as Hstep.
  { intros fsx Hd H k Hk. destruct k as [|[|k]]; [lia| |]; cbn [take].
    - rewrite take_0.
      destruct (mkdirs_lookup _ _ _ _ _ H (done ++ [c])%list) as [Hq|(Hq&_)];
        congruence.
    - replace (done ++ c :: take (S k) todo)%list
        with ((done ++ [c]) ++ take (S k) todo)%list by (by rewrite <- app_assoc).
      apply (IH _ _ H). simpl in Hk. lia. }
  destruct (fs !! (done ++ [c])%list) as [[]|] eqn:Hd; try done.
  - by apply Hstep.
  - apply Hstep. by rewrite lookup_insert_eq.
Qed.

Lemma mkdirs_noop fs target pre todo :
  (∀ k, (1 ≤ k ≤ length todo)%nat → fs !! (pre ++ take k todo)%list = Some Dir) →
  Fs.mkdirs fs target pre todo = Ok fs.
Proof.
  revert pre. induction todo as [|c todo IH]; intros pre H; simpl; [done|].
  pose proof (H 1) as H1. simpl in H1. rewrite take_0 in H1.
  rewrite H1 by lia. apply IH. intros k Hk.
  rewrite <- app_assoc. apply (H (S k)). simpl. lia.
Qed.

Lemma open_wb_inv fs p fs' :
  Fs.open_wb fs p = Ok fs' →
  fs' = <[p := File ""]> fs ∧ fs !! p ≠ Some Dir ∧ p ≠ []
  ∧ Fs.is_dir fs (parent p) = true.
Proof.
  unfold Fs.open_wb, Fs.is_dir. destruct p as [|c p]; [done|].
  unfold Fs.stat at 1.
  destruct (fs !! (c :: p)) as [[]|] eqn:Hp; try done;
    destruct (Fs.stat fs (parent (c :: p))) as [[]|]; try done;
    intros [= <-]; repeat split; congruence.
Qed.

Lemma replace_inv fs src dst fs' :
  Fs.replace fs src dst = Ok fs' →
  ∃ n, Fs.stat fs src = Some n ∧ n ≠ Dir ∧ Fs.is_dir fs dst = false
       ∧ fs' = <[dst := n]> (delete src fs).
Proof.
  unfold Fs.replace. repeat case_match; try done; intros [= <-]; eauto 10.
Qed.

Lemma is_dir_false_lookup fs p : Fs.is_dir fs p = false → fs !! p ≠ Some Dir.
Proof.
  unfold Fs.is_dir, Fs.stat. destruct p; [done|].
  intros H Hp. by rewrite Hp in H.
Qed.

End FsFacts.

Section Fetcher.

Context (P : Platform).

Ltac mstep :=
  unfold bind, ret, lift, raise, try_, get_fs, syscall, print in *; simpl in *.

Lemma present_spec out w :
  present out w = (Ok (is_present (fs w) out), w).
Proof.
  unfold present, is_present, Fs.exists_, Fs.st_size. mstep.
  by destruct (Fs.stat (fs w) out).
Qed.

Lemma fetch_head_world u out w res w' :
  fetch_head P u out w = (res, w') →
  w' = World (fs w) (sent w ++ [get_request u]) (stdout w).
Proof.
  unfold fetch_head, requests_get, raise_for_status. mstep.
  intros H. repeat case_match; by simplify_eq.
Qed.

Lemma write_chunks_spec tmp cs k w d res w' :
  fs w !! tmp = Some (File d) →
  write_chunks P tmp k cs w = (res, w') →
  sent w' = sent w ∧ stdout w' = stdout w
  ∧ ∃ d', fs w' = <[tmp := File d']> (fs w)
          ∧ (res = Ok tt → d' = d ++ fold_right String.append "" cs).
Proof.
  revert k w d. induction cs as [|c cs IH]; intros k w d Hd; simpl.
  { intros [= <- <-]. repeat split. exists d.
    by rewrite insert_id, string_app_nil_r. }
  destruct (Py.truthy c) eqn:Hc.
  - unfold bind, f_write. destruct (write_fault P _ _) as [[n msg]|].
    + intros [= <- <-]. repeat split. exists d. by rewrite insert_id.
    + intros H. eapply (IH _ _ (d ++ c)) in H as (-> & -> & d' & -> & Hd');
        simpl; [|by unfold Fs.append; rewrite Hd, lookup_insert_eq].
      repeat split. exists d'. unfold Fs.append. rewrite Hd, insert_insert_eq.
      split; [done|]. intros ->%Hd'. by rewrite string_app_assoc.
  - apply truthy_false in Hc as ->. intros H.
    by eapply IH in H.
Qed.

Lemma save_body_spec r tmp w res w' :
  save_body P r tmp w = (res, w') →
  sent w' = sent w ∧ stdout w' = stdout w
  ∧ ((fs w' = fs w ∧ is_ok res = false)
     ∨ (fs w !! tmp ≠ Some Dir ∧ tmp ≠ []
        ∧ ∃ d, fs w' = <[tmp := File d]> (fs w)
               ∧ (is_ok res = true → d = body_of r ∧ broken r = None))).
Proof.
  unfold save_body. mstep.
  destruct (Fs.open_wb (fs w) tmp) as [fs1|] eqn:Ho.
  2:{ intros [= <- <-]. repeat split. by left. }
  apply open_wb_inv in Ho as (-> & Hnd & Hne & _).
  destruct (write_chunks _ _ _ _ _) as [rw w1] eqn:Hw.
  eapply write_chunks_spec in Hw as (Hs & Ho & d & Hfs & Hd);
    [|by simpl; rewrite lookup_insert_eq].
  simpl in *. rewrite insert_insert_eq in Hfs.
  destruct rw as [[]|e].
  - destruct (broken r) eqn:Hb; intros [= <- <-]; (split; [done|split; [done|]]);
      right; (split; [done|split; [done|]]); exists d; split; try done.
    intros _. by rewrite Hd.
  - intros [= <- <-]. split; [done|split; [done|]].
    right. split; [done|split; [done|]]. by exists d.
Qed.

Lemma fetch_body_spec r final w res w' :
  fetch_body P r final w = (res, w') →
  sent w' = sent w ∧ stdout w' = stdout w ∧
  ∃ fsm,
    (∀ q, fsm !! q = fs w !! q
          ∨ (fs w !! q = None ∧ fsm !! q = Some Dir
             ∧ (length q < length final)%nat))
    ∧ ((fs w' = fsm ∧ is_ok res = false)
       ∨ (fsm !! temp_sibling final ≠ Some Dir ∧ is_ok res = false
          ∧ ∃ d, fs w' = <[temp_sibling final := File d]> fsm)
       ∨ (fsm !! temp_sibling final ≠ Some Dir ∧ fsm !! final ≠ Some Dir
          ∧ broken r = None
          ∧ fs w' = <[final := File (body_of r)]> (delete (temp_sibling final) fsm)
          ∧ res = report_ok P final)).
Proof.
  unfold fetch_body. unfold bind at 1. unfold syscall at 1.
  destruct (Fs.mkdir_parents (fs w) (parent final)) as [fsm|] eqn:Hm.
  2:{ intros [= <- <-]. split; [done|split; [done|]]. exists (fs w).
      split; [by left|]. by left. }
  assert (∀ q, fsm !! q = fs w !! q
          ∨ (fs w !! q = None ∧ fsm !! q = Some Dir
             ∧ (length q < length final)%nat)) as Hfsm.
  { intros q. destruct (mkdir_parents_lookup _ _ _ Hm q) as [?|(Hn&Hd&k&Hk&->)];
      [by left|right].
    repeat split; [done..|]. rewrite parent_length in Hk.
    rewrite length_take, parent_length. lia. }
  unfold bind at 1, lift at 1.
  destruct (with_suffix final _) as [tmp|] eqn:Ht.
  2:{ intros [= <- <-]. split; [done|split; [done|]]. exists fsm.
      split; [done|]. by left. }
  apply with_suffix_part in Ht as ->. fold (temp_sibling final).
  unfold bind at 1.
  destruct (save_body _ _ _ _) as [rs w1] eqn:Hs.
  apply save_body_spec in Hs as (Hs1 & Hs2 & Hs). simpl in *.
  destruct Hs as [[Hfs Hr]|(Hnd & Hne & d & Hfs & Hd)].
  { destruct rs; [done|]. intros [= <- <-].
    split; [done|split; [done|]]. exists fsm. split; [done|]. by left. }
  destruct rs as [[]|e].
  2:{ intros [= <- <-]. split; [done|split; [done|]]. exists fsm.
      split; [done|]. right; left. eauto. }
  destruct (Hd eq_refl) as [-> Hb].
  unfold bind at 1, syscall at 1.
  destruct (Fs.replace (fs w1) _ final) as [fs2|] eqn:Hrep.
  2:{ intros [= <- <-]. split; [done|split; [done|]]. exists fsm.
      split; [done|]. right; left. eauto. }
  apply replace_inv in Hrep as (n & Hn & _ & Hdst & ->).
  assert (temp_sibling final ≠ final) as Hneq by (by apply add_ext_ne).
  rewrite Hfs in Hn, Hdst |- *.
  unfold Fs.stat in Hn. destruct (temp_sibling final) as [|c t] eqn:Htmp; [done|].
  rewrite lookup_insert_eq in Hn. injection Hn as <-.
  rewrite delete_insert_eq.
  apply is_dir_false_lookup in Hdst. rewrite lookup_insert_ne in Hdst by done.
  intros H. assert (sent w' = sent w ∧ stdout w' = stdout w
                    ∧ fs w' = <[final:=File (body_of r)]> (delete (c :: t) fsm)
                    ∧ res = report_ok P final) as (?&?&?&?).
  { unfold report_ok. mstep.
    destruct (relative_to final (ROOT P)); simplify_eq; simpl; done. }
  split; [done|split; [done|]]. exists fsm. split; [done|]. right; right.
  repeat split; done.
Qed.

Lemma on_error_spec u p e w :
  on_error P u p e w = (report_error P u p e, w).
Proof.
  unfold on_error, report_error. mstep. by destruct (relative_to p (ROOT P)).
Qed.

(** What a call of [download_one] does: it skips, or it sends the request
    and then fails before writing, fails with the temporary file left
    behind, or renames the complete temporary file to the final path. *)
Lemma download_one_cases u out w res w' :
  download_one P u out w = (res, w') →
  let final := final_path P u out w in
  (is_present (fs w) out = true ∧ w' = w ∧ res = report_skip P out)
  ∨ (is_present (fs w) out = false
     ∧ sent w' = (sent w ++ [get_request u])%list ∧ stdout w' = stdout w
     ∧ ∃ fsm,
         (∀ q, fsm !! q = fs w !! q
               ∨ (fs w !! q = None ∧ fsm !! q = Some Dir
                  ∧ (length q < length final)%nat))
         ∧ ((∃ e, res = report_error P u final e
                  ∧ (fs w' = fsm
                     ∨ (fsm !! temp_sibling final ≠ Some Dir
                        ∧ ∃ d, fs w' = <[temp_sibling final := File d]> fsm)))
            ∨ (∃ r w1, fetch_head P u out w = (Ok (r, final), w1)
                       ∧ broken r = None
                       ∧ fsm !! temp_sibling final ≠ Some Dir
                       ∧ fsm !! final ≠ Some Dir
                       ∧ fs w' = <[final := File (body_of r)]>
                                   (delete (temp_sibling final) fsm)
                       ∧ res = report_ok P final))).
Proof.
  unfold download_one, final_path. unfold bind at 1. rewrite present_spec.
  destruct (is_present (fs w) out) eqn:Hp.
  { intros H. left. unfold report_skip. mstep.
    by destruct (relative_to out (ROOT P)); simplify_eq. }
  intros H. right. split; [done|]. revert H.
  unfold bind at 1, try_ at 1.
  destruct (fetch_head P u out w) as [rh w1] eqn:Hh.
  pose proof (fetch_head_world _ _ _ _ _ Hh) as ->.
  destruct rh as [[r final]|e].
  2:{ rewrite on_error_spec. intros [= <- <-]. simpl.
      split; [done|split; [done|]]. exists (fs w). split; [by left|].
      left. exists e. eauto. }
  unfold bind at 1, try_ at 1.
  destruct (fetch_body P r final _) as [rb w2] eqn:Hb.
  apply fetch_body_spec in Hb as (Hs & Ho & fsm & Hfsm & Hb). simpl in *.
  destruct rb as [v|e].
  - intros [= <- <-]. split; [done|split; [done|]]. exists fsm.
    split; [done|]. destruct Hb as [[_ ?]|[(_&?&_)|(?&?&?&?&?)]]; try done.
    right. exists r, (World (fs w) (sent w ++ [get_request u]) (stdout w)). eauto 10.
  - rewrite on_error_spec. intros [= <- <-].
    split; [done|split; [done|]]. exists fsm. split; [done|].
    destruct Hb as [[? _]|[(?&_&?)|(?&?&?&?&Hr)]].
    + left. exists e. eauto.
    + left. exists e. eauto.
    + right. exists r, (World (fs w) (sent w ++ [get_request u]) (stdout w)).
      repeat split; try done. unfold report_error, report_ok in *.
      by destruct (relative_to final (ROOT P)).
Qed.

Lemma fetch_head_inv u out w r final w1 :
  fetch_head P u out w = (Ok (r, final), w1) →
  network P (length (sent w)) (get_request u) = Responded r
  ∧ ((400 <=? status_code r)%Z && (status_code r <? 600)%Z = false)
  ∧ infer_out_path P r out = Ok final.
Proof.
  unfold fetch_head, requests_get, raise_for_status. mstep.
  unfold get_request. intros H. repeat case_match; by simplify_eq.
Qed.

Lemma final_path_below u out w :
  Fs.below (ROOT P) out = true → Fs.below (ROOT P) (final_path P u out w) = true.
Proof.
  intros Hb. unfold final_path.
  destruct (fetch_head P u out w) as [[[r f]|e] w1] eqn:Hh; [|done].
  apply fetch_head_inv in Hh as (_ & _ & Hi). unfold infer_out_path in Hi.
  repeat case_match; simplify_eq; try done.
  apply with_suffix_shape in Hi as [x ->]. by apply below_sibling.
Qed.

(** Under the root a fetch returns the rendering of its outcome. *)
Lemma download_one_outcome u out w :
  Fs.below (ROOT P) out = true →
  ∃ w', download_one P u out w =
          (Ok (render P u out (final_path P u out w) (outcome_of P u out w)), w').
Proof.
  intros Hb. pose proof (final_path_below u _ w Hb) as Hf.
  apply below_is_prefix in Hb, Hf.
  unfold download_one, outcome_of, final_path in *.
  unfold bind at 1. rewrite present_spec.
  destruct (is_present (fs w) out).
  { exists w. mstep. unfold relative_to. by rewrite Hb. }
  unfold bind at 1, try_ at 1.
  destruct (fetch_head P u out w) as [[[r f]|e] w1] eqn:Hh.
  2:{ rewrite on_error_spec. exists w1. unfold report_error, relative_to.
      by rewrite Hb. }
  unfold bind at 1, try_ at 1.
  destruct (fetch_body P r f w1) as [[v|e] w2] eqn:Hbody.
  - exists w2. apply fetch_body_spec in Hbody as (_ & _ & fsm & _ & Hc).
    destruct Hc as [[_ ?]|[(_&?&_)|(_&_&_&_&Hr)]]; try done.
    unfold report_ok, relative_to in Hr. rewrite Hf in Hr. by injection Hr as ->.
  - rewrite on_error_spec. exists w2. unfold report_error, relative_to.
    by rewrite Hf.
Qed.

(** C7: a destination that is present with non-zero size is skipped: the
    fetch returns [False] and the SKIP message and leaves the world as it
    is, so no request is sent and no file is touched; an entry of size zero
    does not count, and the request is sent. *)
Theorem skip_when_present (u : string) (out_path : path) (w : world) :
  is_prefix (ROOT P) out_path = true →
  (∀ n, Fs.stat (fs w) out_path = Some n → (0 < Fs.node_size n)%nat →
     download_one P u out_path w =
       (Ok (false, "SKIP (exists) "
                     ++ str_relative (skipn (length (ROOT P)) out_path)), w))
  ∧ (∀ n, Fs.stat (fs w) out_path = Some n → Fs.node_size n = 0%nat →
       ∃ res w', download_one P u out_path w = (res, w')
                 ∧ sent w' = (sent w ++ [get_request u])%list).
Proof.
  intros Hroot. split; intros n Hn Hsz.
  - destruct (download_one P u out_path w) as [res w'] eqn:Hd.
    apply download_one_cases in Hd as [(_ & -> & ->)|(Hp & _)].
    + unfold report_skip, relative_to. by rewrite Hroot.
    + unfold is_present in Hp. rewrite Hn in Hp.
      apply Nat.ltb_ge in Hp. lia.
  - destruct (download_one P u out_path w) as [res w'] eqn:Hd.
    exists res, w'. split; [done|].
    apply download_one_cases in Hd as [(Hp & _)|(_ & ? & _)]; [|done].
    unfold is_present in Hp. rewrite Hn, Hsz in Hp. done.
Qed.

(** C10: whether a fetch is skipped is decided by the entry at the manifest
    path alone, before any request; a file stored earlier under an
    inferred extension does not lead to a skip. *)
Theorem skip_check_on_manifest_path (u : string) (out_path : path)
  (w : world) (res : result (bool * string)) (w' : world) :
  suffix out_path = "" →
  download_one P u out_path w = (res, w') →
  (sent w' = sent w
     ↔ ∃ n, Fs.stat (fs w) out_path = Some n ∧ (0 < Fs.node_size n)%nat)
  ∧ (Fs.stat (fs w) out_path = None →
     ∀ e d, fs w !! add_ext out_path e = Some (File d) →
       sent w' = (sent w ++ [get_request u])%list).
Proof.
  intros _ Hd.
  apply download_one_cases in Hd as [(Hp & -> & _)|(Hp & Hs & _)];
    unfold is_present in Hp.
  - split.
    + split; [intros _|done].
      destruct (Fs.stat (fs w) out_path) as [n|]; [|done].
      exists n. split; [done|]. by apply Nat.ltb_lt.
    + intros Hn. by rewrite Hn in Hp.
  - split; [|done]. split.
    + intros Heq. rewrite Heq in Hs. apply (f_equal length) in Hs.
      rewrite length_app in Hs. simpl in Hs. lia.
    + intros (n & Hn & Hsz). rewrite Hn in Hp. apply Nat.ltb_ge in Hp. lia.
Qed.

(** C2, as the code has it: a fetch changes no path besides directories
    that it creates, its temporary sibling and its final path; the final
    path changes only by the rename of the complete temporary file and
    then holds the whole body; a fetch that fails leaves the final path as
    it was. *)
Theorem atomic_write (u : string) (out_path : path) (w : world)
  (res : result (bool * string)) (w' : world) :
  download_one P u out_path w = (res, w') →
  let final := final_path P u out_path w in
  (∀ p, p ≠ temp_sibling final → p ≠ final →
        fs w' !! p = fs w !! p ∨ (fs w !! p = None ∧ fs w' !! p = Some Dir))
  ∧ (fs w' !! final = fs w !! final
     ∨ ∃ r w1, fetch_head P u out_path w = (Ok (r, final), w1)
               ∧ broken r = None
               ∧ fs w' !! final = Some (File (body_of r))
               ∧ fs w' !! temp_sibling final = None)
  ∧ (∀ msg, res = Ok (false, msg) → fs w' !! final = fs w !! final).
Proof.
  intros Hd final.
  assert (temp_sibling final ≠ final) as Hneq by (by apply add_ext_ne).
  apply download_one_cases in Hd as [(_ & -> & _)|(_ & _ & _ & fsm & Hfsm & Hd)].
  { repeat split; auto. }
  fold final in Hfsm, Hd.
  assert (fsm !! final = fs w !! final) as Hfinal.
  { destruct (Hfsm final) as [?|(_&_&?)]; [done|lia]. }
  assert (∀ p, fsm !! p = fs w !! p ∨ (fs w !! p = None ∧ fsm !! p = Some Dir))
    as Hframe.
  { intros p. destruct (Hfsm p) as [?|(?&?&_)]; auto. }
  destruct Hd as [(e & -> & [->|(_ & d & ->)])|(r & w1 & Hh & Hb & _ & _ & -> & ->)].
  - repeat split; auto.
  - repeat split.
    + intros p Hp _. rewrite lookup_insert_ne by done. apply Hframe.
    + left. by rewrite lookup_insert_ne.
    + intros _ _. by rewrite lookup_insert_ne.
  - repeat split.
    + intros p Hp Hp'. rewrite lookup_insert_ne, lookup_delete_ne by done.
      apply Hframe.
    + right. exists r, w1. repeat split; [done..| |].
      * by rewrite lookup_insert_eq.
      * by rewrite lookup_insert_ne, lookup_delete_eq.
    + intros msg. unfold report_ok. by destruct (relative_to _ _).
Qed.

(** C5: when the manifest path has no extension and the response is a
    success, the final path gets the suffix of the final URL if that is in
    the whitelist (.jpeg written .jpg), else the suffix that the fixed
    table gives for the declared media type, and else stays as it is. *)
Theorem extension_preference (u : string) (out_path : path) (w : world)
  (r : response) (final : path) (w1 : world) :
  suffix out_path = "" → name out_path ≠ "" →
  fetch_head P u out_path w = (Ok (r, final), w1) →
  final =
    (if bool_decide (url_suffix P (url r) ∈ IMAGE_SUFFIXES) then
       add_ext out_path
         (if bool_decide (url_suffix P (url r) = ".jpeg") then ".jpg"
          else url_suffix P (url r))
     else
       match CONTENT_TYPE_EXT !! media_type r with
       | Some e => add_ext out_path e
       | None => out_path
       end)
  ∧ ∀ ct e, CONTENT_TYPE_EXT !! ct = Some e ↔ (ct, e) ∈ CONTENT_TYPE_TABLE.
Proof.
  intros Hs Hn (_ & _ & Hi)%fetch_head_inv. split; [|apply table_lookup].
  rewrite infer_out_path_preference in Hi by done. by injection Hi.
Qed.

(** C6: a manifest path that has an extension is the final path, whatever
    the response says, and a download is stored at exactly that path. *)
Theorem extension_kept (u : string) (out_path : path) (w : world)
  (res : result (bool * string)) (w' : world) :
  suffix out_path ≠ "" →
  download_one P u out_path w = (res, w') →
  (∀ r, infer_out_path P r out_path = Ok out_path)
  ∧ final_path P u out_path w = out_path
  ∧ (∀ msg, res = Ok (true, msg) →
       msg = "OK " ++ str_relative (skipn (length (ROOT P)) out_path)
       ∧ ∃ r, fs w' !! out_path = Some (File (body_of r))).
Proof.
  intros Hs Hd.
  assert (final_path P u out_path w = out_path) as Hf.
  { unfold final_path. destruct (fetch_head P u out_path w) as [[[r f]|e] w1] eqn:Hh;
      [|done].
    apply fetch_head_inv in Hh as (_ & _ & Hi).
    rewrite infer_out_path_kept in Hi by done. by injection Hi. }
  split; [intros r; by apply infer_out_path_kept|]. split; [done|].
  intros msg ->.
  apply download_one_cases in Hd as [(_ & _ & Hr)|(_ & _ & _ & fsm & _ & Hd)].
  { unfold report_skip in Hr. by destruct (relative_to _ _). }
  rewrite Hf in Hd.
  destruct Hd as [(e & Hr & _)|(r & w1 & _ & _ & _ & _ & -> & Hr)].
  { unfold report_error in Hr. by destruct (relative_to _ _). }
  unfold report_ok, relative_to in Hr.
  destruct (is_prefix _ _); [|done]. injection Hr as ->.
  split; [done|]. exists r. by rewrite lookup_insert_eq.
Qed.

End Fetcher.

Section Batch.

Context (P : Platform).

Ltac mstep :=
  unfold bind, ret, lift, raise, try_, get_fs, syscall, print in *; simpl in *.

Lemma startswith_error_render u out final o :
  Py.startswith "ERROR" (render P u out final o).2 = is_failed o.
Proof. by destruct o. Qed.

Lemma download_one_stdout u out w res w' :
  download_one P u out w = (res, w') → stdout w' = stdout w.
Proof. by intros [(_ & -> & _)|(_ & _ & ? & _)]%download_one_cases. Qed.

(** A fetch never removes a directory. *)
Lemma download_one_dirs u out w res w' :
  download_one P u out w = (res, w') →
  ∀ q, fs w !! q = Some Dir → fs w' !! q = Some Dir.
Proof.
  intros [(_ & -> & _)|(_ & _ & _ & fsm & Hfsm & Hd)]%download_one_cases q Hq;
    [done|].
  assert (fsm !! q = Some Dir) as Hq'.
  { destruct (Hfsm q) as [?|(?&?&?)]; congruence. }
  destruct Hd as [(e & _ & [->|(Ht & d & ->)])|(r & w1 & _ & _ & Ht & Hf & -> & _)].
  - done.
  - rewrite lookup_insert_ne; [done|]. intros Heq. by rewrite Heq in Ht.
  - rewrite lookup_insert_ne, lookup_delete_ne; [done|..];
      intros Heq; by rewrite Heq in *.
Qed.

Lemma job_step_world total c c' job w :
  (job_step P total c job w).2 = (job_step P total c' job w).2.
Proof.
  destruct c as [d e], c' as [d' e'], job as [idx [u out]].
  unfold job_step. mstep.
  destruct (download_one P u out w) as [[[ok msg]|x] w1]; [|done].
  by repeat case_match.
Qed.

Lemma job_step_spec total d e idx u out w :
  Fs.below (ROOT P) out = true →
  let o := outcome_of P u out w in
  let msg := (render P u out (final_path P u out w) o).2 in
  ∃ w1, download_one P u out w = (Ok (render P u out (final_path P u out w) o), w1)
    ∧ job_step P total (d, e) (idx, (u, out)) w =
        (Ok (if is_failed o then (d, S e)
             else if is_downloaded o then (S d, e) else (d, e)),
         World (fs w1) (sent w1) (stdout w ++ [progress_line idx total msg])).
Proof.
  intros Hb o msg. destruct (download_one_outcome P u out w Hb) as [w1 Hd].
  exists w1. split; [done|].
  pose proof (download_one_stdout _ _ _ _ _ Hd) as Ho.
  unfold job_step. mstep. rewrite Hd. fold o.
  pose proof (startswith_error_render u out (final_path P u out w) o) as Hs.
  destruct (render P u out (final_path P u out w) o) as [ok m] eqn:Hr.
  subst msg. simpl in *. rewrite Hs, Ho. unfold progress_line.
  destruct o; simpl in *; by simplify_eq.
Qed.

(** The loop over well-placed jobs: every job is run, none raises, and the
    counters count the outcomes. *)
Lemma run_steps total jobs d e w :
  Forall (λ job : nat * (string * path), Fs.below (ROOT P) job.2.2 = true) jobs →
  let os := outcomes P total jobs w in
  ∃ w', foldM (job_step P total) jobs (d, e) w =
          (Ok (d + length (List.filter is_downloaded os),
               e + length (List.filter is_failed os))%nat, w')
        ∧ length os = length jobs
        ∧ stdout w' = (stdout w ++ progress P total jobs w)%list.
Proof.
  intros Hj. revert d e w.
  induction Hj as [|[idx [u out]] jobs Hb Hj IH]; intros d e w.
  { exists w. simpl. unfold ret. by rewrite !Nat.add_0_r, app_nil_r. }
  simpl in Hb. destruct (job_step_spec total d e idx u out w Hb) as (w1 & Hd & Hs).
  cbn [foldM outcomes progress fst snd]. unfold bind. rewrite Hs.
  assert (after_job P total (idx, (u, out)) w =
          World (fs w1) (sent w1)
            (stdout w ++ [progress_line idx total
               (render P u out (final_path P u out w) (outcome_of P u out w)).2]))
    as Ha.
  { unfold after_job. rewrite (job_step_world total _ (d, e)). by rewrite Hs. }
  rewrite Ha.
  set (w2 := World _ _ _).
  destruct (outcome_of P u out w) eqn:Ho; simpl.
  - destruct (IH d e w2) as (w' & -> & Hl & Hout). exists w'.
    split; [done|]. split; [by rewrite Hl|]. rewrite Hout. simpl.
    by rewrite <- app_assoc.
  - destruct (IH (S d) e w2) as (w' & -> & Hl & Hout). exists w'.
    split; [do 3 f_equal; lia|]. split; [by rewrite Hl|]. rewrite Hout. simpl.
    by rewrite <- app_assoc.
  - destruct (IH d (S e) w2) as (w' & -> & Hl & Hout). exists w'.
    split; [do 3 f_equal; lia|]. split; [by rewrite Hl|]. rewrite Hout. simpl.
    by rewrite <- app_assoc.
Qed.

(** What every fetch and every print preserves holds after the loop. *)
Lemma run_steps_invariant (I : world → Prop) total jobs c w res w' :
  (∀ u out w res w', download_one P u out w = (res, w') → I w → I w') →
  (∀ w line, I w → I (World (fs w) (sent w) (stdout w ++ [line]))) →
  foldM (job_step P total) jobs c w = (res, w') → I w → I w'.
Proof.
  intros Hdl Hpr. revert c w.
  induction jobs as [|[idx [u out]] jobs IH]; intros [d e] w; cbn [foldM].
  { unfold ret. by intros [= _ <-]. }
  unfold bind at 1.
  destruct (job_step P total (d, e) (idx, (u, out)) w) as [[c1|x] w1] eqn:Hs.
  - intros H Hw. eapply IH; [done|]. revert Hs. unfold job_step. mstep.
    destruct (download_one P u out w) as [[[ok msg]|x] w0] eqn:Hd; [|done].
    intros Hs. assert (w1 = World (fs w0) (sent w0)
                              (stdout w0 ++ [progress_line idx total msg])) as ->
      by (repeat case_match; by simplify_eq).
    eauto.
  - intros [= _ <-] Hw. revert Hs. unfold job_step. mstep.
    destruct (download_one P u out w) as [[[ok msg]|x'] w0] eqn:Hd.
    + intros Hs. repeat case_match; by simplify_eq.
    + intros [= _ <-]. eauto.
Qed.

(** The loop never removes a directory. *)
Lemma run_steps_dirs total jobs c w res w' :
  foldM (job_step P total) jobs c w = (res, w') →
  ∀ q, fs w !! q = Some Dir → fs w' !! q = Some Dir.
Proof.
  intros H.
  apply (run_steps_invariant (λ wx, ∀ q, fs w !! q = Some Dir → fs wx !! q = Some Dir)
           total jobs c w res w'); [| |done|done].
  - intros u out wa ra wb Hd Ha q Hq. eapply download_one_dirs; eauto.
  - intros wa line Ha. apply Ha.
Qed.

End Batch.

Section Archiver.

Context (P : Platform).

Implicit Types fsx : gmap path node.

Ltac mstep :=
  unfold bind, ret, lift, raise, try_, get_fs, syscall, print in *; simpl in *.

Lemma OUT_UNCOOKED_eq : OUT_UNCOOKED P = (ROOT P ++ ["uncooked"])%list.
Proof. done. Qed.

Lemma OUT_COOKED_eq : OUT_COOKED P = (ROOT P ++ ["cooked"])%list.
Proof. done. Qed.

Lemma ZIP_OUT_eq : ZIP_OUT P = (ROOT P ++ ["pasta-images.zip"])%list.
Proof. done. Qed.

Lemma MANIFEST_eq : MANIFEST P = (ROOT P ++ ["manifest.csv"])%list.
Proof. done. Qed.

Lemma elem_of_rglob fsx folder p :
  p ∈ Fs.rglob fsx folder ↔ found_in fsx folder p.
Proof.
  unfold Fs.rglob, found_in. rewrite list_elem_of_fmap. split.
  - intros ([q n] & -> & Hq). apply elem_of_map_to_list in Hq.
    apply map_lookup_filter_Some in Hq as [Hq Hp]. simpl in *.
    apply andb_prop_elim in Hp as [? ?]. split; [by eexists|].
    split; by apply Is_true_true.
  - intros ([n Hn] & Hb & Hw). exists (p, n). split; [done|].
    apply elem_of_map_to_list, map_lookup_filter_Some. split; [done|].
    simpl. rewrite Hb, Hw. done.
Qed.

Lemma NoDup_rglob fsx folder : NoDup (Fs.rglob fsx folder).
Proof. apply NoDup_fst_map_to_list. Qed.

Lemma zip_paths_eq fsx z ps :
  Forall (λ p, is_prefix (ROOT P) p = true) ps →
  zip_paths P fsx z ps =
    Ok (z ++ map (member_of P fsx) (filter (λ p, Fs.is_file fsx p) ps))%list.
Proof.
  intros Hps. revert z. induction Hps as [|p ps Hp Hps IH]; intros z; simpl.
  { by rewrite app_nil_r. }
  destruct (Fs.is_file fsx p) eqn:Hf.
  2:{ rewrite filter_cons_False by (rewrite Hf; simpl; tauto). apply IH. }
  rewrite filter_cons_True by (rewrite Hf; simpl; tauto).
  unfold Fs.is_file in Hf.
  destruct (Fs.stat fsx p) as [[d| |]|] eqn:Hs; try done.
  unfold zip_write, relative_to. rewrite Hp, Hs, IH. simpl.
  rewrite <- app_assoc. do 2 f_equal. simpl. f_equal.
  unfold member_of, arcname. unfold Fs.stat in Hs.
  destruct p; [done|]. by rewrite Hs.
Qed.

Lemma rglob_under_root fsx x :
  Forall (λ p, is_prefix (ROOT P) p = true) (Fs.rglob fsx (ROOT P ++ [x])).
Proof.
  apply Forall_forall. intros p (_ & Hb & _)%elem_of_rglob.
  apply below_spec in Hb as (k & -> & _). apply is_prefix_spec.
  exists (x :: k). by rewrite <- app_assoc.
Qed.

Lemma zip_folders_eq fsx :
  zip_folders P fsx [] [OUT_UNCOOKED P; OUT_COOKED P] =
    Ok (map (member_of P fsx) (archived_files P fsx)).
Proof.
  unfold zip_folders, archived_files.
  rewrite zip_paths_eq by apply rglob_under_root.
  rewrite zip_paths_eq by apply rglob_under_root.
  by rewrite filter_app, map_app.
Qed.

Lemma stat_nonempty fsx p : p ≠ [] → Fs.stat fsx p = fsx !! p.
Proof. by destruct p. Qed.

Lemma stat_ext fsx fsy p : fsx !! p = fsy !! p → Fs.stat fsx p = Fs.stat fsy p.
Proof. destruct p; simpl; auto. Qed.

Lemma is_prefix_take folder p k :
  is_prefix folder p = true → (length folder ≤ k)%nat →
  is_prefix folder (take k p) = true.
Proof.
  intros [t ->]%is_prefix_spec Hk. apply is_prefix_spec.
  exists (take (k - length folder) t). by rewrite take_app_ge.
Qed.

Lemma forallb_ext_in {A} (f g : A → bool) (l : list A) :
  (∀ x, In x l → f x = g x) → forallb f l = forallb g l.
Proof.
  induction l as [|a l IH]; intros H; simpl; [done|].
  rewrite H, IH; [done| |]; intros; try apply H; simpl; auto.
Qed.

Lemma walkable_ext fsx fsy folder p :
  (∀ q, is_prefix folder q = true → fsx !! q = fsy !! q) →
  is_prefix folder p = true →
  Fs.walkable fsx folder p = Fs.walkable fsy folder p.
Proof.
  intros Hext Hp. unfold Fs.walkable.
  apply forallb_ext_in. intros k Hk%in_seq. unfold Fs.is_dir.
  rewrite (stat_ext fsx fsy); [done|].
  apply Hext, is_prefix_take; [done|lia].
Qed.

Lemma rglob_ext fsx fsy folder :
  (∀ q, is_prefix folder q = true → fsx !! q = fsy !! q) →
  Fs.rglob fsx folder = Fs.rglob fsy folder.
Proof.
  intros Hext. unfold Fs.rglob. do 2 f_equal.
  apply map_filter_strong_ext_1. intros p n. simpl.
  split; intros [[Hb Hw]%andb_prop_elim Hl];
    apply Is_true_true in Hb; pose proof (below_is_prefix _ _ Hb) as Hp;
    (split; [|by rewrite <- Hl, ?Hext by done]);
    rewrite Hb; simpl.
  - by rewrite <- (walkable_ext fsx fsy).
  - by rewrite (walkable_ext fsx fsy).
Qed.

Lemma filter_ext_elem {A} (Q R : A → Prop) `{!∀ x, Decision (Q x)}
  `{!∀ x, Decision (R x)} (l : list A) :
  (∀ x, x ∈ l → Q x ↔ R x) → filter Q l = filter R l.
Proof.
  induction l as [|a l IH]; intros Hext; [done|].
  rewrite !filter_cons, IH by (intros; apply Hext; by right).
  destruct (decide (Q a)) as [HQ|HQ], (decide (R a)) as [HR|HR]; try done.
  - exfalso. apply HR, Hext; [by left|done].
  - exfalso. apply HQ, Hext; [by left|done].
Qed.

(** The archive depends on the entries under the two folders only. *)
Lemma archive_of_ext fsx fsy :
  (∀ q, is_prefix (ROOT P) q = true → (length (ROOT P) < length q)%nat →
        q !! length (ROOT P) ≠ Some "pasta-images.zip" → fsx !! q = fsy !! q) →
  archive_of P fsx = archive_of P fsy.
Proof.
  intros Hext.
  assert (∀ x q, x ≠ "pasta-images.zip" →
            is_prefix (ROOT P ++ [x]) q = true → fsx !! q = fsy !! q) as Hx.
  { intros x q Hx [t ->]%is_prefix_spec. rewrite <- app_assoc. apply Hext.
    - apply is_prefix_spec. eauto.
    - rewrite length_app. simpl. lia.
    - rewrite lookup_app_r, Nat.sub_diag by done. simpl. congruence. }
  unfold archive_of, archived_files. f_equal.
  rewrite (rglob_ext fsx fsy (OUT_UNCOOKED P))
    by (intros q; by apply (Hx "uncooked")).
  rewrite (rglob_ext fsx fsy (OUT_COOKED P))
    by (intros q; by apply (Hx "cooked")).
  assert (∀ p, p ∈ (Fs.rglob fsy (OUT_UNCOOKED P) ++ Fs.rglob fsy (OUT_COOKED P))%list
               → fsx !! p = fsy !! p) as Hin.
  { intros p [Hp|Hp]%elem_of_app; apply elem_of_rglob in Hp as (_ & Hb & _);
      apply below_is_prefix in Hb; revert Hb;
      [by apply (Hx "uncooked")|by apply (Hx "cooked")]. }
  rewrite (filter_ext_elem _ (λ p, Fs.is_file fsy p)).
  2:{ intros p Hp. unfold Fs.is_file. by rewrite (stat_ext fsx fsy) by auto. }
  apply map_ext_in. intros p Hp%list_elem_of_In%list_elem_of_filter.
  unfold member_of. by rewrite Hin by apply Hp.
Qed.

Lemma archive_of_insert_zip fsx n :
  archive_of P (<[ZIP_OUT P := n]> fsx) = archive_of P fsx.
Proof.
  apply archive_of_ext. intros q _ _ Hq. apply lookup_insert_ne.
  intros <-. rewrite ZIP_OUT_eq, lookup_app_r, Nat.sub_diag in Hq by done.
  by apply Hq.
Qed.

Lemma build_zip_run w :
  build_zip P (ZIP_OUT P) w =
    if Fs.is_dir (fs w) (ZIP_OUT P) then
      (Raise (Fs.EISDIR (str (ZIP_OUT P))), w)
    else if Fs.is_dir (fs w) (ROOT P) then
      (Ok tt, World (<[ZIP_OUT P := File (zip_bytes P (archive_of P (fs w)))]> (fs w))
                    (sent w) (stdout w))
    else
      (Raise (match Fs.stat (fs w) (ROOT P) with
              | Some _ => Fs.ENOTDIR (str (ZIP_OUT P))
              | None => Fs.ENOENT (str (ZIP_OUT P))
              end),
       World (delete (ZIP_OUT P) (fs w)) (sent w) (stdout w)).
Proof.
  assert (ZIP_OUT P ≠ []) as Hne by (rewrite ZIP_OUT_eq; by destruct (ROOT P)).
  assert (parent (ZIP_OUT P) = ROOT P) as Hpar
    by (rewrite ZIP_OUT_eq; apply removelast_last).
  assert (∀ fsx, Fs.stat (delete (ZIP_OUT P) fsx) (ROOT P) = Fs.stat fsx (ROOT P))
    as Hdel.
  { intros fsx. apply stat_ext, lookup_delete_ne. rewrite ZIP_OUT_eq. intros H.
    apply (f_equal length) in H. rewrite length_app in H. simpl in H. lia. }
  assert (∀ fsx n, archive_of P (<[ZIP_OUT P := n]> (delete (ZIP_OUT P) fsx))
                   = archive_of P fsx) as Harc.
  { intros fsx n. by rewrite insert_delete_eq, archive_of_insert_zip. }
  destruct w as [fsw sw ow].
  unfold build_zip, bind, get_fs, syscall, lift, ret; cbn [fs sent stdout].
  unfold Fs.exists_, Fs.unlink, Fs.is_dir. rewrite !stat_nonempty by done.
  destruct (fsw !! ZIP_OUT P) as [[d| |]|] eqn:Hz; cbn [fs sent stdout]; try done.
  all: unfold Fs.open_wb;
    repeat (cbn [fs sent stdout];
            rewrite ?stat_nonempty, ?Hz, ?lookup_delete_eq, ?Hpar, ?Hdel by done);
    try done.
  all: destruct (Fs.stat fsw (ROOT P)) as [[]|]; cbn [fs sent stdout];
    rewrite ?delete_id by done; try done.
  all: rewrite zip_folders_eq; cbn [fs sent stdout].
  - fold (archive_of P (<[ZIP_OUT P:=File ""]> (delete (ZIP_OUT P) fsw))).
    by rewrite Harc, insert_insert_eq, insert_delete_eq.
  - fold (archive_of P (<[ZIP_OUT P:=File ""]> (delete (ZIP_OUT P) fsw))).
    by rewrite Harc, insert_insert_eq, insert_delete_eq.
  - fold (archive_of P (<[ZIP_OUT P:=File ""]> fsw)).
    by rewrite archive_of_insert_zip, insert_insert_eq.
Qed.

Lemma NoDup_archived_files fsx : NoDup (archived_files P fsx).
Proof.
  unfold archived_files. apply NoDup_filter, NoDup_app.
  split; [apply NoDup_rglob|]. split; [|apply NoDup_rglob].
  intros p (_ & Hu & _)%elem_of_rglob (_ & Hc & _)%elem_of_rglob.
  apply below_is_prefix, is_prefix_spec in Hu as [k1 ->].
  apply below_is_prefix, is_prefix_spec in Hc as [k2 Hc].
  rewrite OUT_UNCOOKED_eq, OUT_COOKED_eq, <- !app_assoc in Hc.
  by apply app_inv_head in Hc.
Qed.

Lemma elem_of_archived_files fsx p :
  p ∈ archived_files P fsx ↔
    (found_in fsx (OUT_UNCOOKED P) p ∨ found_in fsx (OUT_COOKED P) p)
    ∧ ∃ d, fsx !! p = Some (File d).
Proof.
  unfold archived_files.
  rewrite list_elem_of_filter, elem_of_app, !elem_of_rglob.
  assert (found_in fsx (OUT_UNCOOKED P) p ∨ found_in fsx (OUT_COOKED P) p → p ≠ [])
    as Hne.
  { intros [(_ & Hb & _)|(_ & Hb & _)] ->;
      apply below_spec in Hb as (k & Hk & _);
      rewrite ?OUT_UNCOOKED_eq, ?OUT_COOKED_eq in Hk; by destruct (ROOT P). }
  unfold Fs.is_file. split.
  - intros [Hf Hin]. split; [done|]. rewrite stat_nonempty in Hf by auto.
    destruct (fsx !! p) as [[d| |]|]; try done. by exists d.
  - intros [Hin [d Hd]]. split; [|done]. by rewrite stat_nonempty, Hd by auto.
Qed.

(** C8: the archiver removes what is at the archive path and writes there
    a deflated archive with one member for each regular file that the
    recursive walk of the two folders finds, named by its path relative to
    the root; directories and other entries are left out. *)
Theorem archive_rebuilt (w : world) :
  Fs.is_dir (fs w) (ZIP_OUT P) = false →
  Fs.is_dir (fs w) (ROOT P) = true →
  build_zip P (ZIP_OUT P) w =
    (Ok tt,
     World (<[ZIP_OUT P := File (zip_bytes P (archive_of P (delete (ZIP_OUT P) (fs w))))]>
              (delete (ZIP_OUT P) (fs w)))
           (sent w) (stdout w))
  ∧ archive_of P (delete (ZIP_OUT P) (fs w)) =
      Archive ZIP_DEFLATED (map (member_of P (fs w)) (archived_files P (fs w)))
  ∧ NoDup (archived_files P (fs w))
  ∧ (∀ p, p ∈ archived_files P (fs w) ↔
            (found_in (fs w) (OUT_UNCOOKED P) p ∨ found_in (fs w) (OUT_COOKED P) p)
            ∧ ∃ d, fs w !! p = Some (File d))
  ∧ (∀ p d, fs w !! p = Some (File d) →
            member_of P (fs w) p
            = (str_relative (skipn (length (ROOT P)) p), d)).
Proof.
  intros Hz Hr.
  assert (archive_of P (delete (ZIP_OUT P) (fs w)) = archive_of P (fs w)) as Ha.
  { apply archive_of_ext. intros q _ _ Hq. apply lookup_delete_ne. intros <-.
    rewrite ZIP_OUT_eq, lookup_app_r, Nat.sub_diag in Hq by done. by apply Hq. }
  split; [|split; [done|split; [apply NoDup_archived_files|split]]].
  - by rewrite build_zip_run, Hz, Hr, Ha, insert_delete_eq.
  - apply elem_of_archived_files.
  - intros p d Hp. unfold member_of, arcname. by rewrite Hp.
Qed.

End Archiver.

Section Runner.

Context (P : Platform).

Ltac mstep :=
  unfold bind, ret, lift, raise, try_, get_fs, syscall, print in *; simpl in *.

Lemma is_prefix_take_self (p : path) k : is_prefix (take k p) p = true.
Proof.
  apply is_prefix_spec. exists (drop k p). by rewrite take_drop.
Qed.


Lemma all_dirs_root fsx x : all_dirs fsx (ROOT P ++ [x]) → Fs.is_dir fsx (ROOT P) = true.
Proof.
  intros H. unfold Fs.is_dir, Fs.stat. destruct (ROOT P) as [|c r] eqn:Hr; [done|].
  specialize (H (length (c :: r))). rewrite take_app_length in H.
  rewrite H; [done|]. rewrite length_app. simpl. lia.
Qed.

Lemma ensure_dirs_inv w w1 :
  ensure_dirs P w = (Ok tt, w1) →
  sent w1 = sent w ∧ stdout w1 = stdout w
  ∧ all_dirs (fs w1) (OUT_UNCOOKED P) ∧ all_dirs (fs w1) (OUT_COOKED P)
  ∧ ∀ q, fs w1 !! q = fs w !! q
         ∨ (fs w !! q = None ∧ fs w1 !! q = Some Dir
            ∧ (is_prefix q (OUT_UNCOOKED P) = true
               ∨ is_prefix q (OUT_COOKED P) = true)).
Proof.
  unfold ensure_dirs. mstep.
  destruct (Fs.mkdir_parents (fs w) (OUT_UNCOOKED P)) as [fsa|] eqn:Ha; [|done].
  simpl. destruct (Fs.mkdir_parents fsa (OUT_COOKED P)) as [fsb|] eqn:Hb; [|done].
  intros [= <-]. simpl. split; [done|split; [done|]].
  pose proof (mkdir_parents_lookup _ _ _ Ha) as Hfa.
  pose proof (mkdir_parents_lookup _ _ _ Hb) as Hfb.
  split; [|split].
  - intros k Hk. pose proof (mkdirs_all_dirs _ _ _ _ _ Ha k Hk) as Hd. simpl in Hd.
    destruct (Hfb (take k (OUT_UNCOOKED P))) as [Hq|(Hq&_)]; congruence.
  - intros k Hk. apply (mkdirs_all_dirs _ _ _ _ _ Hb k Hk).
  - intros q. destruct (Hfb q) as [Hq|(Hq&Hd&k&_&Hk)];
      destruct (Hfa q) as [Hq'|(Hq'&Hd'&k'&_&Hk')].
    + left. congruence.
    + right. repeat split; [done|congruence|].
      left. rewrite Hk'. apply is_prefix_take_self.
    + right. repeat split; [congruence|done|].
      right. rewrite Hk. apply is_prefix_take_self.
    + congruence.
Qed.

Lemma ensure_dirs_noop w :
  all_dirs (fs w) (OUT_UNCOOKED P) → all_dirs (fs w) (OUT_COOKED P) →
  ensure_dirs P w = (Ok tt, w).
Proof.
  intros Hu Hc. unfold ensure_dirs, Fs.mkdir_parents. mstep.
  rewrite mkdirs_noop by done. simpl. rewrite mkdirs_noop by done.
  by destruct w.
Qed.

Lemma finish_run d e w :
  finish P (d, e) w =
    match build_zip P (ZIP_OUT P) w with
    | (Ok _, w') =>
        (Ok (if (0 <? e)%nat then 1 else 0)%Z,
         World (fs w') (sent w') (stdout w' ++ summary P d e))
    | (Raise x, w') => (Raise x, w')
    end.
Proof.
  unfold finish, summary. mstep.
  destruct (build_zip P (ZIP_OUT P) w) as [[[]|x] w']; [|done].
  simpl. by rewrite <- !app_assoc.
Qed.

Lemma main_missing w w1 :
  ensure_dirs P w = (Ok tt, w1) →
  fs w1 !! MANIFEST P = None →
  main P w = (Ok 2%Z, World (fs w1) (sent w1)
                        (stdout w1 ++ ["Missing manifest.csv at: " ++ str (MANIFEST P)])).
Proof.
  intros He Hm. unfold main. unfold bind at 1. rewrite He.
  unfold bind at 1, get_fs at 1. unfold Fs.exists_.
  rewrite stat_nonempty, Hm by (rewrite MANIFEST_eq; by destruct (ROOT P)).
  done.
Qed.

Lemma main_present w w1 jobs :
  ensure_dirs P w = (Ok tt, w1) →
  reads_manifest P (fs w1) jobs →
  main P w = bind (run_jobs P jobs) (finish P) w1.
Proof.
  intros He (text & rows & Hm & Hr & Hj). unfold main. unfold bind at 1. rewrite He.
  unfold bind at 1, get_fs at 1. unfold Fs.exists_.
  rewrite stat_nonempty, Hm by (rewrite MANIFEST_eq; by destruct (ROOT P)).
  simpl. unfold bind at 1, read_text. unfold bind at 1, get_fs.
  rewrite stat_nonempty, Hm by (rewrite MANIFEST_eq; by destruct (ROOT P)).
  unfold ret at 1, bind at 1, lift at 1. rewrite Hr.
  unfold bind at 1, lift at 1. by rewrite Hj.
Qed.

Lemma main_ok_inv w c w' :
  main P w = (Ok c, w') →
  ∃ w1, ensure_dirs P w = (Ok tt, w1)
    ∧ ((fs w1 !! MANIFEST P = None ∧ c = 2%Z ∧ fs w' = fs w1 ∧ sent w' = sent w1)
       ∨ ∃ jobs counts wl, reads_manifest P (fs w1) jobs
                           ∧ run_jobs P jobs w1 = (Ok counts, wl)
                           ∧ finish P counts wl = (Ok c, w')).
Proof.
  intros H. destruct (ensure_dirs P w) as [[[]|x] w1] eqn:He.
  2:{ unfold main, bind in H. by rewrite He in H. }
  exists w1. split; [done|].
  destruct (fs w1 !! MANIFEST P) as [n|] eqn:Hm.
  2:{ left. rewrite (main_missing _ _ He Hm) in H. by simplify_eq. }
  right. revert H. unfold main. unfold bind at 1. rewrite He.
  unfold bind at 1, get_fs at 1. unfold Fs.exists_.
  rewrite stat_nonempty, Hm by (rewrite MANIFEST_eq; by destruct (ROOT P)).
  simpl. unfold bind at 1, read_text. unfold bind at 1, get_fs.
  rewrite stat_nonempty, Hm by (rewrite MANIFEST_eq; by destruct (ROOT P)).
  destruct n as [text| |]; try done.
  unfold ret at 1, bind at 1, lift at 1.
  destruct (DictReader P text) as [rows|] eqn:Hr; [|done].
  unfold bind at 1, lift at 1.
  destruct (read_jobs P rows) as [jobs|] eqn:Hj; [|done].
  unfold bind at 1.
  destruct (run_jobs P jobs w1) as [[counts|x] wl] eqn:Hrun; [|done].
  intros H. exists jobs, counts, wl. split; [|done]. by exists text, rows.
Qed.

(** C9: the reader turns the rows of the manifest into jobs one for one
    and in order; the URL and the relative path of a job are the fields
    of its row with the white space around them removed, and the path is
    joined to the root. *)
Theorem manifest_rows_in_order (rows : list row) :
  Forall (λ r : row, ∃ u rel, r !! "url" = Some (Some u)
                             ∧ r !! "relative_output_path" = Some (Some rel)) rows →
  (∃ jobs, read_jobs P rows = Ok jobs
     ∧ Forall2 (λ (r : row) (job : string * path),
                  ∃ u rel, r !! "url" = Some (Some u)
                           ∧ r !! "relative_output_path" = Some (Some rel)
                           ∧ job = (Py.strip u, joinpath (ROOT P) (Py.strip rel)))
               rows jobs)
  ∧ (∀ s, trimmed_of s (Py.strip s))
  ∧ (∀ rel, Py.startswith "/" rel = false →
            joinpath (ROOT P) rel = (ROOT P ++ parse_parts rel)%list).
Proof.
  intros Hrows. split; [|split; [apply strip_trimmed|]].
  - induction Hrows as [|r rows (u & rel & Hu & Hrel) _ (jobs & Hj & Hall)].
    { exists []. split; [done|constructor]. }
    exists ((Py.strip u, joinpath (ROOT P) (Py.strip rel)) :: jobs).
    simpl. unfold field. rewrite Hu, Hrel, Hj. split; [done|].
    constructor; [|done]. by exists u, rel.
  - intros rel Hrel. unfold joinpath. by rewrite Hrel.
Qed.

Lemma enumerate_length {A} k (l : list A) : length (enumerate k l) = length l.
Proof. revert k. induction l; intros k; simpl; auto. Qed.

Lemma Forall_enumerate {A} (Q : A → Prop) k (l : list A) :
  Forall Q l → Forall (λ j : nat * A, Q j.2) (enumerate k l).
Proof.
  intros H. revert k. induction H; intros k; simpl; constructor; auto.
Qed.

Lemma filter_length_pos {A} (f : A → bool) (l : list A) :
  (0 <? length (List.filter f l))%nat = existsb f l.
Proof. induction l as [|a l IH]; simpl; [done|]. by destruct (f a). Qed.

Lemma progress_length total jobs w : length (progress P total jobs w) = length jobs.
Proof. revert w. induction jobs; intros w; simpl; auto. Qed.

(** C3, as the code has it: with every destination under the root, a
    fetch returns a result for every job, an ERROR message with URL,
    destination and cause when the job fails; the loop runs every job in
    order without raising and counts as errors exactly the jobs that
    failed; and the run goes on to the archiver whatever that count is. *)
Theorem error_isolation (jobs : list (string * path)) (w : world) :
  Forall (λ job : string * path, Fs.below (ROOT P) job.2 = true) jobs →
  let n := length jobs in
  let os := outcomes P n (enumerate 1 jobs) w in
  (∀ u out wj, (u, out) ∈ jobs →
     ∃ wj', download_one P u out wj =
       (Ok (match outcome_of P u out wj with
            | Failed e =>
                (false, "ERROR " ++ u ++ " -> "
                          ++ arcname P (final_path P u out wj) ++ ": " ++ exn_text e)
            | Downloaded => (true, "OK " ++ arcname P (final_path P u out wj))
            | Skipped => (false, "SKIP (exists) " ++ arcname P out)
            end), wj'))
  ∧ (∃ wl,
      run_jobs P jobs w =
        (Ok (length (List.filter is_downloaded os),
             length (List.filter is_failed os)), wl)
      ∧ length os = n
      ∧ stdout wl = (stdout w ++ progress P n (enumerate 1 jobs) w)%list
      ∧ ∀ w0, ensure_dirs P w0 = (Ok tt, w) → reads_manifest P (fs w) jobs →
          main P w0 =
            match build_zip P (ZIP_OUT P) wl with
            | (Ok _, wz) =>
                (Ok (if existsb is_failed os then 1 else 0)%Z,
                 World (fs wz) (sent wz)
                       (stdout wz ++ summary P (length (List.filter is_downloaded os))
                                               (length (List.filter is_failed os))))
            | (Raise x, wz) => (Raise x, wz)
            end)
  ∧ failures_are_isolated P jobs w.
Proof.
  intros Hjobs n os.
  destruct (run_steps P n (enumerate 1 jobs) 0 0 w) as (wl & Hrun & Hlen & Hout).
  { by apply (Forall_enumerate (λ job : string * path, Fs.below (ROOT P) job.2 = true)). }
  rewrite !Nat.add_0_l in Hrun. fold os in Hrun, Hlen.
  split; [|split].
  - intros u out wj Hin.
    rewrite Forall_forall in Hjobs. specialize (Hjobs _ Hin). simpl in Hjobs.
    destruct (download_one_outcome P u out wj Hjobs) as [wj' ->].
    exists wj'. unfold render. by destruct (outcome_of P u out wj).
  - exists wl. split; [done|].
    split; [by rewrite Hlen, enumerate_length|]. split; [done|].
    intros w0 He Hm. rewrite (main_present _ _ _ He Hm).
    unfold bind. unfold run_jobs at 1. fold n. rewrite Hrun.
    by rewrite finish_run, filter_length_pos.
  - exists (length (List.filter is_downloaded os)), (length (List.filter is_failed os)), wl.
    split; [done|]. split; [|done].
    by rewrite Hout, length_app, progress_length, enumerate_length.
Qed.


Lemma download_one_skip u out w :
  is_present (fs w) out = true →
  download_one P u out w = (report_skip P out, w).
Proof.
  intros Hp. unfold download_one. unfold bind at 1. rewrite present_spec, Hp.
  unfold report_skip. mstep. by destruct (relative_to out (ROOT P)).
Qed.

(** When every destination is present the loop only prints. *)
Lemma run_steps_present total jobs d e w :
  Forall (λ job : nat * (string * path),
            is_prefix (ROOT P) job.2.2 = true
            ∧ is_present (fs w) job.2.2 = true) jobs →
  foldM (job_step P total) jobs (d, e) w =
    (Ok (d, e), World (fs w) (sent w)
                      (stdout w ++ map (skip_line P total) jobs)).
Proof.
  intros Hj. revert w Hj. induction jobs as [|[idx [u out]] jobs IH]; intros w Hj.
  { simpl. unfold ret. rewrite app_nil_r. by destruct w. }
  apply Forall_cons in Hj as [[Hroot Hp] Hj]. simpl in Hroot, Hp.
  cbn [foldM]. unfold bind at 1. unfold job_step at 1.
  unfold bind at 1. rewrite (download_one_skip u out w Hp).
  unfold report_skip, relative_to. rewrite Hroot.
  unfold bind at 1, print at 1, ret at 1.
  assert (∀ x, Py.startswith "ERROR" ("SKIP (exists) " ++ x) = false) as ->
    by done.
  unfold ret at 1. cbv beta iota.
  rewrite IH by done. simpl. rewrite <- app_assoc. done.
Qed.

(** C1, as the code has it: when after a completed run every destination
    of the manifest is present with non-zero size, the next run reports
    every job as skipped, sends no request, and leaves the disk, archive
    included, as it was. *)
Theorem rerun_skips_present (w0 w1 : world) (c1 : Z)
  (jobs : list (string * path)) :
  main P w0 = (Ok c1, w1) →
  reads_manifest P (fs w1) jobs →
  Forall (λ job : string * path,
            is_prefix (ROOT P) job.2 = true
            ∧ is_present (fs w1) job.2 = true) jobs →
  ∃ w2, main P w1 = (Ok 0%Z, w2)
        ∧ fs w2 = fs w1
        ∧ sent w2 = sent w1
        ∧ stdout w2 =
            (stdout w1 ++ map (skip_line P (length jobs)) (enumerate 1 jobs)
               ++ summary P 0 0)%list.
Proof.
  intros Hmain Hread Hjobs.
  assert (ZIP_OUT P ≠ []) as Hne by (rewrite ZIP_OUT_eq; by destruct (ROOT P)).
  apply main_ok_inv in Hmain as (wa & He & [(Hm & _ & Hfs & _)|Hrun]).
  { destruct Hread as (text & rows & Hm' & _). congruence. }
  destruct Hrun as (jobs' & [d e] & wl & _ & Hrun & Hfin).
  apply ensure_dirs_inv in He as (_ & _ & Hu & Hc & _).
  rewrite finish_run, build_zip_run in Hfin.
  destruct (Fs.is_dir (fs wl) (ZIP_OUT P)) eqn:Hz; [done|].
  destruct (Fs.is_dir (fs wl) (ROOT P)) eqn:Hr; [|done].
  injection Hfin as _ <-. simpl in *.
  assert (∀ p, all_dirs (fs wa) p →
            all_dirs (<[ZIP_OUT P:=File (zip_bytes P (archive_of P (fs wl)))]> (fs wl)) p)
    as Hdirs.
  { intros p Hp k Hk. unfold run_jobs in Hrun.
    pose proof (run_steps_dirs P _ _ _ _ _ _ Hrun _ (Hp k Hk)) as Hd.
    rewrite lookup_insert_ne; [done|]. intros Heq.
    unfold Fs.is_dir in Hz. rewrite stat_nonempty, Heq, Hd in Hz; done. }
  set (w1 := World _ _ _) in *.
  rewrite (main_present _ w1 jobs); [|by apply ensure_dirs_noop; apply Hdirs|done].
  unfold bind, run_jobs.
  rewrite run_steps_present
    by (by apply (Forall_enumerate
                    (λ job : string * path,
                       is_prefix (ROOT P) job.2 = true
                       ∧ is_present (fs w1) job.2 = true))).
  rewrite finish_run, build_zip_run. simpl.
  unfold Fs.is_dir at 1. rewrite stat_nonempty, lookup_insert_eq by done.
  rewrite (all_dirs_root _ "uncooked") by (by apply Hdirs).
  rewrite archive_of_insert_zip, insert_insert_eq.
  eexists. split; [done|]. simpl. split; [done|]. split; [done|].
  by rewrite <- app_assoc.
Qed.

End Runner.

(** ** Further properties of the script *)

Section MoreStrings.

Lemma lower_char_space a : Py.is_space (Py.lower_char a) = Py.is_space a.
Proof. destruct a as [[] [] [] [] [] [] [] []]; vm_compute; reflexivity. Qed.

Lemma lower_char_idem a : Py.lower_char (Py.lower_char a) = Py.lower_char a.
Proof. destruct a as [[] [] [] [] [] [] [] []]; vm_compute; reflexivity. Qed.

Lemma lower_char_semicolon a :
  Ascii.eqb (Py.lower_char a) ";" = Ascii.eqb a ";".
Proof. destruct a as [[] [] [] [] [] [] [] []]; vm_compute; reflexivity. Qed.

Lemma lower_idem s : Py.lower (Py.lower s) = Py.lower s.
Proof. induction s as [|a s IH]; simpl; [done|]. by rewrite lower_char_idem, IH. Qed.

Lemma lower_before_first s :
  Py.before_first ";" (Py.lower s) = Py.lower (Py.before_first ";" s).
Proof.
  induction s as [|a s IH]; simpl; [done|].
  rewrite lower_char_semicolon. destruct (Ascii.eqb a ";"); [done|].
  simpl. by rewrite IH.
Qed.

Lemma lower_lstrip s : Py.lstrip (Py.lower s) = Py.lower (Py.lstrip s).
Proof.
  induction s as [|a s IH]; simpl; [done|].
  rewrite lower_char_space. by destruct (Py.is_space a).
Qed.

Lemma lower_rstrip s : Py.rstrip (Py.lower s) = Py.lower (Py.rstrip s).
Proof.
  induction s as [|a s IH]; simpl; [done|].
  rewrite IH, lower_char_space.
  destruct (Py.rstrip s); simpl; [by destruct (Py.is_space a)|done].
Qed.

Lemma lower_strip s : Py.strip (Py.lower s) = Py.lower (Py.strip s).
Proof. unfold Py.strip. by rewrite lower_lstrip, lower_rstrip. Qed.

Lemma all_space_semicolon s : Py.all_space s = true → Py.contains ";" s = false.
Proof.
  induction s as [|a s IH]; simpl; [done|].
  intros [Ha Hs]%andb_true_iff. rewrite IH by done.
  destruct (Ascii.eqb_spec a ";") as [->|]; [discriminate Ha|done].
Qed.

Lemma contains_app c a b :
  Py.contains c (a ++ b) = Py.contains c a || Py.contains c b.
Proof.
  induction a as [|x a IH]; [done|].
  rewrite ?string_app_cons. simpl. by rewrite IH, orb_assoc.
Qed.

Lemma before_first_app c a b :
  Py.contains c a = false → Py.before_first c (a ++ String c b) = a.
Proof.
  induction a as [|x a IH]; simpl.
  { intros _. change ("" ++ String c b) with (String c b). simpl.
    by rewrite Ascii.eqb_refl. }
  intros [Hx Ha]%orb_false_iff. rewrite ?string_app_cons. simpl.
  by rewrite Hx, IH.
Qed.

Lemma before_first_none c a : Py.contains c a = false → Py.before_first c a = a.
Proof.
  induction a as [|x a IH]; simpl; [done|].
  intros [Hx Ha]%orb_false_iff. by rewrite Hx, IH.
Qed.

Lemma lstrip_app l s : Py.all_space l = true → Py.lstrip (l ++ s) = Py.lstrip s.
Proof.
  induction l as [|a l IH]; [done|]. simpl.
  intros [Ha Hl]%andb_true_iff. rewrite ?string_app_cons. simpl. by rewrite Ha, IH.
Qed.

Lemma rstrip_all_space r : Py.all_space r = true → Py.rstrip r = "".
Proof.
  induction r as [|a r IH]; [done|]. simpl.
  intros [Ha Hr]%andb_true_iff. by rewrite IH, Ha.
Qed.

Lemma rstrip_app s r : Py.all_space r = true → Py.rstrip (s ++ r) = Py.rstrip s.
Proof.
  intros Hr. induction s as [|a s IH].
  { change ("" ++ r) with r. by rewrite rstrip_all_space. }
  rewrite ?string_app_cons. simpl. by rewrite IH.
Qed.

Lemma rstrip_lstrip_app s r :
  Py.all_space r = true → Py.rstrip (Py.lstrip (s ++ r)) = Py.rstrip (Py.lstrip s).
Proof.
  intros Hr. induction s as [|a s IH].
  { change ("" ++ r) with r. simpl.
    assert (Py.lstrip r = "") as ->; [|done].
    clear -Hr. induction r as [|a r IH]; [done|]. simpl in *.
    apply andb_true_iff in Hr as [-> Hr]. auto. }
  rewrite ?string_app_cons. simpl. destruct (Py.is_space a); [done|].
  rewrite <- string_app_cons. by apply rstrip_app.
Qed.

Lemma strip_app l s r :
  Py.all_space l = true → Py.all_space r = true →
  Py.strip (l ++ s ++ r) = Py.strip s.
Proof.
  intros Hl Hr. unfold Py.strip. rewrite lstrip_app by done.
  by apply rstrip_lstrip_app.
Qed.

Lemma rfind_app c a b i :
  Py.rfind c b = Some i → Py.rfind c (a ++ b) = Some (String.length a + i).
Proof.
  intros Hb. induction a as [|x a IH]; [done|].
  rewrite ?string_app_cons. simpl. by rewrite IH.
Qed.

Lemma string_drop_app a b : Py.drop (String.length a) (a ++ b) = b.
Proof. induction a as [|x a IH]; [by destruct b|]. by rewrite string_app_cons. Qed.

Lemma split_nonempty c s : Py.split c s ≠ [].
Proof.
  destruct s as [|a s]; simpl; [done|].
  destruct (Py.split c s); [done|]. by destruct (Ascii.eqb a c).
Qed.

Lemma join_split c s : Py.join (String c "") (Py.split c s) = s.
Proof.
  induction s as [|a s IH]; [done|]. simpl.
  pose proof (split_nonempty c s) as Hne.
  destruct (Py.split c s) as [|w ws]; [done|].
  destruct (Ascii.eqb_spec a c) as [->|Hac].
  - change (Py.join (String c "") ("" :: w :: ws))
      with ("" ++ String c "" ++ Py.join (String c "") (w :: ws)).
    by rewrite IH.
  - destruct ws as [|w' ws].
    + simpl in *. by rewrite IH.
    + change (Py.join (String c "") (String a w :: w' :: ws))
        with (String a w ++ String c "" ++ Py.join (String c "") (w' :: ws)).
      rewrite string_app_cons. f_equal. exact IH.
Qed.

Lemma startswith_app p s : Py.startswith p (p ++ s) = true.
Proof.
  unfold Py.startswith. induction p as [|a p IH]; [by destruct s|].
  rewrite string_app_cons. cbn [String.prefix].
  by destruct (ascii_dec a a).
Qed.

End MoreStrings.

Section ResolverProperties.

Context (P : Platform).

Lemma contains_lower_semicolon s :
  Py.contains ";" (Py.lower s) = Py.contains ";" s.
Proof.
  induction s as [|a s IH]; simpl; [done|]. by rewrite lower_char_semicolon, IH.
Qed.

Lemma name_add_ext p e : name (add_ext p e) = name p ++ e.
Proof. unfold add_ext, name at 1. apply last_last. Qed.

Lemma suffix_add_ext p e :
  name p ≠ "" → Py.rfind "." e = Some 0 → 1 < String.length e →
  suffix (add_ext p e) = e.
Proof.
  intros Hn Hr He. unfold suffix. rewrite name_add_ext.
  rewrite (rfind_app _ _ _ _ Hr), Nat.add_0_r, string_app_length, string_drop_app.
  assert (0 < String.length (name p)) by (destruct (name p); [done|simpl; lia]).
  assert ((0 <? String.length (name p))%nat = true) as -> by (by apply Nat.ltb_lt).
  assert ((String.length (name p) <? String.length (name p) + String.length e - 1)%nat
          = true) as -> by (apply Nat.ltb_lt; lia).
  done.
Qed.

Lemma infer_ext_from_url_range u : infer_ext_from_url P u ∈ URL_RESULTS.
Proof.
  rewrite infer_ext_from_url_spec. case_bool_decide as Hw.
  - unfold IMAGE_SUFFIXES in Hw.
    repeat (apply elem_of_cons in Hw as [Hw|Hw];
            [rewrite Hw; by apply (bool_decide_unpack _); vm_compute|]).
    by apply elem_of_nil in Hw.
  - by apply (bool_decide_unpack _); vm_compute.
Qed.

Lemma infer_ext_from_content_type_range ct :
  infer_ext_from_content_type ct ∈ CONTENT_TYPE_RESULTS.
Proof.
  unfold infer_ext_from_content_type.
  destruct (CONTENT_TYPE_EXT !! _) as [e|] eqn:Ht; simpl.
  - apply table_lookup in Ht. unfold CONTENT_TYPE_TABLE in Ht.
    repeat (apply elem_of_cons in Ht as [Ht|Ht];
            [injection Ht as _ ->; by apply (bool_decide_unpack _); vm_compute|]).
    by apply elem_of_nil in Ht.
  - by apply (bool_decide_unpack _); vm_compute.
Qed.

Lemma inferred_in_range u ct :
  Py.or_ (infer_ext_from_url P u) (infer_ext_from_content_type ct) ∈ URL_RESULTS.
Proof.
  pose proof (infer_ext_from_url_range u) as Hu.
  pose proof (infer_ext_from_content_type_range ct) as Hc.
  unfold Py.or_. destruct (Py.truthy _); [done|].
  unfold CONTENT_TYPE_RESULTS in Hc.
  repeat (apply elem_of_cons in Hc as [->|Hc];
          [by apply (bool_decide_unpack _); vm_compute|]).
  by apply elem_of_nil in Hc.
Qed.

(** X1: the suffix inferred from a URL is empty or one of seven suffixes,
    never [.jpeg]; the suffix inferred from a content type is empty or one
    of six; and so is the suffix that a fetch appends. *)
Theorem inferred_suffix_ranges (u ct : string) :
  infer_ext_from_url P u ∈ URL_RESULTS
  ∧ infer_ext_from_url P u ≠ ".jpeg"
  ∧ infer_ext_from_content_type ct ∈ CONTENT_TYPE_RESULTS
  ∧ Py.or_ (infer_ext_from_url P u) (infer_ext_from_content_type ct) ∈ URL_RESULTS.
Proof.
  pose proof (infer_ext_from_url_range u) as Hu.
  split; [done|]. split; [|split].
  - intros Heq. rewrite Heq in Hu. revert Hu.
    by apply (bool_decide_unpack _); vm_compute.
  - apply infer_ext_from_content_type_range.
  - apply inferred_in_range.
Qed.

(** X2: the content-type inference looks at the media type only: white
    space around it, the case of its letters and the parameters after the
    first semicolon make no difference. *)
Theorem content_type_normalised (l ct ct' r params : string) :
  Py.all_space l = true → Py.all_space r = true →
  Py.contains ";" ct = false → Py.lower ct' = Py.lower ct →
  infer_ext_from_content_type (l ++ ct' ++ r ++ String ";" params)
  = infer_ext_from_content_type ct.
Proof.
  intros Hl Hr Hc Hlow. unfold infer_ext_from_content_type.
  rewrite !or_empty_r.
  assert (Py.contains ";" ct' = false) as Hc'.
  { by rewrite <- contains_lower_semicolon, Hlow, contains_lower_semicolon. }
  replace (l ++ ct' ++ r ++ String ";" params)
    with ((l ++ ct' ++ r) ++ String ";" params)
    by (by rewrite !string_app_assoc).
  rewrite before_first_app
    by (by rewrite !contains_app, Hc', !all_space_semicolon).
  rewrite before_first_none by done.
  rewrite strip_app by done.
  by rewrite <- !lower_strip, Hlow.
Qed.

(** X3: for a path with a name the inference never raises; it keeps the
    path, or appends one of the seven suffixes to a path that has none,
    and the new path then has exactly that suffix. *)
Theorem inferred_path_shape (r : response) (out_path : path) :
  name out_path ≠ "" →
  ∃ final, infer_out_path P r out_path = Ok final
    ∧ (final = out_path
       ∨ (suffix out_path = ""
          ∧ ∃ e, e ∈ URL_RESULTS ∧ e ≠ "" ∧ final = add_ext out_path e
                 ∧ suffix final = e ∧ parent final = parent out_path)).
Proof.
  intros Hn. destruct (decide (suffix out_path = "")) as [Hs|Hs].
  2:{ exists out_path. split; [by apply infer_out_path_kept|by left]. }
  rewrite infer_out_path_preference by done.
  assert (∀ e, e ∈ URL_RESULTS → e ≠ "" →
            suffix (add_ext out_path e) = e
            ∧ parent (add_ext out_path e) = parent out_path) as Hok.
  { intros e He Hne. split; [|apply removelast_last].
    unfold URL_RESULTS in He.
    repeat (apply elem_of_cons in He as [->|He];
            [first [done|apply suffix_add_ext;
                         [done|vm_compute; reflexivity|simpl; lia]]|]).
    by apply elem_of_nil in He. }
  eexists. split; [done|].
  case_bool_decide as Hw.
  - right. split; [done|]. eexists. 
    assert ((if bool_decide (url_suffix P (url r) = ".jpeg") then ".jpg"
             else url_suffix P (url r)) ∈ URL_RESULTS
            ∧ (if bool_decide (url_suffix P (url r) = ".jpeg") then ".jpg"
               else url_suffix P (url r)) ≠ "") as [H1 H2].
    { unfold IMAGE_SUFFIXES in Hw.
      repeat (apply elem_of_cons in Hw as [Hw|Hw];
              [rewrite Hw; split; [by apply (bool_decide_unpack _); vm_compute|done]|]).
      by apply elem_of_nil in Hw. }
    split; [exact H1|]. split; [exact H2|]. split; [done|]. by apply Hok.
  - destruct (CONTENT_TYPE_EXT !! media_type r) as [e|] eqn:Ht; [|by left].
    right. split; [done|]. exists e.
    assert (e ∈ URL_RESULTS ∧ e ≠ "") as [H1 H2].
    { apply table_lookup in Ht. unfold CONTENT_TYPE_TABLE in Ht.
      repeat (apply elem_of_cons in Ht as [Ht|Ht];
              [injection Ht as _ ->; split;
               [by apply (bool_decide_unpack _); vm_compute|done]|]).
      by apply elem_of_nil in Ht. }
    split; [done|]. split; [done|]. split; [done|]. by apply Hok.
Qed.

End ResolverProperties.

Section FetcherProperties.

Context (P : Platform).

Ltac mstep :=
  unfold bind, ret, lift, raise, try_, get_fs, syscall, print in *; simpl in *.

Lemma fetch_body_ok_name r final w v w' :
  fetch_body P r final w = (Ok v, w') → name final ≠ "".
Proof.
  unfold fetch_body. unfold bind at 1. unfold syscall at 1.
  destruct (Fs.mkdir_parents (fs w) (parent final)); [|done].
  unfold bind at 1, lift at 1.
  destruct (with_suffix final _) as [tmp|] eqn:Ht; [|done].
  intros _ Hn. unfold with_suffix in Ht. rewrite Hn in Ht.
  repeat case_match; done.
Qed.

Lemma download_one_ok_inv u out w msg w' :
  download_one P u out w = (Ok (true, msg), w') →
  ∃ r w1, fetch_head P u out w = (Ok (r, final_path P u out w), w1)
          ∧ fetch_body P r (final_path P u out w) w1 = (Ok (true, msg), w').
Proof.
  unfold download_one, final_path. unfold bind at 1. rewrite present_spec.
  destruct (is_present (fs w) out).
  { mstep. destruct (relative_to out (ROOT P)); intros; simplify_eq. }
  unfold bind at 1, try_ at 1.
  destruct (fetch_head P u out w) as [[[r f]|e] w1] eqn:Hh.
  2:{ rewrite on_error_spec. unfold report_error.
      destruct (relative_to out (ROOT P)); intros; simplify_eq. }
  unfold bind at 1, try_ at 1.
  destruct (fetch_body P r f w1) as [[v|e] w2] eqn:Hb.
  - unfold ret. intros [= -> ->]. by exists r, w1.
  - rewrite on_error_spec. unfold report_error.
    destruct (relative_to f (ROOT P)); intros; simplify_eq.
Qed.

(** X4: when the server cannot be reached or answers with a status from
    400 to 599, the fetch returns the ERROR message for the manifest path
    and the disk is left exactly as it was: no directory is created and no
    file is opened. *)
Theorem failed_request_leaves_disk (u : string) (out_path : path) (w : world) :
  is_present (fs w) out_path = false →
  (∀ r, network P (length (sent w)) (get_request u) = Responded r →
        (400 ≤ status_code r < 600)%Z) →
  download_one P u out_path w =
    (report_error P u out_path
       (match network P (length (sent w)) (get_request u) with
        | Unreachable msg => ConnectionError msg
        | Responded r => HTTPError (status_code r) (reason r) (url r)
        end),
     World (fs w) (sent w ++ [get_request u]) (stdout w)).
Proof.
  intros Hp Hst. unfold download_one. unfold bind at 1. rewrite present_spec, Hp.
  unfold bind at 1, try_ at 1.
  unfold fetch_head, requests_get. unfold bind at 1.
  fold (get_request u).
  destruct (network P (length (sent w)) (get_request u)) as [m|r] eqn:Hn.
  { by rewrite on_error_spec. }
  specialize (Hst r eq_refl).
  unfold bind at 1, raise_for_status.
  assert ((400 <=? status_code r)%Z && (status_code r <? 600)%Z = true) as ->.
  { apply andb_true_iff. split; [apply Z.leb_le|apply Z.ltb_lt]; lia. }
  unfold raise. by rewrite on_error_spec.
Qed.

(** X5: a download that succeeds leaves the whole body at the final path;
    the file counts as present afterwards exactly when the body is not
    empty, so a file stored with an empty body is requested again by the
    next fetch of that path. *)
Theorem empty_body_not_present (u : string) (out_path : path) (w : world)
  (msg : string) (w' : world) :
  download_one P u out_path w = (Ok (true, msg), w') →
  let final := final_path P u out_path w in
  ∃ r w1, fetch_head P u out_path w = (Ok (r, final), w1)
    ∧ fs w' !! final = Some (File (body_of r))
    ∧ is_present (fs w') final = (0 <? String.length (body_of r))%nat
    ∧ (body_of r = "" →
       ∀ u2, ∃ res2 w2, download_one P u2 final w' = (res2, w2)
                        ∧ sent w2 = (sent w' ++ [get_request u2])%list).
Proof.
  intros Hd final.
  destruct (download_one_ok_inv _ _ _ _ _ Hd) as (r & w1 & Hh & Hb).
  fold final in Hh, Hb.
  pose proof (fetch_body_ok_name _ _ _ _ _ Hb) as Hn.
  assert (final ≠ []) as Hne by (intros Heq; by rewrite Heq in Hn).
  apply download_one_cases in Hd as [(_ & _ & Hr)|(_ & _ & _ & fsm & _ & Hc)].
  { unfold report_skip in Hr. by destruct (relative_to _ _). }
  fold final in Hc.
  destruct Hc as [(e & Hr & _)|(r' & w1' & Hh' & _ & _ & _ & Hfs & _)].
  { unfold report_error in Hr. by destruct (relative_to _ _). }
  rewrite Hh in Hh'. injection Hh' as <- <-.
  assert (fs w' !! final = Some (File (body_of r))) as Hl
    by (by rewrite Hfs, lookup_insert_eq).
  assert (is_present (fs w') final = (0 <? String.length (body_of r))%nat) as Hp.
  { unfold is_present. by rewrite stat_nonempty, Hl. }
  exists r, w1. split; [done|]. split; [done|]. split; [done|].
  intros He u2. rewrite He in Hp.
  destruct (download_one P u2 final w') as [res2 w2] eqn:Hd2.
  exists res2, w2. split; [done|].
  apply download_one_cases in Hd2 as [(Hp' & _)|(_ & ? & _)]; [|done].
  rewrite Hp in Hp'. discriminate Hp'.
Qed.

Lemma write_chunks_prefix tmp cs k w d res w' :
  fs w !! tmp = Some (File d) →
  write_chunks P tmp k cs w = (res, w') →
  ∃ d1 d2, fs w' !! tmp = Some (File (d ++ d1))
           ∧ fold_right String.append "" cs = d1 ++ d2
           ∧ (res = Ok tt → d2 = "").
Proof.
  revert k w d. induction cs as [|c cs IH]; intros k w d Hd; simpl.
  { intros [= <- <-]. exists "", "". by rewrite string_app_nil_r. }
  destruct (Py.truthy c) eqn:Hc.
  - unfold bind, f_write. destruct (write_fault P _ _) as [[n msg]|].
    + intros [= <- <-]. exists "", (c ++ fold_right String.append "" cs).
      by rewrite string_app_nil_r.
    + intros H. eapply (IH _ _ (d ++ c)) in H as (d1 & d2 & Hl & Hcs & Hok);
        [|by simpl; unfold Fs.append; rewrite Hd, lookup_insert_eq].
      exists (c ++ d1), d2. rewrite <- string_app_assoc. split; [done|].
      split; [|done]. by rewrite string_app_assoc, Hcs.
  - apply truthy_false in Hc as ->. intros H.
    eapply IH in H as (d1 & d2 & Hl & Hcs & Hok); [|done].
    by exists d1, d2.
Qed.

Lemma temp_sibling_length (final : path) :
  (length final ≤ length (temp_sibling final))%nat.
Proof.
  unfold temp_sibling, add_ext. rewrite length_app, parent_length. simpl. lia.
Qed.

Lemma fetch_body_temp r final w res w' :
  fetch_body P r final w = (res, w') →
  fs w' !! temp_sibling final = fs w !! temp_sibling final
  ∨ (res = report_ok P final ∧ fs w' !! temp_sibling final = None)
  ∨ (∃ d1 d2, fs w' !! temp_sibling final = Some (File d1)
              ∧ body_of r = d1 ++ d2 ∧ is_ok res = false).
Proof.
  unfold fetch_body. unfold bind at 1. unfold syscall at 1.
  destruct (Fs.mkdir_parents (fs w) (parent final)) as [fsm|] eqn:Hm.
  2:{ intros [= <- <-]. by left. }
  assert (fsm !! temp_sibling final = fs w !! temp_sibling final) as Hfsm.
  { destruct (mkdir_parents_lookup _ _ _ Hm (temp_sibling final))
      as [?|(_ & _ & k & Hk & Heq)]; [done|].
    apply (f_equal length) in Heq.
    pose proof (temp_sibling_length final).
    rewrite length_take, parent_length in Heq. rewrite parent_length in Hk.
    destruct final; simpl in *; lia. }
  unfold bind at 1, lift at 1.
  destruct (with_suffix final _) as [tmp|] eqn:Ht.
  2:{ intros [= <- <-]. by left. }
  apply with_suffix_part in Ht as ->. fold (temp_sibling final).
  unfold bind at 1.
  unfold save_body. unfold bind at 1. unfold syscall at 1. cbn [fs sent stdout].
  destruct (Fs.open_wb fsm (temp_sibling final)) as [fso|] eqn:Ho.
  2:{ intros [= <- <-]. by left. }
  apply open_wb_inv in Ho as (-> & _ & Hne & _).
  unfold bind at 1.
  destruct (write_chunks P _ 0 (chunks r) _) as [rw ww] eqn:Hw.
  eapply (write_chunks_prefix _ _ _ _ "") in Hw as (d1 & d2 & Hl & Hcs & Hok);
    [|by simpl; rewrite lookup_insert_eq].
  change ("" ++ d1) with d1 in Hl. fold (body_of r) in Hcs.
  destruct rw as [[]|e].
  2:{ intros [= <- <-]. right; right. by exists d1, d2. }
  rewrite (Hok eq_refl), string_app_nil_r in Hcs.
  destruct (broken r).
  { unfold raise. intros [= <- <-]. right; right. exists d1, "".
    by rewrite string_app_nil_r. }
  unfold ret at 1. unfold bind at 1, syscall at 1.
  destruct (Fs.replace (fs ww) _ final) as [fs2|] eqn:Hrep.
  2:{ intros [= <- <-]. right; right. exists d1, "".
      by rewrite string_app_nil_r. }
  apply replace_inv in Hrep as (n & _ & _ & _ & ->).
  assert (temp_sibling final ≠ final) as Hneq by (by apply add_ext_ne).
  intros H. right; left.
  assert (res = report_ok P final
          ∧ fs w' = <[final:=n]> (delete (temp_sibling final) (fs ww))) as [-> ->].
  { unfold report_ok. mstep.
    destruct (relative_to final (ROOT P)); simplify_eq; simpl; done. }
  split; [done|]. by rewrite lookup_insert_ne, lookup_delete_eq.
Qed.

(** X6: whatever was at the temporary path before, a fetch that got a
    response leaves there nothing (after the rename), what was there (when
    the file could not be opened), or a file holding an initial part of
    the body, which the fetch does not remove. *)
Theorem temp_file_holds_prefix (u : string) (out_path : path) (w : world)
  (r : response) (final : path) (w1 : world)
  (res : result (bool * string)) (w' : world) :
  is_present (fs w) out_path = false →
  fetch_head P u out_path w = (Ok (r, final), w1) →
  download_one P u out_path w = (res, w') →
  fs w' !! temp_sibling final = fs w !! temp_sibling final
  ∨ (res = report_ok P final ∧ fs w' !! temp_sibling final = None)
  ∨ (∃ d1 d2 e, fs w' !! temp_sibling final = Some (File d1)
                ∧ body_of r = d1 ++ d2
                ∧ res = report_error P u final e).
Proof.
  intros Hp Hh. unfold download_one. unfold bind at 1. rewrite present_spec, Hp.
  unfold bind at 1, try_ at 1. rewrite Hh.
  pose proof (fetch_head_world _ _ _ _ _ _ Hh) as ->.
  unfold bind at 1, try_ at 1.
  destruct (fetch_body P r final _) as [rb w2] eqn:Hb.
  apply fetch_body_temp in Hb as [Hb|[[-> Hb]|(d1 & d2 & Hl & Hbody & Hok)]];
    cbn [fs] in *.
  - destruct rb; [unfold ret|rewrite on_error_spec]; intros [= <- <-]; by left.
  - unfold report_ok. destruct (relative_to final (ROOT P)) eqn:Hrel.
    + unfold ret. intros [= <- <-]. right; by left.
    + rewrite on_error_spec. intros [= <- <-]. right; left.
      unfold report_error. by rewrite Hrel.
  - destruct rb as [v|e]; [done|]. rewrite on_error_spec. intros [= <- <-].
    right; right. by exists d1, d2, e.
Qed.

(** X7: when neither the manifest path nor the final path is under the
    root, the fetch does not return: formatting the message raises
    ValueError, also inside the handler, and the exception leaves the
    loop, so the jobs after this one are not run. *)
Theorem outside_root_raises (u : string) (out_path : path) (w : world)
  (res : result (bool * string)) (w' : world) :
  is_prefix (ROOT P) out_path = false →
  is_prefix (ROOT P) (final_path P u out_path w) = false →
  download_one P u out_path w = (res, w') →
  ∃ msg, res = Raise (ValueError msg)
    ∧ ∀ total idx c rest,
        foldM (job_step P total) ((idx, (u, out_path)) :: rest) c w
        = (Raise (ValueError msg), w').
Proof.
  intros Ho Hf Hd.
  assert (∃ msg, res = Raise (ValueError msg)) as [msg ->].
  { apply download_one_cases in Hd as [(_ & _ & ->)|(_ & _ & _ & fsm & _ & Hc)].
    - unfold report_skip, relative_to. rewrite Ho. eauto.
    - destruct Hc as [(e & -> & _)|(r & w1 & _ & _ & _ & _ & _ & ->)];
        unfold report_error, report_ok, relative_to; rewrite Hf; eauto. }
  exists msg. split; [done|]. intros total idx [d e] rest.
  cbn [foldM]. unfold bind at 1. unfold job_step. unfold bind at 1.
  by rewrite Hd.
Qed.

(** X8: when two jobs name the same destination, which has an extension,
    and the first one stores a body that is not empty, the second one is
    skipped: the file of the first job stays. *)
Theorem duplicate_destination_first_wins (u1 u2 : string) (out_path : path)
  (w : world) (msg : string) (w1 : world) (line : string) :
  is_prefix (ROOT P) out_path = true → suffix out_path ≠ "" →
  download_one P u1 out_path w = (Ok (true, msg), w1) →
  fs w1 !! out_path ≠ Some (File "") →
  download_one P u2 out_path (World (fs w1) (sent w1) (stdout w1 ++ [line]))
  = (Ok (false, "SKIP (exists) " ++ arcname P out_path),
     World (fs w1) (sent w1) (stdout w1 ++ [line])).
Proof.
  intros Hroot Hs Hd Hne.
  destruct (download_one_ok_inv _ _ _ _ _ Hd) as (r & wh & Hh & Hb).
  pose proof (fetch_body_ok_name _ _ _ _ _ Hb) as Hn.
  assert (final_path P u1 out_path w = out_path) as Hf.
  { apply fetch_head_inv in Hh as (_ & _ & Hi).
    rewrite infer_out_path_kept in Hi by done. by injection Hi. }
  rewrite Hf in *.
  assert (out_path ≠ []) as Hne' by (intros Heq; by rewrite Heq in Hn).
  apply download_one_cases in Hd as [(_ & _ & Hr)|(_ & _ & _ & fsm & _ & Hc)].
  { unfold report_skip in Hr. by destruct (relative_to _ _). }
  rewrite Hf in Hc.
  destruct Hc as [(e & Hr & _)|(r' & w1' & _ & _ & _ & _ & Hfs & _)].
  { unfold report_error in Hr. by destruct (relative_to _ _). }
  rewrite download_one_skip.
  - unfold report_skip, relative_to, arcname. by rewrite Hroot.
  - simpl. unfold is_present. rewrite stat_nonempty by done.
    rewrite Hfs, lookup_insert_eq in Hne |- *. simpl.
    destruct (body_of r'); [done|]. done.
Qed.

End FetcherProperties.

Section BatchProperties.

Context (P : Platform).

Lemma download_one_sent u out w res w' :
  download_one P u out w = (res, w') →
  sent w' = (sent w ++ (if is_present (fs w) out then []
                        else [get_request u]))%list.
Proof.
  intros [(-> & -> & _)|(-> & ? & _)]%download_one_cases; [|done].
  by rewrite app_nil_r.
Qed.

Lemma run_requests total jobs c w :
  Forall (λ job : nat * (string * path), Fs.below (ROOT P) job.2.2 = true) jobs →
  sent (foldM (job_step P total) jobs c w).2
  = (sent w ++ requests_of P total jobs w)%list.
Proof.
  intros Hj. revert c w.
  induction Hj as [|[idx [u out]] jobs Hb Hj IH]; intros [d e] w.
  { simpl. by rewrite app_nil_r. }
  simpl in Hb.
  destruct (job_step_spec P total d e idx u out w Hb) as (w1 & Hd & Hs).
  destruct (job_step_spec P total 0 0 idx u out w Hb) as (w0 & Hd0 & Hs0).
  rewrite Hd in Hd0. injection Hd0 as <-.
  cbn [foldM requests_of fst snd]. unfold bind. rewrite Hs.
  unfold after_job. rewrite Hs0. cbn [snd].
  rewrite IH. cbn [sent]. rewrite (download_one_sent _ _ _ _ _ Hd).
  by rewrite <- app_assoc.
Qed.

Lemma requests_sublist total jobs w :
  requests_of P total jobs w
    `sublist_of` map (λ job : nat * (string * path), get_request job.2.1) jobs.
Proof.
  revert w. induction jobs as [|job jobs IH]; intros w; simpl; [done|].
  destruct (is_present (fs w) job.2.2); simpl.
  - by apply sublist_cons.
  - by apply sublist_skip.
Qed.

Lemma requests_skipped_length total jobs w :
  (length (requests_of P total jobs w)
   + length (List.filter is_skipped (outcomes P total jobs w)) = length jobs)%nat.
Proof.
  revert w. induction jobs as [|job jobs IH]; intros w; simpl; [done|].
  specialize (IH (after_job P total job w)).
  unfold outcome_of. destruct (is_present (fs w) job.2.2); simpl; [lia|].
  destruct (fetch_head P _ _ w) as [[[r f]|x] w1]; simpl; [|lia].
  destruct (fetch_body P r f w1) as [[v|x] w2]; simpl; lia.
Qed.

Lemma outcomes_partition (os : list outcome) :
  (length (List.filter is_downloaded os) + length (List.filter is_failed os)
   + length (List.filter is_skipped os) = length os)%nat.
Proof. induction os as [|[] os IH]; simpl; lia. Qed.

Lemma outcomes_length total jobs w : length (outcomes P total jobs w) = length jobs.
Proof. revert w. induction jobs; intros w; simpl; auto. Qed.

Lemma map_enumerate {A B} (f : A → B) k (l : list A) :
  map (λ j : nat * A, f j.2) (enumerate k l) = map f l.
Proof. revert k. induction l; intros k; simpl; [done|]. by f_equal. Qed.

(** X9: with every destination under the root, the requests of a run are
    sent in manifest order, one for each job whose destination is not
    present when its turn comes and none for a job that is skipped; no
    request is repeated. *)
Theorem requests_in_manifest_order (jobs : list (string * path)) (w : world)
  (res : result (nat * nat)) (wl : world) :
  Forall (λ job : string * path, Fs.below (ROOT P) job.2 = true) jobs →
  run_jobs P jobs w = (res, wl) →
  let n := length jobs in
  sent wl = (sent w ++ requests_of P n (enumerate 1 jobs) w)%list
  ∧ requests_of P n (enumerate 1 jobs) w
      `sublist_of` map (λ job : string * path, get_request job.1) jobs
  ∧ (length (requests_of P n (enumerate 1 jobs) w)
     + length (List.filter is_skipped (outcomes P n (enumerate 1 jobs) w))
     = n)%nat.
Proof.
  intros Hjobs Hrun n. split; [|split].
  - pose proof (run_requests n (enumerate 1 jobs) (0, 0)%nat w) as Hs.
    unfold run_jobs in Hrun. fold n in Hrun. rewrite Hrun in Hs. apply Hs.
    by apply (Forall_enumerate (λ job : string * path, Fs.below (ROOT P) job.2 = true)).
  - rewrite <- (map_enumerate (λ job : string * path, get_request job.1) 1 jobs).
    apply requests_sublist.
  - rewrite requests_skipped_length. apply enumerate_length.
Qed.

(** X10: the two counters of a run and the jobs that were skipped add up
    to the number of jobs, and the number of requests that the run sent is
    the sum of the two counters. *)
Theorem counters_match_requests (jobs : list (string * path)) (w : world)
  (d e : nat) (wl : world) :
  Forall (λ job : string * path, Fs.below (ROOT P) job.2 = true) jobs →
  run_jobs P jobs w = (Ok (d, e), wl) →
  (d + e + length (List.filter is_skipped
                     (outcomes P (length jobs) (enumerate 1 jobs) w))
   = length jobs)%nat
  ∧ length (sent wl) = (length (sent w) + d + e)%nat.
Proof.
  intros Hjobs Hrun.
  assert (Forall (λ job : nat * (string * path), Fs.below (ROOT P) job.2.2 = true)
            (enumerate 1 jobs)) as Hen
    by (by apply (Forall_enumerate (λ job : string * path, Fs.below (ROOT P) job.2 = true))).
  pose proof (run_requests (length jobs) (enumerate 1 jobs) (0, 0)%nat w Hen) as Hs.
  destruct (run_steps P (length jobs) (enumerate 1 jobs) 0 0 w Hen)
    as (w' & Hsteps & _ & _).
  unfold run_jobs in Hrun. rewrite Hrun in Hs, Hsteps. cbn [snd] in Hs.
  injection Hsteps as Hd He _.
  pose proof (outcomes_partition (outcomes P (length jobs) (enumerate 1 jobs) w)) as Hp.
  pose proof (requests_skipped_length (length jobs) (enumerate 1 jobs) w) as Hr.
  rewrite outcomes_length in Hp. rewrite enumerate_length in Hp, Hr.
  apply (f_equal length) in Hs. rewrite length_app in Hs.
  lia.
Qed.

End BatchProperties.

Section RunnerProperties.

Context (P : Platform).

Implicit Types fsx : gmap path node.

Ltac mstep :=
  unfold bind, ret, lift, raise, try_, get_fs, syscall, print in *; simpl in *.

Lemma all_dirs_is_dir fsx (p : path) : all_dirs fsx p → Fs.is_dir fsx p = true.
Proof.
  intros H. unfold Fs.is_dir, Fs.stat. destruct p as [|c p]; [done|].
  specialize (H (length (c :: p))). rewrite firstn_all in H.
  rewrite H; [done|]. simpl. lia.
Qed.

Lemma mkdirs_blocked fsx target pre todo n :
  todo ≠ [] → fsx !! (pre ++ todo)%list = Some n → n ≠ Dir →
  is_ok (Fs.mkdirs fsx target pre todo) = false.
Proof.
  revert fsx pre. induction todo as [|c todo IH]; intros fsx pre Hne Hl Hn; [done|].
  simpl. destruct todo as [|c' todo].
  { rewrite Hl. by destruct n. }
  assert ((pre ++ [c]) ++ c' :: todo = pre ++ c :: c' :: todo)%list as Heq
    by (by rewrite <- app_assoc).
  destruct (fsx !! (pre ++ [c])%list) as [[]|] eqn:Hd; try done.
  - apply IH; [done| |done]. by rewrite Heq.
  - apply IH; [done| |done]. rewrite Heq, lookup_insert_ne; [done|].
    intros H. apply (f_equal length) in H. rewrite !length_app in H.
    simpl in H. lia.
Qed.

Lemma folder_nonempty x : (ROOT P ++ [x])%list ≠ [].
Proof. by destruct (ROOT P). Qed.

(** X11: when [ensure_dirs] returns, both folders are directories; every
    entry that was on disk is still there unchanged, and what is new is a
    directory; nothing is sent or printed; and a second call changes
    nothing at all. *)
Theorem ensure_dirs_idempotent (w w1 : world) :
  ensure_dirs P w = (Ok tt, w1) →
  Fs.is_dir (fs w1) (OUT_UNCOOKED P) = true
  ∧ Fs.is_dir (fs w1) (OUT_COOKED P) = true
  ∧ (∀ q n, fs w !! q = Some n → fs w1 !! q = Some n)
  ∧ (∀ q, fs w !! q = None → fs w1 !! q = None ∨ fs w1 !! q = Some Dir)
  ∧ sent w1 = sent w ∧ stdout w1 = stdout w
  ∧ ensure_dirs P w1 = (Ok tt, w1).
Proof.
  intros He. pose proof (ensure_dirs_inv _ _ _ He) as (Hs & Ho & Hu & Hc & Hframe).
  split; [by apply all_dirs_is_dir|]. split; [by apply all_dirs_is_dir|].
  split; [|split; [|split; [done|split; [done|by apply ensure_dirs_noop]]]].
  - intros q n Hq. destruct (Hframe q) as [?|(?&_)]; congruence.
  - intros q Hq. destruct (Hframe q) as [?|(_&?&_)]; [left; congruence|by right].
Qed.

(** X12: when the name of an output folder is taken by something that is
    not a directory, [ensure_dirs] raises, and so does [main], before it
    looks for the manifest: nothing is printed and nothing is sent, and
    the exit code 2 is not returned even when the manifest is missing. *)
Theorem blocked_folder_stops_main (w : world) (n : node) :
  fs w !! OUT_UNCOOKED P = Some n ∨ fs w !! OUT_COOKED P = Some n →
  n ≠ Dir →
  ∃ e w', ensure_dirs P w = (Raise e, w') ∧ main P w = (Raise e, w')
          ∧ sent w' = sent w ∧ stdout w' = stdout w.
Proof.
  intros Hl Hn.
  assert (∃ e w', ensure_dirs P w = (Raise e, w')
                  ∧ sent w' = sent w ∧ stdout w' = stdout w) as (e & w' & He & ? & ?).
  { unfold ensure_dirs. mstep.
    destruct (Fs.mkdir_parents (fs w) (OUT_UNCOOKED P)) as [fsa|ea] eqn:Ha.
    2:{ by exists ea, w. }
    simpl.
    assert (fsa !! OUT_COOKED P = Some n) as Hc.
    { destruct Hl as [Hl|Hl].
      - pose proof (mkdirs_blocked (fs w) (OUT_UNCOOKED P) [] (OUT_UNCOOKED P) n
                      (folder_nonempty _) Hl Hn) as Hb.
        unfold Fs.mkdir_parents in Ha. by rewrite Ha in Hb.
      - destruct (mkdir_parents_lookup _ _ _ Ha (OUT_COOKED P)) as [Hq|(Hq&_)];
          congruence. }
    pose proof (mkdirs_blocked fsa (OUT_COOKED P) [] (OUT_COOKED P) n
                  (folder_nonempty _) Hc Hn) as Hb.
    unfold Fs.mkdir_parents.
    destruct (Fs.mkdirs fsa (OUT_COOKED P) [] (OUT_COOKED P)) as [|eb]; [done|].
    by eexists eb, _. }
  exists e, w'. split; [done|]. split; [|done].
  unfold main. unfold bind at 1. by rewrite He.
Qed.

Lemma read_jobs_app good rest e :
  Forall (complete_row) good → read_jobs P rest = Raise e →
  read_jobs P (good ++ rest) = Raise e.
Proof.
  intros Hg Hr. induction Hg as [|r good (u & rel & Hu & Hrel) _ IH]; [done|].
  simpl. unfold field. by rewrite Hu, Hrel, IH.
Qed.

(** X13: the reader stops at the first row that lacks a field: a missing
    column raises KeyError with the name of the column, the url first, and
    a row too short for the column raises AttributeError; the rows after
    it are not looked at. *)
Theorem read_jobs_first_bad_row (good : list row) (bad : row) (rest : list row) :
  Forall complete_row good →
  ¬ complete_row bad →
  read_jobs P (good ++ bad :: rest) =
    Raise (match bad !! "url" with
           | None => KeyError "url"
           | Some None => AttributeError "'NoneType' object has no attribute 'strip'"
           | Some (Some _) =>
               match bad !! "relative_output_path" with
               | None => KeyError "relative_output_path"
               | _ => AttributeError "'NoneType' object has no attribute 'strip'"
               end
           end).
Proof.
  intros Hg Hb. apply read_jobs_app; [done|]. simpl. unfold field.
  destruct (bad !! "url") as [[u|]|] eqn:Hu; [|done..].
  destruct (bad !! "relative_output_path") as [[rel|]|] eqn:Hrel; [|done..].
  exfalso. apply Hb. by exists u, rel.
Qed.


Lemma filter_all {A} (Q : A → Prop) `{!∀ x, Decision (Q x)} (l : list A) :
  Forall Q l → filter Q l = l.
Proof.
  induction 1 as [|x l Hx Hl IH]; [done|].
  by rewrite filter_cons_True, IH.
Qed.

(** X15: for a relative path in normal form, the job path is the root
    followed by the components of the path; it lies under the root, and
    its name in the messages and in the archive is the text of the
    manifest again. *)
Theorem manifest_path_round_trip (rel : string) :
  normal_relative rel →
  joinpath (ROOT P) rel = (ROOT P ++ Py.split "/" rel)%list
  ∧ Fs.below (ROOT P) (joinpath (ROOT P) rel) = true
  ∧ arcname P (joinpath (ROOT P) rel) = rel
  ∧ relative_to (joinpath (ROOT P) rel) (ROOT P) = Ok (Py.split "/" rel).
Proof.
  unfold normal_relative. intros Hn.
  pose proof (split_nonempty "/" rel) as Hne.
  assert (Py.startswith "/" rel = false) as Hs.
  { destruct rel as [|a rel]; [done|].
    unfold Py.startswith. cbn [String.prefix].
    destruct (ascii_dec "/" a) as [<-|]; [|done].
    exfalso. simpl in Hn, Hne.
    destruct (Py.split "/" rel); [|simpl in Hn].
    - apply Forall_cons in Hn as [[? _] _]. done.
    - apply Forall_cons in Hn as [[? _] _]. done. }
  assert (joinpath (ROOT P) rel = (ROOT P ++ Py.split "/" rel)%list) as Hj.
  { unfold joinpath, parse_parts. rewrite Hs. by rewrite filter_all. }
  rewrite Hj. split; [done|]. split; [|split].
  - apply below_spec. eauto.
  - unfold arcname. rewrite drop_app_length. unfold str_relative.
    destruct (Py.split "/" rel) eqn:Hsp; [done|]. rewrite <- Hsp.
    apply (join_split "/").
  - unfold relative_to.
    assert (is_prefix (ROOT P) (ROOT P ++ Py.split "/" rel) = true) as ->
      by (apply is_prefix_spec; eauto).
    by rewrite drop_app_length.
Qed.

End RunnerProperties.

Section ArchiverProperties.

Context (P : Platform).

Implicit Types fsx : gmap path node.

Lemma zip_out_nonempty : ZIP_OUT P ≠ [].
Proof. rewrite ZIP_OUT_eq. by destruct (ROOT P). Qed.

Lemma root_not_zip_out : ROOT P ≠ ZIP_OUT P.
Proof.
  rewrite ZIP_OUT_eq. intros H. apply (f_equal length) in H.
  rewrite length_app in H. simpl in H. lia.
Qed.

(** X16: [build_zip] changes no path besides the archive path, sends and
    prints nothing; when the archive path is a directory it raises and
    leaves the world as it is; and when it returns the archive path holds
    a regular file. *)
Theorem build_zip_frame (w : world) (res : result unit) (w' : world) :
  build_zip P (ZIP_OUT P) w = (res, w') →
  sent w' = sent w ∧ stdout w' = stdout w
  ∧ (∀ q, q ≠ ZIP_OUT P → fs w' !! q = fs w !! q)
  ∧ (Fs.is_dir (fs w) (ZIP_OUT P) = true →
       w' = w ∧ res = Raise (Fs.EISDIR (str (ZIP_OUT P))))
  ∧ (is_ok res = true → Fs.is_file (fs w') (ZIP_OUT P) = true).
Proof.
  pose proof zip_out_nonempty as Hne.
  rewrite build_zip_run.
  destruct (Fs.is_dir (fs w) (ZIP_OUT P)) eqn:Hz.
  { intros [= <- <-]. repeat split; done. }
  destruct (Fs.is_dir (fs w) (ROOT P)) eqn:Hr; intros [= <- <-]; simpl.
  - repeat split; try done.
    + intros q Hq. by rewrite lookup_insert_ne.
    + intros _. unfold Fs.is_file. by rewrite stat_nonempty, lookup_insert_eq.
  - repeat split; try done.
    intros q Hq. by rewrite lookup_delete_ne.
Qed.

(** X17: the archive does not contain itself: building the archive once
    more over the result gives the same disk again. *)
Theorem build_zip_idempotent (w w' : world) :
  build_zip P (ZIP_OUT P) w = (Ok tt, w') →
  build_zip P (ZIP_OUT P) w' = (Ok tt, w')
  ∧ fs w' !! ZIP_OUT P = Some (File (zip_bytes P (archive_of P (fs w'))))
  ∧ archive_of P (fs w') = archive_of P (fs w).
Proof.
  pose proof zip_out_nonempty as Hne. pose proof root_not_zip_out as Hrz.
  rewrite build_zip_run.
  destruct (Fs.is_dir (fs w) (ZIP_OUT P)) eqn:Hz; [done|].
  destruct (Fs.is_dir (fs w) (ROOT P)) eqn:Hr; [|done].
  intros [= <-]. rewrite build_zip_run. cbn [fs sent stdout].
  unfold Fs.is_dir at 1. rewrite stat_nonempty, lookup_insert_eq by done.
  assert (Fs.is_dir (<[ZIP_OUT P:=File (zip_bytes P (archive_of P (fs w)))]> (fs w))
            (ROOT P) = true) as ->.
  { unfold Fs.is_dir in *. rewrite (stat_ext _ (fs w)); [done|].
    by apply lookup_insert_ne. }
  by rewrite !archive_of_insert_zip, insert_insert_eq.
Qed.

Lemma archived_names fsx (m : string * string) :
  m ∈ map (member_of P fsx) (archived_files P fsx) →
  Py.startswith "uncooked/" m.1 = true ∨ Py.startswith "cooked/" m.1 = true.
Proof.
  intros (p & -> & Hp)%list_elem_of_fmap.
  apply elem_of_archived_files in Hp as [Hin _].
  assert (∀ x, Fs.below (ROOT P ++ [x]) p = true →
            ∃ c k, arcname P p = (x ++ "/") ++ Py.join "/" (c :: k)) as Hname.
  { intros x (k & -> & Hk)%below_spec. destruct k as [|c k]; [done|].
    exists c, k. unfold arcname. rewrite <- app_assoc, drop_app_length.
    by rewrite string_app_assoc. }
  destruct Hin as [(_ & Hb & _)|(_ & Hb & _)];
    [rewrite OUT_UNCOOKED_eq in Hb|rewrite OUT_COOKED_eq in Hb];
    apply Hname in Hb as (c & k & Hb); simpl; rewrite Hb;
    [left; apply (startswith_app "uncooked/")
    |right; apply (startswith_app "cooked/")].
Qed.

(** X18: when [build_zip] returns, the archive that it has written holds
    the members that the walk of the two folders wrote, and the name of
    every one of them starts with the name of one of the two folders and
    a slash: nothing from outside the folders, such as the manifest or the
    archive itself, is a member. *)
Theorem member_names_in_folders (w w' : world) :
  build_zip P (ZIP_OUT P) w = (Ok tt, w') →
  ∃ z, zip_folders P (<[ZIP_OUT P := File ""]> (fs w)) []
         [OUT_UNCOOKED P; OUT_COOKED P] = Ok z
       ∧ fs w' !! ZIP_OUT P = Some (File (zip_bytes P (Archive ZIP_DEFLATED z)))
       ∧ ∀ m, m ∈ z →
           Py.startswith "uncooked/" m.1 = true ∨ Py.startswith "cooked/" m.1 = true.
Proof.
  rewrite build_zip_run.
  destruct (Fs.is_dir (fs w) (ZIP_OUT P)); [done|].
  destruct (Fs.is_dir (fs w) (ROOT P)); [|done].
  intros [= <-]. cbn [fs].
  exists (map (member_of P (<[ZIP_OUT P := File ""]> (fs w)))
              (archived_files P (<[ZIP_OUT P := File ""]> (fs w)))).
  split; [apply zip_folders_eq|]. split; [|apply archived_names].
  rewrite lookup_insert_eq. do 3 f_equal.
  by rewrite <- (archive_of_insert_zip P (fs w) (File "")).
Qed.

End ArchiverProperties.

Section RunProperties.

Context (P : Platform).

Ltac mstep :=
  unfold bind, ret, lift, raise, try_, get_fs, syscall, print in *; simpl in *.

Lemma infer_out_path_name (r : response) (out p : path) :
  infer_out_path P r out = Ok p →
  p = out ∨ ∃ e, e ∈ URL_RESULTS ∧ e ≠ "" ∧ name p = name out ++ e.
Proof.
  unfold infer_out_path.
  destruct (negb (Py.truthy (suffix out))) eqn:Hs; [|intros [= <-]; by left].
  pose proof (inferred_in_range P (url r) (default "" (content_type r))) as Hin.
  destruct (Py.truthy (Py.or_ _ _)) eqn:Ht; [|intros [= <-]; by left].
  intros Hw. right. eexists. split; [exact Hin|].
  split; [by apply truthy_true|].
  unfold with_suffix in Hw. rewrite Hs in Hw.
  repeat case_match; try done. injection Hw as <-.
  unfold name at 1. by rewrite last_last.
Qed.

Lemma written_ending e : e ∈ URL_RESULTS → e ≠ "" → e ∈ WRITTEN_ENDINGS.
Proof.
  unfold URL_RESULTS. intros He Hne.
  repeat (apply elem_of_cons in He as [->|He];
          [first [done|by apply (bool_decide_unpack _); vm_compute]|]).
  by apply elem_of_nil in He.
Qed.

(** A fetch leaves alone every non-empty regular file whose name does not
    end like the names that it writes to. *)
Lemma download_one_keeps u out w res w' (q : path) d :
  download_one P u out w = (res, w') →
  fs w !! q = Some (File d) → d ≠ "" →
  (∀ e, e ∈ WRITTEN_ENDINGS → ¬ ends_with e (name q)) →
  fs w' !! q = Some (File d).
Proof.
  intros Hd Hq Hne Hend.
  pose proof Hd as [(_ & -> & _)|(Hp & _ & _ & fsm & Hfsm & Hc)]%download_one_cases;
    [done|].
  assert (q ≠ out) as Hqo.
  { intros <-. unfold is_present in Hp. destruct q as [|c q]; [done|].
    simpl in Hp. rewrite Hq in Hp. simpl in Hp. destruct d; [done|]. done. }
  assert (q ≠ temp_sibling (final_path P u out w)) as Hqt.
  { intros ->. apply (Hend ".part"); [by apply (bool_decide_unpack _); vm_compute|].
    eexists. unfold temp_sibling. by rewrite name_add_ext. }
  assert (q ≠ final_path P u out w) as Hqf.
  { unfold final_path. destruct (fetch_head P u out w) as [[[r p]|x] w1] eqn:Hh; [|done].
    apply fetch_head_inv in Hh as (_ & _ & Hi).
    apply infer_out_path_name in Hi as [->|(e & He & Hne' & Hn)]; [done|].
    intros ->. apply (Hend e); [by apply written_ending|]. by eexists. }
  assert (fsm !! q = Some (File d)) as Hm.
  { destruct (Hfsm q) as [?|(?&_)]; congruence. }
  destruct Hc as [(e & _ & [->|(_ & d' & ->)])|(r & w1 & _ & _ & _ & _ & -> & _)].
  - done.
  - by rewrite lookup_insert_ne.
  - by rewrite lookup_insert_ne, lookup_delete_ne.
Qed.

Lemma ensure_dirs_keeps w res w' (q : path) n :
  ensure_dirs P w = (res, w') → fs w !! q = Some n → fs w' !! q = Some n.
Proof.
  unfold ensure_dirs. mstep.
  destruct (Fs.mkdir_parents (fs w) (OUT_UNCOOKED P)) as [fsa|] eqn:Ha.
  2:{ by intros [= _ <-]. }
  simpl. intros H Hq.
  assert (fsa !! q = Some n) as Hqa.
  { destruct (mkdir_parents_lookup _ _ _ Ha q) as [?|(?&_)]; congruence. }
  destruct (Fs.mkdir_parents fsa (OUT_COOKED P)) as [fsb|] eqn:Hb.
  2:{ by injection H as _ <-. }
  injection H as _ <-. simpl.
  destruct (mkdir_parents_lookup _ _ _ Hb q) as [?|(?&_)]; congruence.
Qed.

Lemma build_zip_other w res w' (q : path) :
  build_zip P (ZIP_OUT P) w = (res, w') → q ≠ ZIP_OUT P →
  fs w' !! q = fs w !! q.
Proof.
  rewrite build_zip_run. intros H Hq.
  destruct (Fs.is_dir (fs w) (ZIP_OUT P)); [by injection H as _ <-|].
  destruct (Fs.is_dir (fs w) (ROOT P)); injection H as _ <-; simpl.
  - by rewrite lookup_insert_ne.
  - by rewrite lookup_delete_ne.
Qed.

(** X19: a run, however it ends, leaves every non-empty regular file as it
    is, unless the file is the archive or its name ends in [.part] or in
    one of the suffixes that the inference appends: the manifest and the
    script itself are never written to. *)
Theorem run_keeps_other_files (w : world) (res : result Z) (w' : world)
  (q : path) (d : string) :
  main P w = (res, w') →
  fs w !! q = Some (File d) → d ≠ "" →
  q ≠ ZIP_OUT P →
  (∀ e, e ∈ WRITTEN_ENDINGS → ¬ ends_with e (name q)) →
  fs w' !! q = Some (File d).
Proof.
  intros Hmain Hq Hne Hz Hend. revert Hmain.
  unfold main. unfold bind at 1.
  destruct (ensure_dirs P w) as [[[]|x] w1] eqn:He.
  2:{ intros [= _ <-]. by eapply ensure_dirs_keeps. }
  pose proof (ensure_dirs_keeps _ _ _ _ _ He Hq) as Hq1.
  unfold bind at 1, get_fs at 1.
  destruct (negb (Fs.exists_ (fs w1) (MANIFEST P))).
  { mstep. by intros [= _ <-]. }
  unfold bind at 1, read_text. unfold bind at 1, get_fs.
  destruct (Fs.stat (fs w1) (MANIFEST P)) as [[text| |]|];
    try (unfold raise; by intros [= _ <-]).
  unfold ret at 1, bind at 1, lift at 1.
  destruct (DictReader P text) as [rows|]; [|by intros [= _ <-]].
  unfold bind at 1, lift at 1.
  destruct (read_jobs P rows) as [jobs|]; [|by intros [= _ <-]].
  unfold bind at 1.
  destruct (run_jobs P jobs w1) as [rc wl] eqn:Hrun.
  assert (fs wl !! q = Some (File d)) as Hql.
  { unfold run_jobs in Hrun.
    eapply (run_steps_invariant P (λ wx, fs wx !! q = Some (File d))); [| |exact Hrun|done].
    - intros u out wa ra wb Hd Ha. by eapply download_one_keeps.
    - by intros wa line Ha. }
  destruct rc as [[dn en]|x]; [|by intros [= _ <-]].
  rewrite finish_run.
  destruct (build_zip P (ZIP_OUT P) wl) as [[[]|x] wz] eqn:Hb;
    intros [= _ <-]; simpl; by rewrite (build_zip_other _ _ _ _ Hb Hz).
Qed.

(** X20: when [main] returns, it returns 0, 1 or 2; it returns 2 only
    when there is no manifest, and then no request was sent; and when it
    returns 0 or 1 the archive is a regular file and the five lines of the
    summary are the last ones printed. *)
Theorem exit_code_meaning (w : world) (c : Z) (w' : world) :
  main P w = (Ok c, w') →
  (c = 2%Z ∧ Fs.exists_ (fs w') (MANIFEST P) = false ∧ sent w' = sent w)
  ∨ ((c = 0%Z ∨ c = 1%Z)
     ∧ Fs.is_file (fs w') (ZIP_OUT P) = true
     ∧ ∃ d e lines, stdout w' = (lines ++ summary P d e)%list
                    ∧ (c = 1%Z ↔ (0 < e)%nat)).
Proof.
  intros (w1 & He & [(Hm & -> & Hfs & Hs)|Hrun])%main_ok_inv.
  - left. split; [done|]. apply ensure_dirs_inv in He as (Hs1 & _).
    split; [|congruence]. unfold Fs.exists_.
    rewrite stat_nonempty, Hfs, Hm; [done|].
    rewrite MANIFEST_eq. by destruct (ROOT P).
  - right. destruct Hrun as (jobs & [d e] & wl & _ & _ & Hfin).
    rewrite finish_run, build_zip_run in Hfin.
    destruct (Fs.is_dir (fs wl) (ZIP_OUT P)); [done|].
    destruct (Fs.is_dir (fs wl) (ROOT P)); [|done].
    injection Hfin as <- <-. simpl.
    split; [destruct (0 <? e)%nat; auto|].
    split.
    + unfold Fs.is_file. rewrite stat_nonempty, lookup_insert_eq; [done|].
      rewrite ZIP_OUT_eq. by destruct (ROOT P).
    + exists d, e, (stdout wl). split; [done|].
      destruct (0 <? e)%nat eqn:Hlt.
      * apply Nat.ltb_lt in Hlt. by split.
      * apply Nat.ltb_ge in Hlt. split; [done|lia].
Qed.

End RunProperties.

(** ** The theorems at work on the small platform *)

Section Examples.

Import Demo.

(** The example of the specification: no extension in the manifest or in
    the URL, and a response that declares image/png. *)
Example shape1_is_stored_as_png :
  (download_one platform img shape1 folders).1 = Ok (true, "OK uncooked/shape1.png")
  ∧ fs (download_one platform img shape1 folders).2 !! shape1_png
    = Some (File "PNGDATA").
Proof. split; vm_compute; reflexivity. Qed.

Example no_manifest_returns_2 : (main platform start_blank).1 = Ok 2%Z.
Proof. vm_compute; reflexivity. Qed.

Example run_prints_progress_and_summary :
  stdout (main platform start).2 =
    [ "[1/3] OK uncooked/shape1.png";
      "[2/3] OK cooked/farfalle.jpg";
      "[3/3] ERROR https://example.com/gone.jpg -> cooked/gone.jpg: "
        ++ "404 Client Error: Not Found for url: https://example.com/gone.jpg";
      String "010" "Done.";
      "Downloaded this run: 2";
      "Errors: 1";
      "ZIP created: /srv/pasta/pasta-images.zip";
      "Elapsed: 0.3s" ].
Proof. vm_compute; reflexivity. Qed.

(** White space is that of [str.isspace] below 256, and [repr] and
    [str(OSError)] are those of Python. *)
Example white_space_characters :
  filter (λ n, Py.is_space (ascii_of_nat n) = true) (seq 0 256)
  = [9; 10; 11; 12; 13; 28; 29; 30; 31; 32; 133; 160]%nat.
Proof. vm_compute; reflexivity. Qed.

Example content_type_with_no_break_space :
  infer_ext_from_content_type ("image/png" ++ String "160" "") = ".png".
Proof. vm_compute; reflexivity. Qed.

Example lower_of_latin_capitals :
  Py.lower (String "201" "COLE.JPG") = String "233" "cole.jpg".
Proof. vm_compute; reflexivity. Qed.

Example text_of_failed_rename :
  exn_text (OSError 21 "Is a directory" (Some "/srv/a.part") (Some "/srv/a"))
  = "[Errno 21] Is a directory: '/srv/a.part' -> '/srv/a'".
Proof. vm_compute; reflexivity. Qed.

Example text_of_failed_write :
  (download_one full_disk img shape1_png empty_dest).1
  = Ok (false, "ERROR https://example.com/img -> uncooked/shape1.png: "
                 ++ "[Errno 28] No space left on device").
Proof. vm_compute; reflexivity. Qed.

(** C1 as stated fails: the second job of the manifest gets a 404 in the
    first run, which completes with status 1; the second run skips the
    first job and requests the URL of the second one again, since nothing
    is stored at its destination. *)
Lemma rerun_counterexample : ¬ rerun_is_idle platform start_retry.
Proof.
  intros H.
  destruct (H 1%Z after_retry) as (c2 & w2 & Hrun & _ & Hsent & _);
    [vm_compute; reflexivity|].
  assert (w2 = (main platform after_retry).2) as Hw by (by rewrite Hrun).
  rewrite Hw in Hsent.
  apply (f_equal length) in Hsent. vm_compute in Hsent. discriminate Hsent.
Qed.

(** The same holds after a run without failure, when a file was stored
    under an inferred name: the manifest says [shape1], the file is
    [shape1.png], and the second run requests the URL again. *)
Lemma rerun_requests_inferred_again : ¬ rerun_is_idle platform start_bare.
Proof.
  intros H.
  destruct (H 0%Z after_bare) as (c2 & w2 & Hrun & _ & Hsent & _);
    [vm_compute; reflexivity|].
  assert (w2 = (main platform after_bare).2) as Hw by (by rewrite Hrun).
  rewrite Hw in Hsent.
  apply (f_equal length) in Hsent. vm_compute in Hsent. discriminate Hsent.
Qed.

(** A manifest whose destinations carry their extensions: the second run
    skips both jobs. *)
Lemma rerun_skips_present_witness :
  main platform start_ext = (Ok 0%Z, after_ext)
  ∧ reads_manifest platform (fs after_ext) jobs_ext
  ∧ Forall (λ job : string * path,
              is_prefix (ROOT platform) job.2 = true
              ∧ is_present (fs after_ext) job.2 = true) jobs_ext
  ∧ ∃ w2, main platform after_ext = (Ok 0%Z, w2)
          ∧ fs w2 = fs after_ext
          ∧ sent w2 = sent after_ext
          ∧ stdout w2 =
              (stdout after_ext
                 ++ map (skip_line platform (length jobs_ext)) (enumerate 1 jobs_ext)
                 ++ summary platform 0 0)%list.
Proof.
  assert (main platform start_ext = (Ok 0%Z, after_ext)) as H1
    by (vm_compute; reflexivity).
  assert (reads_manifest platform (fs after_ext) jobs_ext) as H2.
  { exists manifest_ext, rows_ext. repeat split; vm_compute; reflexivity. }
  assert (Forall (λ job : string * path,
                    is_prefix (ROOT platform) job.2 = true
                    ∧ is_present (fs after_ext) job.2 = true) jobs_ext) as H3.
  { repeat (constructor; [split; vm_compute; reflexivity|]). constructor. }
  (split; [exact H1|]; split; [exact H2|]; split; [exact H3|]).
  exact (rerun_skips_present platform start_ext after_ext 0%Z jobs_ext H1 H2 H3).
Defined.

(** C2 as stated fails: the destination is there but empty, so the fetch
    runs; the second write fails; and the empty file is still at the final
    path afterwards. *)
Lemma atomic_write_counterexample :
  ¬ nothing_at_final_after_failure full_disk img shape1_png empty_dest.
Proof.
  intros H.
  specialize (H "ERROR https://example.com/img -> uncooked/shape1.png: [Errno 28] No space left on device"
                (download_one full_disk img shape1_png empty_dest).2
                ltac:(vm_compute; reflexivity) ltac:(vm_compute; reflexivity)).
  vm_compute in H. discriminate H.
Qed.

(** The same failed fetch leaves the final path as it was. *)
Lemma atomic_write_witness :
  download_one full_disk img shape1_png empty_dest
    = ((download_one full_disk img shape1_png empty_dest).1,
       (download_one full_disk img shape1_png empty_dest).2)
  ∧ ∀ msg, (download_one full_disk img shape1_png empty_dest).1 = Ok (false, msg) →
      fs (download_one full_disk img shape1_png empty_dest).2
        !! final_path full_disk img shape1_png empty_dest
      = fs empty_dest !! final_path full_disk img shape1_png empty_dest.
Proof.
  assert (download_one full_disk img shape1_png empty_dest
          = ((download_one full_disk img shape1_png empty_dest).1,
             (download_one full_disk img shape1_png empty_dest).2)) as H1
    by (vm_compute; reflexivity).
  split; [exact H1|].
  exact (proj2 (proj2 (atomic_write full_disk img shape1_png empty_dest _ _ H1))).
Defined.

(** Three jobs, the last of which gets a 404. *)
Lemma error_isolation_witness :
  Forall (λ job : string * path, Fs.below (ROOT platform) job.2 = true) jobs
  ∧ ∃ wl, run_jobs platform jobs folders =
            (Ok (length (List.filter is_downloaded
                           (outcomes platform (length jobs) (enumerate 1 jobs) folders)),
                 length (List.filter is_failed
                           (outcomes platform (length jobs) (enumerate 1 jobs) folders))),
             wl).
Proof.
  assert (Forall (λ job : string * path, Fs.below (ROOT platform) job.2 = true) jobs)
    as H1.
  { repeat (constructor; [vm_compute; reflexivity|]). constructor. }
  split; [exact H1|].
  destruct (error_isolation platform jobs folders H1) as (_ & (wl & Hrun & _) & _).
  exists wl. exact Hrun.
Defined.


(** The rows of a manifest whose first path is absolute give the jobs
    [jobs_outside]. *)
Example jobs_outside_from_manifest :
  match dict_reader manifest_outside with
  | Ok rs => read_jobs platform rs
  | Raise e => Raise e
  end = Ok jobs_outside.
Proof. vm_compute; reflexivity. Qed.

(** C3 as stated fails: the first job gets a 404 and its destination is
    outside the root; the handler raises while it formats the message,
    the exception leaves the loop, and the second job is not run. *)
Lemma error_isolation_counterexample :
  ¬ failures_are_isolated platform jobs_outside folders.
Proof.
  intros (d & e & wl & Hrun & _). vm_compute in Hrun. discriminate Hrun.
Qed.


(** The URL has no suffix and the response declares image/png. *)
Lemma extension_preference_witness :
  suffix shape1 = ""
  ∧ name shape1 ≠ ""
  ∧ fetch_head platform img shape1 folders
      = (Ok (shape_png, shape1_png), (fetch_head platform img shape1 folders).2)
  ∧ shape1_png =
      (if bool_decide (url_suffix platform (url shape_png) ∈ IMAGE_SUFFIXES) then
         add_ext shape1
           (if bool_decide (url_suffix platform (url shape_png) = ".jpeg") then ".jpg"
            else url_suffix platform (url shape_png))
       else
         match CONTENT_TYPE_EXT !! media_type shape_png with
         | Some e => add_ext shape1 e
         | None => shape1
         end).
Proof.
  assert (suffix shape1 = "") as H1 by (vm_compute; reflexivity).
  assert (name shape1 ≠ "") as H2 by (intros H; vm_compute in H; discriminate H).
  assert (fetch_head platform img shape1 folders
          = (Ok (shape_png, shape1_png), (fetch_head platform img shape1 folders).2))
    as H3 by (vm_compute; reflexivity).
  split; [exact H1|]. split; [exact H2|]. split; [exact H3|].
  exact (proj1 (extension_preference platform img shape1 folders
                  shape_png shape1_png _ H1 H2 H3)).
Defined.

(** A destination that ends in .jpg. *)
Lemma extension_kept_witness :
  suffix farfalle_jpg ≠ ""
  ∧ download_one platform farfalle farfalle_jpg folders
      = ((download_one platform farfalle farfalle_jpg folders).1,
         (download_one platform farfalle farfalle_jpg folders).2)
  ∧ final_path platform farfalle farfalle_jpg folders = farfalle_jpg.
Proof.
  assert (suffix farfalle_jpg ≠ "") as H1
    by (intros H; vm_compute in H; discriminate H).
  assert (download_one platform farfalle farfalle_jpg folders
          = ((download_one platform farfalle farfalle_jpg folders).1,
             (download_one platform farfalle farfalle_jpg folders).2)) as H2
    by (vm_compute; reflexivity).
  split; [exact H1|]. split; [exact H2|].
  exact (proj1 (proj2 (extension_kept platform farfalle farfalle_jpg folders _ _ H1 H2))).
Defined.

(** The file of the first run is found by the second. *)
Lemma skip_when_present_witness :
  is_prefix (ROOT platform) farfalle_jpg = true
  ∧ download_one platform farfalle farfalle_jpg after_ext =
      (Ok (false, "SKIP (exists) "
                    ++ str_relative (skipn (length (ROOT platform)) farfalle_jpg)),
       after_ext).
Proof.
  assert (is_prefix (ROOT platform) farfalle_jpg = true) as H1
    by (vm_compute; reflexivity).
  split; [exact H1|].
  apply (proj1 (skip_when_present platform farfalle farfalle_jpg after_ext H1)
           (File "JFIF")).
  - vm_compute; reflexivity.
  - simpl; lia.
Defined.

(** A tree with a file, a nested file, a directory, a socket and an old
    archive. *)
Lemma archive_rebuilt_witness :
  Fs.is_dir (fs tree) (ZIP_OUT platform) = false
  ∧ Fs.is_dir (fs tree) (ROOT platform) = true
  ∧ build_zip platform (ZIP_OUT platform) tree =
      (Ok tt,
       World (<[ZIP_OUT platform :=
                  File (zip_bytes platform
                          (archive_of platform (delete (ZIP_OUT platform) (fs tree))))]>
                (delete (ZIP_OUT platform) (fs tree)))
             (sent tree) (stdout tree)).
Proof.
  assert (Fs.is_dir (fs tree) (ZIP_OUT platform) = false) as H1
    by (vm_compute; reflexivity).
  assert (Fs.is_dir (fs tree) (ROOT platform) = true) as H2
    by (vm_compute; reflexivity).
  split; [exact H1|]. split; [exact H2|].
  exact (proj1 (archive_rebuilt platform tree H1 H2)).
Defined.

(** The three rows of the manifest. *)
Lemma manifest_rows_in_order_witness :
  Forall (λ r : row, ∃ u rel, r !! "url" = Some (Some u)
                             ∧ r !! "relative_output_path" = Some (Some rel)) rows
  ∧ ∃ jobs, read_jobs platform rows = Ok jobs
     ∧ Forall2 (λ (r : row) (job : string * path),
                  ∃ u rel, r !! "url" = Some (Some u)
                           ∧ r !! "relative_output_path" = Some (Some rel)
                           ∧ job = (Py.strip u, joinpath (ROOT platform) (Py.strip rel)))
               rows jobs.
Proof.
  assert (Forall (λ r : row, ∃ u rel, r !! "url" = Some (Some u)
                             ∧ r !! "relative_output_path" = Some (Some rel)) rows)
    as H1.
  { vm_compute.
    repeat (constructor;
            [do 2 eexists; split; vm_compute; reflexivity|]).
    constructor. }
  split; [exact H1|].
  exact (proj1 (manifest_rows_in_order platform rows H1)).
Defined.

(** After the first run [shape1.png] is there, and [shape1] is fetched
    again. *)
Lemma skip_check_on_manifest_path_witness :
  suffix shape1 = ""
  ∧ download_one platform img shape1 after_bare
      = ((download_one platform img shape1 after_bare).1,
         (download_one platform img shape1 after_bare).2)
  ∧ (sent (download_one platform img shape1 after_bare).2 = sent after_bare
     ↔ ∃ n, Fs.stat (fs after_bare) shape1 = Some n ∧ (0 < Fs.node_size n)%nat).
Proof.
  assert (suffix shape1 = "") as H1 by (vm_compute; reflexivity).
  assert (download_one platform img shape1 after_bare
          = ((download_one platform img shape1 after_bare).1,
             (download_one platform img shape1 after_bare).2)) as H2
    by (vm_compute; reflexivity).
  split; [exact H1|]. split; [exact H2|].
  exact (proj1 (skip_check_on_manifest_path platform img shape1 after_bare _ _ H1 H2)).
Defined.

End Examples.

(** ** The further properties at work on the small platform *)

Section MoreExamples.

Import Demo.

(** The folders that the first call made are found by the second. *)
Lemma ensure_dirs_idempotent_witness :
  ensure_dirs platform start = (Ok tt, folders)
  ∧ ensure_dirs platform folders = (Ok tt, folders).
Proof.
  assert (ensure_dirs platform start = (Ok tt, folders)) as H1
    by (vm_compute; reflexivity).
  split; [exact H1|].
  exact (proj2 (proj2 (proj2 (proj2 (proj2 (proj2
           (ensure_dirs_idempotent platform start folders H1))))))).
Defined.

(** A regular file named [cooked]. *)
Lemma blocked_folder_stops_main_witness :
  (fs blocked !! OUT_UNCOOKED platform = Some (File "x")
   ∨ fs blocked !! OUT_COOKED platform = Some (File "x"))
  ∧ File "x" ≠ Dir
  ∧ ∃ e w', ensure_dirs platform blocked = (Raise e, w')
            ∧ main platform blocked = (Raise e, w')
            ∧ sent w' = sent blocked ∧ stdout w' = stdout blocked.
Proof.
  assert (fs blocked !! OUT_UNCOOKED platform = Some (File "x")
          ∨ fs blocked !! OUT_COOKED platform = Some (File "x")) as H1
    by (right; vm_compute; reflexivity).
  assert (File "x" ≠ Dir) as H2 by (intros H; discriminate H).
  split; [exact H1|]. split; [exact H2|].
  exact (blocked_folder_stops_main platform blocked (File "x") H1 H2).
Defined.

(** [" Image/PNG ; q=1"] is read like ["image/png"]. *)
Lemma content_type_normalised_witness :
  Py.all_space " " = true
  ∧ Py.contains ";" "image/png" = false
  ∧ Py.lower "Image/PNG" = Py.lower "image/png"
  ∧ infer_ext_from_content_type (" " ++ "Image/PNG" ++ " " ++ String ";" " q=1")
    = infer_ext_from_content_type "image/png".
Proof.
  assert (Py.all_space " " = true) as H1 by (vm_compute; reflexivity).
  assert (Py.contains ";" "image/png" = false) as H2 by (vm_compute; reflexivity).
  assert (Py.lower "Image/PNG" = Py.lower "image/png") as H3
    by (vm_compute; reflexivity).
  split; [exact H1|]. split; [exact H2|]. split; [exact H3|].
  exact (content_type_normalised " " "image/png" "Image/PNG" " " " q=1" H1 H1 H2 H3).
Defined.

(** A path without suffix and a response that declares image/png. *)
Lemma inferred_path_shape_witness :
  name shape1 ≠ ""
  ∧ ∃ final, infer_out_path platform shape_png shape1 = Ok final
      ∧ (final = shape1
         ∨ (suffix shape1 = ""
            ∧ ∃ e, e ∈ URL_RESULTS ∧ e ≠ "" ∧ final = add_ext shape1 e
                   ∧ suffix final = e ∧ parent final = parent shape1)).
Proof.
  assert (name shape1 ≠ "") as H1 by (intros H; vm_compute in H; discriminate H).
  split; [exact H1|].
  exact (inferred_path_shape platform shape_png shape1 H1).
Defined.

(** The server answers 404. *)
Lemma failed_request_leaves_disk_witness :
  is_present (fs folders) gone_jpg = false
  ∧ download_one platform "https://example.com/gone.jpg" gone_jpg folders =
      (report_error platform "https://example.com/gone.jpg" gone_jpg
         (match network platform (length (sent folders))
                  (get_request "https://example.com/gone.jpg") with
          | Unreachable msg => ConnectionError msg
          | Responded r => HTTPError (status_code r) (reason r) (url r)
          end),
       World (fs folders) (sent folders ++ [get_request "https://example.com/gone.jpg"])
             (stdout folders)).
Proof.
  assert (is_present (fs folders) gone_jpg = false) as H1
    by (vm_compute; reflexivity).
  split; [exact H1|].
  apply (failed_request_leaves_disk platform "https://example.com/gone.jpg"
           gone_jpg folders H1).
  intros r H. vm_compute in H. injection H as <-. simpl. lia.
Defined.

(** The download of [shape1]. *)
Lemma empty_body_not_present_witness :
  download_one platform img shape1 folders
    = (Ok (true, "OK uncooked/shape1.png"), (download_one platform img shape1 folders).2)
  ∧ let final := final_path platform img shape1 folders in
    ∃ r w1, fetch_head platform img shape1 folders = (Ok (r, final), w1)
      ∧ fs (download_one platform img shape1 folders).2 !! final
        = Some (File (body_of r))
      ∧ is_present (fs (download_one platform img shape1 folders).2) final
        = (0 <? String.length (body_of r))%nat
      ∧ (body_of r = "" →
         ∀ u2, ∃ res2 w2,
           download_one platform u2 final (download_one platform img shape1 folders).2
           = (res2, w2)
           ∧ sent w2 = (sent (download_one platform img shape1 folders).2
                          ++ [get_request u2])%list).
Proof.
  assert (download_one platform img shape1 folders
          = (Ok (true, "OK uncooked/shape1.png"),
             (download_one platform img shape1 folders).2)) as H1
    by (vm_compute; reflexivity).
  split; [exact H1|].
  exact (empty_body_not_present platform img shape1 folders _ _ H1).
Defined.

(** The disk is full after the first write: the temporary file holds the
    first chunk, and the data that was there before is gone. *)
Lemma temp_file_holds_prefix_witness :
  is_present (fs stale_part) shape1_png = false
  ∧ fetch_head full_disk img shape1_png stale_part
    = (Ok (shape_png, shape1_png), (fetch_head full_disk img shape1_png stale_part).2)
  ∧ download_one full_disk img shape1_png stale_part
    = ((download_one full_disk img shape1_png stale_part).1,
       (download_one full_disk img shape1_png stale_part).2)
  ∧ (fs (download_one full_disk img shape1_png stale_part).2 !! temp_sibling shape1_png
     = fs stale_part !! temp_sibling shape1_png
     ∨ ((download_one full_disk img shape1_png stale_part).1
        = report_ok full_disk shape1_png
        ∧ fs (download_one full_disk img shape1_png stale_part).2
            !! temp_sibling shape1_png = None)
     ∨ (∃ d1 d2 e,
          fs (download_one full_disk img shape1_png stale_part).2
            !! temp_sibling shape1_png = Some (File d1)
          ∧ body_of shape_png = d1 ++ d2
          ∧ (download_one full_disk img shape1_png stale_part).1
            = report_error full_disk img shape1_png e)).
Proof.
  assert (is_present (fs stale_part) shape1_png = false) as H1
    by (vm_compute; reflexivity).
  assert (fetch_head full_disk img shape1_png stale_part
          = (Ok (shape_png, shape1_png),
             (fetch_head full_disk img shape1_png stale_part).2)) as H2
    by (vm_compute; reflexivity).
  assert (download_one full_disk img shape1_png stale_part
          = ((download_one full_disk img shape1_png stale_part).1,
             (download_one full_disk img shape1_png stale_part).2)) as H3
    by (vm_compute; reflexivity).
  split; [exact H1|]. split; [exact H2|]. split; [exact H3|].
  exact (temp_file_holds_prefix full_disk img shape1_png stale_part
           shape_png shape1_png _ _ _ H1 H2 H3).
Defined.

(** An absolute path in the manifest. *)
Lemma outside_root_raises_witness :
  is_prefix (ROOT platform) etc_x = false
  ∧ is_prefix (ROOT platform) (final_path platform farfalle etc_x folders) = false
  ∧ download_one platform farfalle etc_x folders
    = ((download_one platform farfalle etc_x folders).1,
       (download_one platform farfalle etc_x folders).2)
  ∧ ∃ msg, (download_one platform farfalle etc_x folders).1 = Raise (ValueError msg)
      ∧ ∀ total idx c rest,
          foldM (job_step platform total) ((idx, (farfalle, etc_x)) :: rest) c folders
          = (Raise (ValueError msg), (download_one platform farfalle etc_x folders).2).
Proof.
  assert (is_prefix (ROOT platform) etc_x = false) as H1
    by (vm_compute; reflexivity).
  assert (is_prefix (ROOT platform) (final_path platform farfalle etc_x folders)
          = false) as H2 by (vm_compute; reflexivity).
  assert (download_one platform farfalle etc_x folders
          = ((download_one platform farfalle etc_x folders).1,
             (download_one platform farfalle etc_x folders).2)) as H3
    by (vm_compute; reflexivity).
  split; [exact H1|]. split; [exact H2|]. split; [exact H3|].
  exact (outside_root_raises platform farfalle etc_x folders _ _ H1 H2 H3).
Defined.

(** Two jobs for [cooked/farfalle.jpg]. *)
Lemma duplicate_destination_first_wins_witness :
  is_prefix (ROOT platform) farfalle_jpg = true
  ∧ suffix farfalle_jpg ≠ ""
  ∧ download_one platform farfalle farfalle_jpg folders
    = (Ok (true, "OK cooked/farfalle.jpg"),
       (download_one platform farfalle farfalle_jpg folders).2)
  ∧ fs (download_one platform farfalle farfalle_jpg folders).2 !! farfalle_jpg
    ≠ Some (File "")
  ∧ download_one platform img farfalle_jpg
      (World (fs (download_one platform farfalle farfalle_jpg folders).2)
             (sent (download_one platform farfalle farfalle_jpg folders).2)
             (stdout (download_one platform farfalle farfalle_jpg folders).2
                ++ ["[1/2] OK cooked/farfalle.jpg"]))
    = (Ok (false, "SKIP (exists) " ++ arcname platform farfalle_jpg),
       World (fs (download_one platform farfalle farfalle_jpg folders).2)
             (sent (download_one platform farfalle farfalle_jpg folders).2)
             (stdout (download_one platform farfalle farfalle_jpg folders).2
                ++ ["[1/2] OK cooked/farfalle.jpg"])).
Proof.
  assert (is_prefix (ROOT platform) farfalle_jpg = true) as H1
    by (vm_compute; reflexivity).
  assert (suffix farfalle_jpg ≠ "") as H2
    by (intros H; vm_compute in H; discriminate H).
  assert (download_one platform farfalle farfalle_jpg folders
          = (Ok (true, "OK cooked/farfalle.jpg"),
             (download_one platform farfalle farfalle_jpg folders).2)) as H3
    by (vm_compute; reflexivity).
  assert (fs (download_one platform farfalle farfalle_jpg folders).2 !! farfalle_jpg
          ≠ Some (File "")) as H4
    by (intros H; vm_compute in H; discriminate H).
  split; [exact H1|]. split; [exact H2|]. split; [exact H3|]. split; [exact H4|].
  exact (duplicate_destination_first_wins platform farfalle img farfalle_jpg folders
           _ _ "[1/2] OK cooked/farfalle.jpg" H1 H2 H3 H4).
Defined.

(** The three jobs of the manifest. *)
Lemma requests_in_manifest_order_witness :
  Forall (λ job : string * path, Fs.below (ROOT platform) job.2 = true) jobs
  ∧ run_jobs platform jobs folders
    = ((run_jobs platform jobs folders).1, (run_jobs platform jobs folders).2)
  ∧ sent (run_jobs platform jobs folders).2
    = (sent folders ++ requests_of platform (length jobs) (enumerate 1 jobs) folders)%list.
Proof.
  assert (Forall (λ job : string * path, Fs.below (ROOT platform) job.2 = true) jobs)
    as H1.
  { repeat (constructor; [vm_compute; reflexivity|]). constructor. }
  assert (run_jobs platform jobs folders
          = ((run_jobs platform jobs folders).1, (run_jobs platform jobs folders).2))
    as H2 by (vm_compute; reflexivity).
  split; [exact H1|]. split; [exact H2|].
  exact (proj1 (requests_in_manifest_order platform jobs folders _ _ H1 H2)).
Defined.

(** Two downloads and one error: three requests. *)
Lemma counters_match_requests_witness :
  Forall (λ job : string * path, Fs.below (ROOT platform) job.2 = true) jobs
  ∧ run_jobs platform jobs folders = (Ok (2, 1)%nat, (run_jobs platform jobs folders).2)
  ∧ length (sent (run_jobs platform jobs folders).2)
    = (length (sent folders) + 2 + 1)%nat.
Proof.
  assert (Forall (λ job : string * path, Fs.below (ROOT platform) job.2 = true) jobs)
    as H1.
  { repeat (constructor; [vm_compute; reflexivity|]). constructor. }
  assert (run_jobs platform jobs folders
          = (Ok (2, 1)%nat, (run_jobs platform jobs folders).2))
    as H2 by (vm_compute; reflexivity).
  split; [exact H1|]. split; [exact H2|].
  exact (proj2 (counters_match_requests platform jobs folders 2 1 _ H1 H2)).
Defined.

(** The second row has no [url] column. *)
Lemma read_jobs_first_bad_row_witness :
  Forall complete_row [good_row]
  ∧ ¬ complete_row bad_row
  ∧ read_jobs platform ([good_row] ++ bad_row :: [good_row]) =
      Raise (match bad_row !! "url" with
             | None => KeyError "url"
             | Some None => AttributeError "'NoneType' object has no attribute 'strip'"
             | Some (Some _) =>
                 match bad_row !! "relative_output_path" with
                 | None => KeyError "relative_output_path"
                 | _ => AttributeError "'NoneType' object has no attribute 'strip'"
                 end
             end).
Proof.
  assert (Forall complete_row [good_row]) as H1.
  { constructor; [|constructor]. exists "a", "b". split; vm_compute; reflexivity. }
  assert (¬ complete_row bad_row) as H2.
  { intros (u & rel & Hu & _). vm_compute in Hu. discriminate Hu. }
  split; [exact H1|]. split; [exact H2|].
  exact (read_jobs_first_bad_row platform [good_row] bad_row [good_row] H1 H2).
Defined.


(** The path of the example of the specification. *)
Lemma manifest_path_round_trip_witness :
  normal_relative "uncooked/shape1"
  ∧ arcname platform (joinpath (ROOT platform) "uncooked/shape1") = "uncooked/shape1".
Proof.
  assert (normal_relative "uncooked/shape1") as H1.
  { unfold normal_relative.
    assert (Py.split "/" "uncooked/shape1" = ["uncooked"; "shape1"]) as ->
      by (vm_compute; reflexivity).
    repeat (constructor; [split; intros H; discriminate H|]). constructor. }
  split; [exact H1|].
  exact (proj1 (proj2 (proj2 (manifest_path_round_trip platform "uncooked/shape1" H1)))).
Defined.

(** The tree with an old archive. *)
Lemma build_zip_frame_witness :
  build_zip platform (ZIP_OUT platform) tree
    = ((build_zip platform (ZIP_OUT platform) tree).1,
       (build_zip platform (ZIP_OUT platform) tree).2)
  ∧ ∀ q, q ≠ ZIP_OUT platform →
      fs (build_zip platform (ZIP_OUT platform) tree).2 !! q = fs tree !! q.
Proof.
  assert (build_zip platform (ZIP_OUT platform) tree
          = ((build_zip platform (ZIP_OUT platform) tree).1,
             (build_zip platform (ZIP_OUT platform) tree).2)) as H1
    by (vm_compute; reflexivity).
  split; [exact H1|].
  exact (proj1 (proj2 (proj2 (build_zip_frame platform tree _ _ H1)))).
Defined.

(** The archive of the tree, built twice. *)
Lemma build_zip_idempotent_witness :
  build_zip platform (ZIP_OUT platform) tree
    = (Ok tt, (build_zip platform (ZIP_OUT platform) tree).2)
  ∧ build_zip platform (ZIP_OUT platform) (build_zip platform (ZIP_OUT platform) tree).2
    = (Ok tt, (build_zip platform (ZIP_OUT platform) tree).2).
Proof.
  assert (build_zip platform (ZIP_OUT platform) tree
          = (Ok tt, (build_zip platform (ZIP_OUT platform) tree).2)) as H1
    by (vm_compute; reflexivity).
  split; [exact H1|].
  exact (proj1 (build_zip_idempotent platform tree _ H1)).
Defined.

(** The archive of the tree. *)
Lemma member_names_in_folders_witness :
  build_zip platform (ZIP_OUT platform) tree
    = (Ok tt, (build_zip platform (ZIP_OUT platform) tree).2)
  ∧ ∃ z, zip_folders platform (<[ZIP_OUT platform := File ""]> (fs tree)) []
           [OUT_UNCOOKED platform; OUT_COOKED platform] = Ok z
         ∧ fs (build_zip platform (ZIP_OUT platform) tree).2 !! ZIP_OUT platform
           = Some (File (zip_bytes platform (Archive ZIP_DEFLATED z)))
         ∧ ∀ m, m ∈ z →
             Py.startswith "uncooked/" m.1 = true ∨ Py.startswith "cooked/" m.1 = true.
Proof.
  assert (build_zip platform (ZIP_OUT platform) tree
          = (Ok tt, (build_zip platform (ZIP_OUT platform) tree).2)) as H1
    by (vm_compute; reflexivity).
  split; [exact H1|].
  exact (member_names_in_folders platform tree _ H1).
Defined.

(** The manifest after the run over the three jobs. *)
Lemma run_keeps_other_files_witness :
  main platform start = ((main platform start).1, (main platform start).2)
  ∧ fs start !! manifest_csv = Some (File manifest)
  ∧ manifest ≠ ""
  ∧ manifest_csv ≠ ZIP_OUT platform
  ∧ (∀ e, e ∈ WRITTEN_ENDINGS → ¬ ends_with e (name manifest_csv))
  ∧ fs (main platform start).2 !! manifest_csv = Some (File manifest).
Proof.
  assert (main platform start = ((main platform start).1, (main platform start).2))
    as H1 by (vm_compute; reflexivity).
  assert (fs start !! manifest_csv = Some (File manifest)) as H2
    by (vm_compute; reflexivity).
  assert (manifest ≠ "") as H3 by (intros H; vm_compute in H; discriminate H).
  assert (manifest_csv ≠ ZIP_OUT platform) as H4
    by (intros H; vm_compute in H; discriminate H).
  assert (∀ e, e ∈ WRITTEN_ENDINGS → ¬ ends_with e (name manifest_csv)) as H5.
  { assert (name manifest_csv = "manifest.csv") as -> by (vm_compute; reflexivity).
    intros e He [m Hm]. unfold WRITTEN_ENDINGS in He.
    repeat (apply elem_of_cons in He as [->|He];
            [do 12 (destruct m as [|? m]; [discriminate Hm|injection Hm as _ Hm]);
             destruct m; discriminate Hm|]).
    by apply elem_of_nil in He. }
  split; [exact H1|]. split; [exact H2|]. split; [exact H3|]. split; [exact H4|].
  split; [exact H5|].
  exact (run_keeps_other_files platform start _ _ manifest_csv manifest
           H1 H2 H3 H4 H5).
Defined.

(** The run over the three jobs returns 1. *)
Lemma exit_code_meaning_witness :
  main platform start = (Ok 1%Z, (main platform start).2)
  ∧ ((1%Z = 2%Z ∧ Fs.exists_ (fs (main platform start).2) (MANIFEST platform) = false
      ∧ sent (main platform start).2 = sent start)
     ∨ ((1%Z = 0%Z ∨ 1%Z = 1%Z)
        ∧ Fs.is_file (fs (main platform start).2) (ZIP_OUT platform) = true
        ∧ ∃ d e lines,
            stdout (main platform start).2 = (lines ++ summary platform d e)%list
            ∧ (1%Z = 1%Z ↔ (0 < e)%nat))).
Proof.
  assert (main platform start = (Ok 1%Z, (main platform start).2)) as H1
    by (vm_compute; reflexivity).
  split; [exact H1|].
  exact (exit_code_meaning platform start 1%Z _ H1).
Defined.

End MoreExamples.
